(** * Facial attendance service: a shallow embedding and its verified properties

    The development follows the Python sources

    - [backend/services/asistencia_service.py] (attendance ledger and policy),
    - [backend/services/face_recognition_service.py] (identity store, matcher),
    - [backend/services/supabase_service.py] (hosted store client),
    - [backend/api/server.py] (request handlers).

    Python dictionaries are insertion-ordered association lists with unique
    keys, [datetime] values are records of integer fields, the wall clock and
    the outcome of input/output are part of an explicit world state that a
    small state-and-exception monad threads through the service methods. *)

From Stdlib Require Import ZArith QArith Bool List String Ascii Lia.
From Stdlib Require Import Sorted Permutation.
Import ListNotations.

Local Open Scope string_scope.
Local Open Scope Z_scope.

(* ===================================================================== *)
(** * Python dictionaries *)
(* ===================================================================== *)

(** A [dict] keeps its items in insertion order; assigning to an existing key
    keeps the key's position, assigning to a new key appends, [del] removes
    the key. *)
Module PyDict.

Definition dict (V : Type) : Type := list (string * V).

Definition vacio {V} : dict V := [].

Fixpoint get {V} (k : string) (d : dict V) : option V :=
  match d with
  | [] => None
  | (k', v) :: d' => if String.eqb k k' then Some v else get k d'
  end.

Definition contains {V} (k : string) (d : dict V) : bool :=
  match get k d with Some _ => true | None => false end.

Fixpoint set {V} (k : string) (v : V) (d : dict V) : dict V :=
  match d with
  | [] => [(k, v)]
  | (k', v') :: d' =>
      if String.eqb k k' then (k, v) :: d' else (k', v') :: set k v d'
  end.

Fixpoint del {V} (k : string) (d : dict V) : dict V :=
  match d with
  | [] => []
  | (k', v') :: d' =>
      if String.eqb k k' then del k d' else (k', v') :: del k d'
  end.

Definition keys {V} (d : dict V) : list string := map fst d.
Definition values {V} (d : dict V) : list V := map snd d.
Definition items {V} (d : dict V) : list (string * V) := d.
Definition len {V} (d : dict V) : Z := Z.of_nat (List.length d).

(** [d.get(k, default)] *)
Definition get_or {V} (k : string) (default : V) (d : dict V) : V :=
  match get k d with Some v => v | None => default end.

(** The well-formedness of a dictionary: no key occurs twice. *)
Definition wf {V} (d : dict V) : Prop := NoDup (keys d).

End PyDict.

Import PyDict.

(* ===================================================================== *)
(** * Dates, times and durations ([datetime] module) *)
(* ===================================================================== *)

Module Tiempo.

Record date := mkDate { year : Z; month : Z; day : Z }.
Record time := mkTime { hour : Z; minute : Z; second : Z; microsecond : Z }.
Record datetime := mkDatetime { dt_date : date; dt_time : time }.

(** A [timedelta] is kept normalised: [0 <= seconds < 86400] and
    [0 <= microseconds < 1000000]; only [days] carries the sign. *)
Record timedelta := mkDelta { days : Z; seconds : Z; microseconds : Z }.

Definition time_valida (t : time) : Prop :=
  0 <= hour t < 24 /\ 0 <= minute t < 60 /\ 0 <= second t < 60 /\
  0 <= microsecond t < 1000000.

Definition is_leap (y : Z) : bool :=
  (y mod 4 =? 0) && (negb (y mod 100 =? 0) || (y mod 400 =? 0)).

Definition days_before_year (y : Z) : Z :=
  let y' := y - 1 in y' * 365 + y' / 4 - y' / 100 + y' / 400.

Definition DAYS_BEFORE_MONTH : list Z :=
  [-1; 0; 31; 59; 90; 120; 151; 181; 212; 243; 273; 304; 334].

Definition days_before_month (y m : Z) : Z :=
  nth (Z.to_nat m) DAYS_BEFORE_MONTH 0 +
  (if (2 <? m) && is_leap y then 1 else 0).

(** [date.toordinal()] *)
Definition toordinal (d : date) : Z :=
  days_before_year (year d) + days_before_month (year d) (month d) + day d.

(** [timedelta(days, seconds, microseconds)] on integers: the constructor
    carries microseconds into seconds and seconds into days with floor
    division, as [divmod] does. *)
Definition timedelta_new (d s us : Z) : timedelta :=
  let d1 := d + s / 86400 in
  let s1 := s mod 86400 in
  let su := us / 1000000 in
  let us1 := us mod 1000000 in
  let d2 := d1 + su / 86400 in
  let s2 := s1 + su mod 86400 in
  mkDelta (d2 + s2 / 86400) (s2 mod 86400) us1.

(** [a - b] on two naive [datetime] values. *)
Definition datetime_sub (a b : datetime) : timedelta :=
  let secs (t : time) := second t + minute t * 60 + hour t * 3600 in
  timedelta_new
    (toordinal (dt_date a) - toordinal (dt_date b))
    (secs (dt_time a) - secs (dt_time b))
    (microsecond (dt_time a) - microsecond (dt_time b)).

(** [datetime.combine(d, t)]; when [d] is a [datetime] only its date part
    is used. *)
Definition combine (d : datetime) (t : time) : datetime :=
  mkDatetime (dt_date d) t.

(** ** Formatting *)

Definition digito (n : Z) : ascii :=
  ascii_of_nat (48 + Z.to_nat (n mod 10)).

Definition dos_digitos (n : Z) : list ascii :=
  [digito (n / 10); digito n].

Definition cuatro_digitos (n : Z) : list ascii :=
  [digito (n / 1000); digito (n / 100); digito (n / 10); digito n].

(** [strftime("%H:%M:%S")] *)
Definition strftime_HMS (t : datetime) : string :=
  string_of_list_ascii
    (dos_digitos (hour (dt_time t)) ++ [":"%char] ++
     dos_digitos (minute (dt_time t)) ++ [":"%char] ++
     dos_digitos (second (dt_time t))).

(** [strftime("%Y-%m-%d")] *)
Definition strftime_Ymd (t : datetime) : string :=
  string_of_list_ascii
    (cuatro_digitos (year (dt_date t)) ++ ["-"%char] ++
     dos_digitos (month (dt_date t)) ++ ["-"%char] ++
     dos_digitos (day (dt_date t))).

(** [strftime("%Y-%m-%d %H:%M:%S")] *)
Definition strftime_Ymd_HMS (t : datetime) : string :=
  strftime_Ymd t ++ " " ++ strftime_HMS t.

(** ** Parsing

    [datetime.strptime(s, "%H:%M:%S")] matches [s] against the regular
    expression
    [(2[0-3]|[0-1]\d|\d):([0-5]\d|\d):(6[0-1]|[0-5]\d|\d)]
    and fails when the match does not consume the whole string or when the
    seconds field exceeds 59.  Text is taken to be ASCII. *)

Definition valor_digito (c : ascii) : option Z :=
  let n := nat_of_ascii c in
  if ((48 <=? n) && (n <=? 57))%nat then Some (Z.of_nat (n - 48)) else None.

(** One directive: the two-digit alternative within [0, max] is tried
    first, then the single digit. *)
Definition leer_campo (max : Z) (s : list ascii) : option (Z * list ascii) :=
  match s with
  | [] => None
  | c1 :: resto =>
      match valor_digito c1 with
      | None => None
      | Some a =>
          match resto with
          | c2 :: resto' =>
              match valor_digito c2 with
              | Some b =>
                  if 10 * a + b <=? max then Some (10 * a + b, resto')
                  else Some (a, resto)
              | None => Some (a, resto)
              end
          | [] => Some (a, [])
          end
      end
  end.

Definition leer_literal (c : ascii) (s : list ascii) : option (list ascii) :=
  match s with
  | c' :: resto => if Ascii.eqb c c' then Some resto else None
  | [] => None
  end.

(** The [time] part of [datetime.strptime(s, "%H:%M:%S")]; [None] stands
    for the [ValueError] the call raises. *)
Definition strptime_HMS (s : string) : option time :=
  match leer_campo 23 (list_ascii_of_string s) with
  | None => None
  | Some (h, s1) =>
  match leer_literal ":"%char s1 with
  | None => None
  | Some s2 =>
  match leer_campo 59 s2 with
  | None => None
  | Some (m, s3) =>
  match leer_literal ":"%char s3 with
  | None => None
  | Some s4 =>
  match leer_campo 61 s4 with
  | Some (sec, []) => if sec <=? 59 then Some (mkTime h m sec 0) else None
  | _ => None
  end end end end end.

End Tiempo.

Import Tiempo.

Arguments strftime_HMS : simpl never.
Arguments strftime_Ymd : simpl never.
Arguments strftime_Ymd_HMS : simpl never.
Arguments strptime_HMS : simpl never.
Arguments digito : simpl never.

Local Open Scope list_scope.

(* ===================================================================== *)
(** * Data model *)
(* ===================================================================== *)

(** Values that travel in the dictionaries of the HTTP responses. *)
Inductive valor : Type :=
| VNone
| VBool (b : bool)
| VInt (n : Z)
| VFloat (x : Q)
| VStr (s : string)
| VEnteros (l : list Z)
| VVector (v : list Q).

(** An embedding is a vector of finite floating-point numbers; finite floats
    are rationals and are compared exactly. *)
Definition Embedding : Type := list Q.

(** One attendance event as the ledger keeps it: [{"tipo": ..., "hora": ...}].
    [None] is Python's [None]. *)
Record Registro := mkRegistro { tipo : option string; hora : string }.

(** The ledger: date -> person -> events in insertion order. *)
Definition Asistencias : Type := dict (dict (list Registro)).

(** A row of the hosted table [asistencias]. *)
Record FilaAsistencia := mkFilaAsistencia {
  fa_persona_nombre : string;
  fa_tipo : option string;
  fa_fecha : string;
  fa_hora : string
}.

(** An entry of the identity store; a field is [None] when the key is absent
    or bound to [None]. *)
Record Persona := mkPersona {
  embedding : option Embedding;
  fecha_registro : option string;
  edad : option Z;
  genero : option string;
  foto_url : option string
}.

(** A row of the hosted table [personas]. *)
Record FilaPersona := mkFilaPersona {
  fp_nombre : string;
  fp_datos : Persona
}.

(** What the recognition library reports for one detected face: the corners
    of the box and the unit-length embedding; the optional attributes are
    the ones the code probes with [hasattr]. *)
Record Face := mkFace {
  bbox : Z * Z * Z * Z;
  normed_embedding : Embedding;
  age : option Z;
  sex : option string;
  det_score : option Q
}.

(* ===================================================================== *)
(** * The world and the monad of service methods *)
(* ===================================================================== *)

Inductive excepcion : Type :=
| OSError         (* a local file could not be written *)
| ValueError      (* [strptime] rejected its input *)
| APIError        (* the hosted store could not be reached *)
| DecodeError.    (* the image of a request could not be decoded *)

Inductive resultado (A : Type) : Type :=
| Ok (a : A)
| Raise (e : excepcion).
Arguments Ok {A} a.
Arguments Raise {A} e.

(** Everything a request can read or change.  [reloj k] is the [k]-th reading
    of the wall clock; [disco_ok] and [remoto_ok] tell whether, while the
    request runs, writes to the local disk and calls to the hosted store go
    through. *)
Record Mundo := mkMundo {
  reloj : nat -> datetime;
  lecturas : nat;
  disco_ok : bool;
  remoto_ok : bool;
  url_foto : string -> option string;
  (* the hosted store *)
  tabla_personas : list FilaPersona;
  tabla_asistencias : list FilaAsistencia;
  (* SupabaseService *)
  client : bool;
  (* AsistenciaService *)
  usa_supabase : bool;
  asistencia_cache : Asistencias;
  (* FaceRecognitionService *)
  personas_registradas : dict Persona
}.

Definition con_lecturas (n : nat) (w : Mundo) : Mundo :=
  mkMundo (reloj w) n (disco_ok w) (remoto_ok w) (url_foto w)
    (tabla_personas w) (tabla_asistencias w) (client w)
    (usa_supabase w) (asistencia_cache w) (personas_registradas w).

Definition con_tabla_personas (t : list FilaPersona) (w : Mundo) : Mundo :=
  mkMundo (reloj w) (lecturas w) (disco_ok w) (remoto_ok w) (url_foto w)
    t (tabla_asistencias w) (client w)
    (usa_supabase w) (asistencia_cache w) (personas_registradas w).

Definition con_tabla_asistencias (t : list FilaAsistencia) (w : Mundo) : Mundo :=
  mkMundo (reloj w) (lecturas w) (disco_ok w) (remoto_ok w) (url_foto w)
    (tabla_personas w) t (client w)
    (usa_supabase w) (asistencia_cache w) (personas_registradas w).

Definition con_asistencia_cache (c : Asistencias) (w : Mundo) : Mundo :=
  mkMundo (reloj w) (lecturas w) (disco_ok w) (remoto_ok w) (url_foto w)
    (tabla_personas w) (tabla_asistencias w) (client w)
    (usa_supabase w) c (personas_registradas w).

Definition con_personas_registradas (p : dict Persona) (w : Mundo) : Mundo :=
  mkMundo (reloj w) (lecturas w) (disco_ok w) (remoto_ok w) (url_foto w)
    (tabla_personas w) (tabla_asistencias w) (client w)
    (usa_supabase w) (asistencia_cache w) p.

(** The clock and the environment of one request replaced, the stores kept. *)
Definition con_entorno (r : nat -> datetime) (disco remoto : bool) (w : Mundo)
  : Mundo :=
  mkMundo r 0%nat disco remoto (url_foto w)
    (tabla_personas w) (tabla_asistencias w) (client w)
    (usa_supabase w) (asistencia_cache w) (personas_registradas w).

(** A method runs in a world, returns or raises, and leaves a world behind;
    what it changed before raising stays changed. *)
Definition M (A : Type) : Type := Mundo -> resultado A * Mundo.

Definition ret {A} (a : A) : M A := fun w => (Ok a, w).

Definition bind {A B} (c : M A) (k : A -> M B) : M B :=
  fun w =>
    match c w with
    | (Ok a, w') => k a w'
    | (Raise e, w') => (Raise e, w')
    end.

Definition raise {A} (e : excepcion) : M A := fun w => (Raise e, w).

(** [try: c except Exception: h] *)
Definition try_except {A} (c : M A) (h : excepcion -> M A) : M A :=
  fun w =>
    match c w with
    | (Ok a, w') => (Ok a, w')
    | (Raise e, w') => h e w'
    end.

Definition leer {A} (f : Mundo -> A) : M A := fun w => (Ok (f w), w).
Definition modificar (f : Mundo -> Mundo) : M unit := fun w => (Ok tt, f w).

Declare Scope py_scope.
Delimit Scope py_scope with py.
Notation "x <- c ;; k" := (bind c (fun x => k))
  (at level 61, c at next level, right associativity) : py_scope.
Notation "' pat <- c ;; k" := (bind c (fun x => match x with pat => k end))
  (at level 61, pat pattern, c at next level, right associativity) : py_scope.
Notation "c ;; k" := (bind c (fun _ => k))
  (at level 61, right associativity) : py_scope.
Local Open Scope py_scope.

(** [datetime.now()] and [datetime.today()]: the next reading of the clock. *)
Definition datetime_now : M datetime :=
  fun w => (Ok (reloj w (lecturas w)), con_lecturas (S (lecturas w)) w).

Definition datetime_today : M datetime := datetime_now.

(** [datetime.utcnow()] *)
Definition datetime_utcnow : M datetime := datetime_now.

(** A write to a local file. *)
Definition escribir_disco : M unit :=
  fun w => if disco_ok w then (Ok tt, w) else (Raise OSError, w).

(** A round trip to the hosted store.  One flag decides every call of a
    request: the calls answer together or fail together.  The properties of
    several calls are therefore stated for a store that answers, or for one
    that fails throughout. *)
Definition llamar_remoto : M unit :=
  fun w => if remoto_ok w then (Ok tt, w) else (Raise APIError, w).

Definition opt_str (o : option string) : valor :=
  match o with Some s => VStr s | None => VNone end.

Definition opt_int (o : option Z) : valor :=
  match o with Some n => VInt n | None => VNone end.

Definition opt_float (o : option Q) : valor :=
  match o with Some x => VFloat x | None => VNone end.

Definition opt_eqb (o : option string) (s : string) : bool :=
  match o with Some s' => String.eqb s' s | None => false end.

(* ===================================================================== *)
(** * [SupabaseService] *)
(* ===================================================================== *)

(** The hosted store is a pair of tables.  A query filters the rows, orders
    them with a stable sort on the text of the column and returns them; any
    call fails as a whole when the store cannot be reached.  The store itself
    fixes no order among rows with equal keys: the sort keeps them in the
    order of the table, and the properties of ordered results are stated up
    to the order of such rows.  The photo bucket is represented by
    [url_foto], the public URL an upload yields. *)

Fixpoint insertar {A} (le : A -> A -> bool) (x : A) (l : list A) : list A :=
  match l with
  | [] => [x]
  | y :: l' => if le x y then x :: y :: l' else y :: insertar le x l'
  end.

Definition ordenar {A} (le : A -> A -> bool) (l : list A) : list A :=
  fold_right (insertar le) [] l.

Definition registro_de_fila (row : FilaAsistencia) : Registro :=
  mkRegistro (fa_tipo row) (fa_hora row).

Definition enabled : M bool := leer client.

Definition seis_digitos (n : Z) : list ascii :=
  [digito (n / 100000); digito (n / 10000); digito (n / 1000);
   digito (n / 100); digito (n / 10); digito n].

(** [datetime.isoformat()] *)
Definition isoformat (t : datetime) : string :=
  String.append (strftime_Ymd t)
    (String.append "T"
       (String.append (strftime_HMS t)
          (if microsecond (dt_time t) =? 0 then ""
           else String.append "."
                  (string_of_list_ascii
                     (seis_digitos (microsecond (dt_time t))))))).

Definition _subir_imagen (nombre : string) : M (option string) :=
  e <- enabled ;;
  if negb e then ret None else
  codificada <- leer (fun w => url_foto w nombre) ;;
  match codificada with
  | None => ret None
  | Some public_url =>
      try_except (llamar_remoto ;; ret (Some public_url)) (fun _ => ret None)
  end.

Definition _eliminar_imagen (nombre : string) : M unit :=
  e <- enabled ;;
  if negb e then ret tt else
  try_except llamar_remoto (fun _ => ret tt).

Section Carga.

(** The cast of one stored value to single precision, as
    [np.array(..., dtype=np.float32)] performs it.  The values are finite. *)
Variable np_float32 : Q -> Q.

Definition cargar_personas_embeddings : M (dict Persona) :=
  e <- enabled ;;
  if negb e then ret vacio else
  try_except
    (llamar_remoto ;;
     data <- leer tabla_personas ;;
     ret (fold_left
            (fun personas row =>
               let d := fp_datos row in
               let vector :=
                 map np_float32
                   (match embedding d with Some v => v | None => [] end) in
               set (fp_nombre row)
                 (mkPersona (Some vector) (fecha_registro d) (edad d)
                    (genero d) (foto_url d))
                 personas)
            data vacio))
    (fun _ => ret vacio).

End Carga.

(** [upsert(payload, on_conflict="nombre")]: the columns of the payload
    replace those of the row with that name; a payload without [foto_url]
    leaves the column as it was. *)
Fixpoint upsert_persona (nombre : string) (p : Persona) (t : list FilaPersona)
  : list FilaPersona :=
  match t with
  | [] => [mkFilaPersona nombre p]
  | row :: t' =>
      if String.eqb (fp_nombre row) nombre then
        mkFilaPersona nombre
          (mkPersona (embedding p) (fecha_registro p) (edad p) (genero p)
             (match foto_url p with
              | Some u => Some u
              | None => foto_url (fp_datos row)
              end)) :: t'
      else row :: upsert_persona nombre p t'
  end.

Definition no_vacia (o : option string) : option string :=
  match o with
  | Some s => if String.eqb s "" then None else Some s
  | None => None
  end.

Definition guardar_persona (nombre : string) (emb : Embedding)
    (edad_ : option Z) (genero_ : option string) (fecha_registro_ : string)
    (con_imagen : bool) : M (option string) :=
  e <- enabled ;;
  if negb e then ret None else
  foto <- (if con_imagen then _subir_imagen nombre else ret None) ;;
  fecha <- (if String.eqb fecha_registro_ ""
            then (t <- datetime_utcnow ;; ret (isoformat t))
            else ret fecha_registro_) ;;
  let payload :=
    mkPersona (Some emb) (Some fecha) edad_ genero_ (no_vacia foto) in
  try_except
    (llamar_remoto ;;
     modificar (fun w =>
       con_tabla_personas (upsert_persona nombre payload (tabla_personas w)) w))
    (fun _ => ret tt) ;;
  ret foto.

Definition supabase_listar_personas : M (list (dict valor)) :=
  e <- enabled ;;
  if negb e then ret [] else
  try_except
    (llamar_remoto ;;
     data <- leer (fun w =>
       ordenar (fun a b => String.leb (fp_nombre a) (fp_nombre b))
         (tabla_personas w)) ;;
     ret (map
            (fun row =>
               let genero_ := genero (fp_datos row) in
               let genero_texto :=
                 if opt_eqb genero_ "M" then "Masculino"
                 else if opt_eqb genero_ "F" then "Femenino" else "N/A" in
               [("nombre", VStr (fp_nombre row));
                ("fecha_registro", opt_str (fecha_registro (fp_datos row)));
                ("edad", opt_int (edad (fp_datos row)));
                ("genero", VStr genero_texto);
                ("foto_url", opt_str (foto_url (fp_datos row)))])
            data))
    (fun _ => ret []).

Definition supabase_eliminar_persona (nombre : string) : M bool :=
  e <- enabled ;;
  if negb e then ret false else
  try_except
    (llamar_remoto ;;
     modificar (fun w =>
       con_tabla_personas
         (filter (fun row => negb (String.eqb (fp_nombre row) nombre))
            (tabla_personas w)) w) ;;
     _eliminar_imagen nombre ;;
     ret true)
    (fun _ => ret false).

(** [guardar_asistencia] returns the payload, or the empty dictionary
    ([None] here) when the store is disabled or the insert failed. *)
Definition guardar_asistencia (nombre : string) (tipo_ : option string)
    (fecha hora_ : string) : M (option FilaAsistencia) :=
  e <- enabled ;;
  if negb e then ret None else
  let payload := mkFilaAsistencia nombre tipo_ fecha hora_ in
  try_except
    (llamar_remoto ;;
     modificar (fun w =>
       con_tabla_asistencias (tabla_asistencias w ++ [payload]) w) ;;
     ret (Some payload))
    (fun _ => ret None).

Definition _group_by_person (rows : list FilaAsistencia)
  : dict (list Registro) :=
  fold_left
    (fun agrupado row =>
       let persona := fa_persona_nombre row in
       set persona (get_or persona [] agrupado ++ [registro_de_fila row])
         agrupado)
    rows vacio.

Definition obtener_asistencia_por_fecha (fecha : string)
  : M (dict (list Registro)) :=
  e <- enabled ;;
  if negb e then ret vacio else
  try_except
    (llamar_remoto ;;
     data <- leer (fun w =>
       ordenar (fun a b => String.leb (fa_hora a) (fa_hora b))
         (filter (fun row => String.eqb (fa_fecha row) fecha)
            (tabla_asistencias w))) ;;
     ret (_group_by_person data))
    (fun _ => ret vacio).

Definition obtener_historial : M Asistencias :=
  e <- enabled ;;
  if negb e then ret vacio else
  try_except
    (llamar_remoto ;;
     data <- leer (fun w =>
       ordenar (fun a b => String.leb (fa_fecha a) (fa_fecha b))
         (ordenar (fun a b => String.leb (fa_hora a) (fa_hora b))
            (tabla_asistencias w))) ;;
     ret (fold_left
            (fun historial row =>
               let fecha := fa_fecha row in
               let persona := fa_persona_nombre row in
               let del_dia := get_or fecha vacio historial in
               set fecha
                 (set persona
                    (get_or persona [] del_dia ++ [registro_de_fila row])
                    del_dia)
                 historial)
            data vacio))
    (fun _ => ret vacio).

Definition obtener_ultimo_registro (nombre fecha : string)
  : M (option FilaAsistencia) :=
  e <- enabled ;;
  if negb e then ret None else
  try_except
    (llamar_remoto ;;
     data <- leer (fun w =>
       firstn 1
         (ordenar (fun a b => String.leb (fa_hora b) (fa_hora a))
            (filter
               (fun row =>
                  String.eqb (fa_persona_nombre row) nombre &&
                  String.eqb (fa_fecha row) fecha)
               (tabla_asistencias w)))) ;;
     ret (match data with row :: _ => Some row | [] => None end))
    (fun _ => ret None).

(* ===================================================================== *)
(** * [AsistenciaService] *)
(* ===================================================================== *)

Definition _guardar_asistencia_local : M unit := escribir_disco.

Definition _registrar_local (nombre : string) (tipo_ : option string)
    (fecha hora_ : string) : M unit :=
  modificar (fun w =>
    let cache := asistencia_cache w in
    let cache1 :=
      if contains fecha cache then cache else set fecha vacio cache in
    let dia := get_or fecha vacio cache1 in
    let dia1 := if contains nombre dia then dia else set nombre [] dia in
    let dia2 :=
      set nombre (get_or nombre [] dia1 ++ [mkRegistro tipo_ hora_]) dia1 in
    con_asistencia_cache (set fecha dia2 cache1) w) ;;
  _guardar_asistencia_local.

Definition registrar_asistencia (nombre : string) (tipo_ : option string)
  : M (dict valor) :=
  t1 <- datetime_now ;;
  let fecha_hoy := strftime_Ymd t1 in
  t2 <- datetime_now ;;
  let hora_actual := strftime_HMS t2 in
  usa <- leer usa_supabase ;;
  (if usa
   then guardar_asistencia nombre tipo_ fecha_hoy hora_actual ;; ret tt
   else _registrar_local nombre tipo_ fecha_hoy hora_actual) ;;
  ret [("exito", VBool true);
       ("nombre", VStr nombre);
       ("tipo", opt_str tipo_);
       ("hora", VStr hora_actual);
       ("fecha", VStr fecha_hoy)].

Definition obtener_asistencia_hoy : M (dict (list Registro)) :=
  t <- datetime_now ;;
  let fecha_hoy := strftime_Ymd t in
  usa <- leer usa_supabase ;;
  if usa then obtener_asistencia_por_fecha fecha_hoy
  else leer (fun w => get_or fecha_hoy vacio (asistencia_cache w)).

Definition obtener_asistencia_fecha (fecha : string)
  : M (dict (list Registro)) :=
  usa <- leer usa_supabase ;;
  if usa then obtener_asistencia_por_fecha fecha
  else leer (fun w => get_or fecha vacio (asistencia_cache w)).

Definition obtener_asistencia_persona (nombre : string)
    (fecha : option string) : M (list Registro) :=
  fecha' <- match no_vacia fecha with
            | Some f => ret f
            | None => t <- datetime_now ;; ret (strftime_Ymd t)
            end ;;
  registros <- obtener_asistencia_fecha fecha' ;;
  ret (get_or nombre [] registros).

Definition obtener_historial_completo : M Asistencias :=
  usa <- leer usa_supabase ;;
  if usa then obtener_historial else leer asistencia_cache.

(** The loop of [_calcular_estadisticas] with its three counters. *)
Definition contar_persona (acc : Z * Z * Z) (eventos : list Registro)
  : Z * Z * Z :=
  let '(con_entrada, con_salida, presentes) := acc in
  let tiene_entrada := existsb (fun r => opt_eqb (tipo r) "entrada") eventos in
  let tiene_salida := existsb (fun r => opt_eqb (tipo r) "salida") eventos in
  let con_entrada := if tiene_entrada then con_entrada + 1 else con_entrada in
  let con_salida := if tiene_salida then con_salida + 1 else con_salida in
  let presentes :=
    if tiene_entrada && negb tiene_salida then presentes + 1 else presentes in
  (con_entrada, con_salida, presentes).

Definition _calcular_estadisticas (registros : dict (list Registro))
  : dict valor :=
  let total_personas := len registros in
  let '(con_entrada, con_salida, presentes) :=
    fold_left contar_persona (values registros) (0, 0, 0) in
  [("total_personas", VInt total_personas);
   ("con_entrada", VInt con_entrada);
   ("con_salida", VInt con_salida);
   ("presentes", VInt presentes)].

Definition obtener_estadisticas_hoy : M (dict valor) :=
  t <- datetime_now ;;
  let fecha_hoy := strftime_Ymd t in
  registros <- obtener_asistencia_hoy ;;
  let estadisticas := _calcular_estadisticas registros in
  ret (set "fecha" (VStr fecha_hoy) estadisticas).

(** [(hora_actual - ultimo_dt).seconds] *)
Definition diff_segundos (hora_actual hoy : datetime) (hora_ultimo : time) : Z :=
  let ultimo_dt := combine hoy hora_ultimo in
  seconds (datetime_sub hora_actual ultimo_dt).

Definition _evaluar_registro (nombre : string) (ultimo : option Registro)
    (tiempo_espera : Z) : M (bool * option string) :=
  match ultimo with
  | None => ret (true, Some "entrada")
  | Some u =>
      hora_actual <- datetime_now ;;
      hora_ultimo <- match strptime_HMS (hora u) with
                     | Some t => ret t
                     | None => raise ValueError
                     end ;;
      hoy <- datetime_today ;;
      if diff_segundos hora_actual hoy hora_ultimo <? tiempo_espera
      then ret (false, None)
      else
        let tipo_siguiente :=
          if opt_eqb (tipo u) "entrada" then "salida" else "entrada" in
        ret (true, Some tipo_siguiente)
  end.

(** [historial[-1] if historial else None] *)
Definition ultimo_de {A} (historial : list A) : option A :=
  match rev historial with
  | x :: _ => Some x
  | [] => None
  end.

Definition verificar_puede_registrar (nombre : string) (tiempo_espera : Z)
  : M (bool * option string) :=
  t <- datetime_now ;;
  let fecha_hoy := strftime_Ymd t in
  usa <- leer usa_supabase ;;
  if usa then
    ultimo <- obtener_ultimo_registro nombre fecha_hoy ;;
    _evaluar_registro nombre (option_map registro_de_fila ultimo) tiempo_espera
  else
    registros <- obtener_asistencia_hoy ;;
    let historial := get_or nombre [] registros in
    let ultimo := ultimo_de historial in
    _evaluar_registro nombre ultimo tiempo_espera.

Definition TIEMPO_ESPERA_DEFECTO : Z := 10.

(* ===================================================================== *)
(** * [FaceRecognitionService] and the request handlers *)
(* ===================================================================== *)

(** The literal [0.4] denotes the double nearest to four tenths. *)
Definition UMBRAL_DEFECTO : Q := 3602879701896397 # 9007199254740992.

Definition _guardar_personas_local : M unit := escribir_disco.

(** [os.makedirs] followed by [cv2.imwrite]; the photo itself is not kept in
    the world. *)
Definition _guardar_foto_local (nombre : string) : M unit := escribir_disco.

(** [os.remove] of the photo when it exists. *)
Definition _eliminar_foto_local (nombre : string) : M unit := escribir_disco.

(** [sep in s] for a one-character [sep]. *)
Fixpoint contiene (sep : ascii) (s : string) : bool :=
  match s with
  | EmptyString => false
  | String c s' => Ascii.eqb c sep || contiene sep s'
  end.

(** [s.split(sep)] for a one-character [sep]. *)
Fixpoint split (sep : ascii) (s : string) : list string :=
  match s with
  | EmptyString => [EmptyString]
  | String c s' =>
      if Ascii.eqb c sep then EmptyString :: split sep s'
      else
        match split sep s' with
        | h :: t => String c h :: t
        | [] => [String c EmptyString]
        end
  end.

(** The text [base64_to_image] hands to the decoder: what follows the first
    comma, up to the second one, when there is a comma. *)
Definition quitar_prefijo (base64_string : string) : string :=
  if contiene ","%char base64_string
  then nth 1 (split ","%char base64_string) EmptyString
  else base64_string.

(** [image_to_base64], on the encoded bytes of the image. *)
Definition image_to_base64 (img_base64 : string) : string :=
  String.append "data:image/jpeg;base64," img_base64.

(** The image of a request, represented by what becomes of it: it cannot be
    decoded, or the detector finds [faces] in it. *)
Inductive Imagen : Type :=
| Ilegible
| Legible (faces : list Face).

(** [base64_to_image(imagen_base64)] followed by [self.app.get(imagen)]. *)
Definition app_get (imagen : Imagen) : M (list Face) :=
  match imagen with
  | Ilegible => raise DecodeError
  | Legible faces => ret faces
  end.

(** The answers of the HTTP layer; the annotated image of the detect answer
    is left out. *)
Inductive Respuesta : Type :=
| RespError (mensaje : string) (status : Z)
| RespExcepcion (e : excepcion)                    (* status 500 *)
| RespRostros (rostros : list (dict valor)) (total_rostros : Z)
| RespResultado (resultado : dict valor)
| RespPersonas (personas : list (dict valor)) (total : Z)
| RespRegistros (registros : list (dict valor)) (total_registrados : Z)
| RespAsistencia (asistencia : dict (list Registro)) (estadisticas : dict valor).

Section Reconocimiento.

(** [np.dot] on two embeddings, with whatever rounding it performs.  The
    values are finite. *)
Variable np_dot : Embedding -> Embedding -> Q.

(** One iteration of the scan of [_reconocer_persona]. *)
Definition comparar (emb : Embedding) (acc : option string * Q)
    (item : string * Persona) : option string * Q :=
  let '(mejor_match, mejor_similitud) := acc in
  let '(nombre, datos) := item in
  match embedding datos with
  | None => acc
  | Some registrado =>
      if (List.length registrado =? 0)%nat then acc
      else
        let similitud := np_dot emb registrado in
        if negb (Qle_bool similitud mejor_similitud)
        then (Some nombre, similitud)
        else acc
  end.

Definition _reconocer_persona (emb : Embedding) (umbral : Q)
  : M (option string * Q) :=
  personas <- leer personas_registradas ;;
  let '(mejor_match, mejor_similitud) :=
    fold_left (comparar emb) (items personas) (None, 0%Q) in
  if Qle_bool umbral mejor_similitud
  then ret (mejor_match, mejor_similitud)
  else ret (None, 0%Q).

Definition bbox_tolist (b : Z * Z * Z * Z) : valor :=
  let '(x1, y1, x2, y2) := b in VEnteros [x1; y1; x2; y2].

Definition rostro_de (face : Face) : M (dict valor) :=
  let genero_etiqueta :=
    match sex face with
    | Some s => VStr (if String.eqb s "M" then "Masculino" else "Femenino")
    | None => VNone
    end in
  let resultado :=
    [("bbox", bbox_tolist (bbox face));
     ("edad", opt_int (age face));
     ("genero", genero_etiqueta);
     ("confianza", opt_float (det_score face));
     ("embedding", VVector (normed_embedding face))] in
  '(nombre, similitud) <-
    _reconocer_persona (normed_embedding face) UMBRAL_DEFECTO ;;
  let resultado :=
    set "nombre"
      (VStr (match no_vacia nombre with
             | Some n => n
             | None => "Desconocido"
             end))
      resultado in
  ret (set "similitud" (VFloat similitud) resultado).

(** [detectar_rostros(imagen)], where [faces] is [self.app.get(imagen)]. *)
Fixpoint detectar_rostros (faces : list Face) : M (list (dict valor)) :=
  match faces with
  | [] => ret []
  | face :: faces' =>
      resultado <- rostro_de face ;;
      resultados <- detectar_rostros faces' ;;
      ret (resultado :: resultados)
  end.

Definition persona_info (face : Face) (ahora : datetime) : Persona :=
  mkPersona
    (Some (normed_embedding face))
    (Some (strftime_Ymd_HMS ahora))
    (age face)
    (Some (match sex face with
           | Some s => if String.eqb s "M" then "M" else "F"
           | None => "M"
           end))
    None.

(** [registrar_persona(nombre, imagen)], where [faces] is
    [self.app.get(imagen)]. *)
Definition registrar_persona (nombre : string) (faces : list Face)
  : M (dict valor) :=
  match faces with
  | [] =>
      ret [("exito", VBool false);
           ("mensaje", VStr "No se detecto ningun rostro en la imagen")]
  | _ :: _ :: _ =>
      ret [("exito", VBool false);
           ("mensaje",
            VStr "Se detectaron multiples rostros. Usa una sola persona")]
  | [face] =>
      ahora <- datetime_now ;;
      let info := persona_info face ahora in
      modificar (fun w =>
        con_personas_registradas (set nombre info (personas_registradas w)) w) ;;
      e <- enabled ;;
      (if e
       then guardar_persona nombre (normed_embedding face) (edad info)
              (genero info)
              (match fecha_registro info with Some f => f | None => "" end)
              true ;; ret tt
       else _guardar_personas_local ;; _guardar_foto_local nombre) ;;
      total <- leer (fun w => len (personas_registradas w)) ;;
      ret [("exito", VBool true);
           ("mensaje", VStr (String.append nombre " registrado correctamente"));
           ("total_registrados", VInt total)]
  end.

Definition listar_personas : M (list (dict valor)) :=
  e <- enabled ;;
  if e then supabase_listar_personas
  else
    personas <- leer personas_registradas ;;
    ret (map
           (fun '(nombre, datos) =>
              [("nombre", VStr nombre);
               ("fecha_registro", opt_str (fecha_registro datos));
               ("edad", opt_int (edad datos));
               ("genero",
                VStr (if opt_eqb (genero datos) "M"
                      then "Masculino" else "Femenino"))])
           (items personas)).

Definition eliminar_persona (nombre : string) : M (dict valor) :=
  presente <- leer (fun w => contains nombre (personas_registradas w)) ;;
  if negb presente then
    ret [("exito", VBool false);
         ("mensaje", VStr (String.append nombre " no encontrado"))]
  else
    modificar (fun w =>
      con_personas_registradas (del nombre (personas_registradas w)) w) ;;
    e <- enabled ;;
    (if e then supabase_eliminar_persona nombre ;; ret tt
     else _guardar_personas_local ;; _eliminar_foto_local nombre) ;;
    ret [("exito", VBool true);
         ("mensaje", VStr (String.append nombre " eliminado correctamente"))].

(** ** Handlers of [server.py]

    A handler receives [None] when the request carries no image; every
    exception is turned into a response. *)

Definition manejar (c : M Respuesta) : M Respuesta :=
  try_except c (fun e => ret (RespExcepcion e)).

(** [POST /api/detectar] *)
Definition api_detectar_rostros (imagen : option Imagen) : M Respuesta :=
  manejar
    (match imagen with
     | None => ret (RespError "No se proporcionó imagen" 400)
     | Some imagen =>
         faces <- app_get imagen ;;
         rostros <- detectar_rostros faces ;;
         (* the embeddings are removed before the answer is built *)
         let rostros :=
           map (fun rostro =>
                  if contains "embedding" rostro
                  then del "embedding" rostro else rostro)
               rostros in
         ret (RespRostros rostros (Z.of_nat (List.length rostros)))
     end).

(** [POST /api/registrar] *)
Definition api_registrar_persona (nombre : option string)
    (imagen : option Imagen) : M Respuesta :=
  manejar
    (match no_vacia nombre, imagen with
     | Some n, Some imagen =>
         faces <- app_get imagen ;;
         resultado <- registrar_persona n faces ;;
         ret (RespResultado resultado)
     | _, _ => ret (RespError "Faltan datos (nombre o imagen)" 400)
     end).

(** [GET /api/personas] *)
Definition api_listar_personas : M Respuesta :=
  manejar
    (personas <- listar_personas ;;
     ret (RespPersonas personas (Z.of_nat (List.length personas)))).

(** [DELETE /api/personas/<nombre>] *)
Definition api_eliminar_persona (nombre : string) : M Respuesta :=
  manejar
    (resultado <- eliminar_persona nombre ;;
     ret (RespResultado resultado)).

Definition nombre_de (rostro : dict valor) : option string :=
  match get "nombre" rostro with
  | Some (VStr n) => Some n
  | _ => None
  end.

(** The body of the loop of [POST /api/asistencia/registrar] for one
    recognised name: ask the policy, record when it allows. *)
Definition procesar_nombre (nombre : string)
    (registros : list (dict valor)) : M (list (dict valor)) :=
  '(puede, tipo_) <- verificar_puede_registrar nombre TIEMPO_ESPERA_DEFECTO ;;
  if puede then
    resultado <- registrar_asistencia nombre tipo_ ;;
    ret (registros ++ [resultado])
  else ret registros.

Definition procesar_rostro (rostro : dict valor)
    (registros : list (dict valor)) : M (list (dict valor)) :=
  match no_vacia (nombre_de rostro) with
  | Some nombre =>
      if negb (String.eqb nombre "Desconocido")
      then procesar_nombre nombre registros
      else ret registros
  | None => ret registros
  end.

Fixpoint procesar_rostros (rostros : list (dict valor))
    (registros : list (dict valor)) : M (list (dict valor)) :=
  match rostros with
  | [] => ret registros
  | rostro :: rostros' =>
      registros' <- procesar_rostro rostro registros ;;
      procesar_rostros rostros' registros'
  end.

(** [POST /api/asistencia/registrar] *)
Definition api_registrar_asistencia (imagen : option Imagen)
  : M Respuesta :=
  manejar
    (match imagen with
     | None => ret (RespError "No se proporcionó imagen" 400)
     | Some imagen =>
         faces <- app_get imagen ;;
         rostros <- detectar_rostros faces ;;
         registros <- procesar_rostros rostros [] ;;
         ret (RespRegistros registros (Z.of_nat (List.length registros)))
     end).

(** [GET /api/asistencia/hoy] *)
Definition api_obtener_asistencia_hoy : M Respuesta :=
  manejar
    (asistencia <- obtener_asistencia_hoy ;;
     estadisticas <- obtener_estadisticas_hoy ;;
     ret (RespAsistencia asistencia estadisticas)).

End Reconocimiento.

(* ===================================================================== *)
(** * Vocabulary of the statements *)
(* ===================================================================== *)

(** The [i]-th reading of the clock counted from the present one. *)
Definition lectura (w : Mundo) (i : nat) : datetime :=
  reloj w (lecturas w + i)%nat.

(** Every reading still to come falls on the calendar day [f]. *)
Definition hoy_es (f : string) (w : Mundo) : Prop :=
  forall i, strftime_Ymd (lectura w i) = f.

Definition segundos_del_dia (t : time) : Z :=
  second t + minute t * 60 + hour t * 3600.

(** The rows of the hosted table for a person on a day, in the order they
    were inserted. *)
Definition filas_de (w : Mundo) (fecha nombre : string) : list FilaAsistencia :=
  filter
    (fun row =>
       String.eqb (fa_persona_nombre row) nombre &&
       String.eqb (fa_fecha row) fecha)
    (tabla_asistencias w).

(** The events of a person on a day, in the order they were recorded: read
    from the local ledger, or from the rows of the hosted table. *)
Definition eventos_de (w : Mundo) (fecha nombre : string) : list Registro :=
  if usa_supabase w then map registro_de_fila (filas_de w fecha nombre)
  else get_or nombre [] (get_or fecha vacio (asistencia_cache w)).

(** The ledger, whichever store holds it. *)
Definition libro (w : Mundo) : Asistencias * list FilaAsistencia :=
  (asistencia_cache w, tabla_asistencias w).

(** The type that follows [t] in the toggle. *)
Definition opuesto (t : string) : string :=
  if String.eqb t "entrada" then "salida" else "entrada".

(** [entrada, salida, entrada, ...] *)
Fixpoint patron (n : nat) (t : string) : list (option string) :=
  match n with
  | O => []
  | S n' => Some t :: patron n' (opuesto t)
  end.

Definition alterna (l : list Registro) : Prop :=
  map tipo l = patron (List.length l) "entrada".

(** The row an [order("hora", desc=True).limit(1)] query yields. *)
Definition mas_reciente (filas : list FilaAsistencia) : option FilaAsistencia :=
  hd_error (ordenar (fun a b => String.leb (fa_hora b) (fa_hora a)) filas).

(** The most recent event of a person on a day, as the policy sees it. *)
Definition ultimo_evento (w : Mundo) (fecha nombre : string) : option Registro :=
  if usa_supabase w
  then option_map registro_de_fila (mas_reciente (filas_de w fecha nombre))
  else ultimo_de (eventos_de w fecha nombre).

(** The hosted store, when it is the one in use, answers. *)
Definition almacen_disponible (w : Mundo) : Prop :=
  usa_supabase w = true -> client w = true /\ remoto_ok w = true.

(** ** Sequences of record attempts *)

(** One attempt: the handler's loop body run for a recognised name, with the
    clock readings and the state of the environment at that moment. *)
Record Intento := mkIntento {
  i_nombre : string;
  i_reloj : nat -> datetime;
  i_disco : bool;
  i_remoto : bool
}.

Definition mundo_de (i : Intento) (w : Mundo) : Mundo :=
  con_entorno (i_reloj i) (i_disco i) (i_remoto i) w.

Definition paso (i : Intento) (w : Mundo) : Mundo :=
  snd (procesar_nombre (i_nombre i) [] (mundo_de i w)).

Fixpoint ejecutar (intentos : list Intento) (w : Mundo) : Mundo :=
  match intentos with
  | [] => w
  | i :: resto => ejecutar resto (paso i w)
  end.

(** The calendar day of an attempt. *)
Definition dia (i : Intento) : string := strftime_Ymd (i_reloj i 0%nat).

(** An attempt made in [w]: its clock readings are well formed and fall on
    one day, the store in use answers, and the readings come at least the
    debounce interval after the person's most recent event of that day. *)
Definition intento_admisible (w : Mundo) (i : Intento) : Prop :=
  (forall k, strftime_Ymd (i_reloj i k) = dia i) /\
  (forall k, time_valida (dt_time (i_reloj i k))) /\
  almacen_disponible (mundo_de i w) /\
  match ultimo_evento w (dia i) (i_nombre i) with
  | None => True
  | Some u =>
      exists t,
        strptime_HMS (hora u) = Some t /\
        forall k,
          segundos_del_dia t + TIEMPO_ESPERA_DEFECTO <=
          segundos_del_dia (dt_time (i_reloj i k))
  end.

Fixpoint admisible (intentos : list Intento) (w : Mundo) : Prop :=
  match intentos with
  | [] => True
  | i :: resto => intento_admisible w i /\ admisible resto (paso i w)
  end.

(** The attempts of a person on a day. *)
Definition intentos_de (f n : string) (intentos : list Intento)
  : list Intento :=
  filter (fun i => String.eqb f (dia i) && String.eqb n (i_nombre i)) intentos.

(** The type the policy gives to the event after [ultimo]. *)
Definition siguiente (ultimo : option Registro) : string :=
  match ultimo with
  | None => "entrada"
  | Some u => if opt_eqb (tipo u) "entrada" then "salida" else "entrada"
  end.

(** The seconds of the day a recorded [hora] stands for. *)
Definition seg (h : string) : Z :=
  match strptime_HMS h with
  | Some t => segundos_del_dia t
  | None => -1
  end.

(** The form in which the service writes a time of day. *)
Definition canonica (h : string) : Prop :=
  exists d, time_valida (dt_time d) /\ h = strftime_HMS d.

(** Times of day written by the service, the last one later than the rest. *)
Definition en_orden (l : list string) : Prop :=
  Forall canonica l /\
  forall pre x, l = pre ++ [x] -> forall y, In y pre -> seg y < seg x.

(** The history of a person on a day is sound: the types alternate from an
    entrance on, and the rows of the hosted table are in order. *)
Definition historial_ok (w : Mundo) (f n : string) : Prop :=
  alterna (eventos_de w f n) /\
  (usa_supabase w = true -> en_orden (map fa_hora (filas_de w f n))).

(** ** Statistics, as counts over the persons of a day *)

Definition con_tipo (t : string) (eventos : list Registro) : bool :=
  existsb (fun r => opt_eqb (tipo r) t) eventos.

Definition presente (eventos : list Registro) : bool :=
  con_tipo "entrada" eventos && negb (con_tipo "salida" eventos).

Definition con_eventos (eventos : list Registro) : bool :=
  match eventos with [] => false | _ :: _ => true end.

(** The number of persons of [registros] whose events satisfy [p]. *)
Definition personas_con (p : list Registro -> bool)
    (registros : dict (list Registro)) : Z :=
  Z.of_nat (List.length (filter (fun '(_, eventos) => p eventos) registros)).

(** ** Matching, as a maximum over the candidates *)

(** The entries the matcher compares: those with a non-empty embedding, in
    the iteration order of the store. *)
Fixpoint candidatos (personas : dict Persona) : list (string * Embedding) :=
  match personas with
  | [] => []
  | (nombre, datos) :: resto =>
      match embedding datos with
      | Some (x :: v) => (nombre, x :: v) :: candidatos resto
      | _ => candidatos resto
      end
  end.

(** What the scan knows after the candidates [C]: nothing was above zero,
    or the best so far is the first candidate that reaches the maximum. *)
Definition mejor_hasta (np_dot : Embedding -> Embedding -> Q) (emb : Embedding)
    (C : list (string * Embedding)) (acc : option string * Q) : Prop :=
  match acc with
  | (None, s) =>
      s = 0%Q /\ forall n e, In (n, e) C -> (np_dot emb e <= 0)%Q
  | (Some nombre, s) =>
      (0 < s)%Q /\
      exists antes reg despues,
        C = antes ++ (nombre, reg) :: despues /\
        s = np_dot emb reg /\
        (forall n e, In (n, e) antes -> (np_dot emb e < s)%Q) /\
        (forall n e, In (n, e) despues -> (np_dot emb e <= s)%Q)
  end.

(** ** Records of the responses *)

Definition CAMPOS_PERSONA : list string :=
  ["nombre"; "fecha_registro"; "edad"; "genero"].

Definition CAMPOS_ROSTRO : list string :=
  ["bbox"; "edad"; "genero"; "confianza"; "nombre"; "similitud"].

(** No entry of the record holds an embedding vector. *)
Definition sin_vector (r : dict valor) : bool :=
  forallb (fun '(_, v) => match v with VVector _ => false | _ => true end) r.

(** What the detect handler does to a face record before answering. *)
Definition limpiar (rostro : dict valor) : dict valor :=
  if contains "embedding" rostro then del "embedding" rostro else rostro.

(** The records of the listing carry the four fields of a person and nothing
    else. *)
Definition listado_de_cuatro_campos (w : Mundo) : Prop :=
  forall personas w',
    listar_personas w = (Ok personas, w') ->
    forall r, In r personas -> keys r = CAMPOS_PERSONA.

(** A failure of the backing store is not answered with a success. *)
Definition fallo_notificado (nombre : string) (tipo_ : option string)
    (w : Mundo) : Prop :=
  (if usa_supabase w then remoto_ok w = false else disco_ok w = false) ->
  forall resultado w',
    registrar_asistencia nombre tipo_ w = (Ok resultado, w') ->
    get "exito" resultado <> Some (VBool true).

(** The registration reports success exactly when one face is detected. *)
Definition exito_con_un_rostro (nombre : string) (faces : list Face)
    (w : Mundo) : Prop :=
  (exists resultado w',
     registrar_persona nombre faces w = (Ok resultado, w') /\
     get "exito" resultado = Some (VBool true)) <->
  List.length faces = 1%nat.

(** The policy returns, with one of its three answers. *)
Definition evaluar_registro_responde (nombre : string)
    (ultimo : option Registro) (espera : Z) (w : Mundo) : Prop :=
  exists r w',
    _evaluar_registro nombre ultimo espera w = (Ok r, w') /\
    (r = (false, None) \/ r = (true, Some "entrada") \/
     r = (true, Some "salida")).

(** ** Sample worlds *)

Definition reloj_fijo (t : datetime) : nat -> datetime := fun _ => t.

Definition las_9_00_05 : datetime :=
  mkDatetime (mkDate 2024 5 2) (mkTime 9 0 5 250000).

(** A process on local storage. *)
Definition mundo_local (r : nat -> datetime) (cache : Asistencias)
    (personas : dict Persona) : Mundo :=
  mkMundo r 0%nat true true (fun _ => None) [] [] false false cache personas.

(** A process on the hosted store, reachable or not. *)
Definition mundo_supabase (r : nat -> datetime) (remoto : bool)
    (tp : list FilaPersona) (ta : list FilaAsistencia) : Mundo :=
  mkMundo r 0%nat true remoto (fun _ => None) tp ta true true [] [].

Definition fila_ana : FilaPersona :=
  mkFilaPersona "Ana"
    (mkPersona (Some [1%Q; 0%Q]) (Some "2024-05-01 08:00:00") (Some 30)
       (Some "F") (Some "https://fotos/personas/ana.jpg")).

Definition ana_a_las_9 : Registro := mkRegistro (Some "entrada") "09:00:00".

Definition libro_con_ana : Asistencias :=
  [("2024-05-02", [("Ana", [ana_a_las_9])])].

(** The exact dot product, the value [np.dot] approximates. *)
Fixpoint producto_punto (a b : Embedding) : Q :=
  match a, b with
  | x :: a', y :: b' => (x * y + producto_punto a' b')%Q
  | _, _ => 0%Q
  end.

Definition persona_con (v : Embedding) : Persona :=
  mkPersona (Some v) (Some "2024-05-01 08:00:00") (Some 30) (Some "F") None.

Definition dos_personas : dict Persona :=
  [("Ana", persona_con [1%Q; 0%Q]); ("Bob", persona_con [0%Q; 1%Q])].

Definition cara_de_ana : Face :=
  mkFace (10, 20, 110, 140) [1%Q; 0%Q] (Some 30) (Some "F") (Some (9 # 10)%Q).

Definition dia_ana_bob : dict (list Registro) :=
  [("Ana", [mkRegistro (Some "entrada") "09:00:00"]);
   ("Bob", [mkRegistro (Some "entrada") "09:01:00";
            mkRegistro (Some "salida") "17:00:00"])].

Definition a_las (h m s : Z) : datetime :=
  mkDatetime (mkDate 2024 5 2) (mkTime h m s 0).

(** A clock that passes midnight between the policy check and the
    recording: four readings at 23:59:59, the following ones on the next
    day. *)
Definition reloj_medianoche : nat -> datetime :=
  fun k =>
    if (k <? 4)%nat then mkDatetime (mkDate 2024 5 2) (mkTime 23 59 59 0)
    else mkDatetime (mkDate 2024 5 3) (mkTime 0 0 0 0).

Definition intento_ana (s : Z) : Intento :=
  mkIntento "Ana" (reloj_fijo (a_las 9 0 s)) true true.

Definition tres_intentos : list Intento :=
  [intento_ana 0; intento_ana 15; intento_ana 30].

(** Evaluates the last event of a concrete world and settles the
    admissibility of a concrete attempt. *)
Ltac evaluar_ultimo :=
  match goal with
  | |- match ?x with _ => _ end =>
      let v := eval vm_compute in x in
      replace x with v by (vm_compute; reflexivity)
  end.

Ltac admitir :=
  split; [intros k; reflexivity|];
  split; [intros k; vm_compute; intuition discriminate|];
  split; [intros H; discriminate H|];
  evaluar_ultimo;
  first [ exact I
        | eexists; split;
          [vm_compute; reflexivity | intros k; vm_compute; discriminate] ].

(** Unfolds the monad to run a method on a world. *)
Ltac desplegar :=
  unfold enabled, datetime_today, datetime_utcnow, app_get;
  unfold bind, ret, leer, modificar, raise, try_except,
    datetime_now, escribir_disco, llamar_remoto;
  cbn beta iota.

Ltac correr := desplegar; simpl.

(** ** Vocabulary of the further properties *)

(** The entry [cargar_personas_embeddings] builds from a row. *)
Definition persona_de_fila (np_float32 : Q -> Q) (row : FilaPersona)
  : Persona :=
  let d := fp_datos row in
  mkPersona
    (Some (map np_float32
             (match embedding d with Some v => v | None => [] end)))
    (fecha_registro d) (edad d) (genero d) (foto_url d).

(** Rounding to the nearest value with 24 significant bits, ties to even:
    what the cast to single precision does to a value within the normal
    range.  Used for the sample worlds. *)
Definition float32_cercano (q : Q) : Q :=
  let n := Qnum q in
  let d := Z.pos (Qden q) in
  if n =? 0 then 0%Q else
  let a := Z.abs n in
  let e0 := Z.log2 a - Z.log2 d in
  let menor := if 0 <=? e0 then a <? d * 2 ^ e0 else a * 2 ^ (- e0) <? d in
  let e := if menor then e0 - 1 else e0 in
  let s := 23 - e in
  let num := if 0 <=? s then a * 2 ^ s else a in
  let den := if 0 <=? s then d else d * 2 ^ (- s) in
  let m0 := num / den in
  let r := num mod den in
  let m := if 2 * r <? den then m0
           else if den <? 2 * r then m0 + 1
           else if Z.even m0 then m0 else m0 + 1 in
  Qred (if 0 <=? s then Qmake (Z.sgn n * m) (Z.to_pos (2 ^ s))
        else inject_Z (Z.sgn n * m * 2 ^ (- s))).

(** The names of the hosted table of persons. *)
Definition nombres_de (t : list FilaPersona) : list string := map fp_nombre t.

(** The records of a day are well formed: a person has one entry, and
    nobody is listed without events. *)
Definition dia_bien_formado (d : dict (list Registro)) : Prop :=
  wf d /\ Forall (fun eventos => eventos <> []) (values d).

(** The local ledger is well formed: a date has one entry, and so has every
    person within a date. *)
Definition libro_bien_formado (cache : Asistencias) : Prop :=
  wf cache /\ Forall dia_bien_formado (values cache).

(* ===================================================================== *)
(** * Dictionaries: lookups after updates *)
(* ===================================================================== *)

Lemma get_set_eq {V} (k : string) (v : V) (d : dict V) :
  get k (set k v d) = Some v.
Proof.
  induction d as [|[k' v'] d IH]; simpl.
  - now rewrite String.eqb_refl.
  - destruct (String.eqb k k') eqn:E; simpl.
    + now rewrite String.eqb_refl.
    + now rewrite E.
Qed.

Lemma get_set_neq {V} (k k' : string) (v : V) (d : dict V) :
  k <> k' -> get k' (set k v d) = get k' d.
Proof.
  intros Hne. induction d as [|[k0 v0] d IH]; simpl.
  - destruct (String.eqb_spec k' k); congruence.
  - destruct (String.eqb_spec k k0) as [->|Hk]; simpl.
    + destruct (String.eqb_spec k' k0); congruence.
    + destruct (String.eqb_spec k' k0); congruence.
Qed.

Lemma get_del_eq {V} (k : string) (d : dict V) : get k (del k d) = None.
Proof.
  induction d as [|[k' v'] d IH]; simpl; auto.
  destruct (String.eqb k k') eqn:E; simpl; auto.
  now rewrite E.
Qed.

Lemma get_del_neq {V} (k k' : string) (d : dict V) :
  k <> k' -> get k' (del k d) = get k' d.
Proof.
  intros Hne. induction d as [|[k0 v0] d IH]; simpl; auto.
  destruct (String.eqb_spec k k0) as [->|Hk]; simpl.
  - destruct (String.eqb_spec k' k0); congruence.
  - destruct (String.eqb_spec k' k0); congruence.
Qed.

Lemma get_None_keys {V} (k : string) (d : dict V) :
  get k d = None <-> ~ In k (keys d).
Proof.
  induction d as [|[k' v'] d IH]; simpl.
  - tauto.
  - destruct (String.eqb_spec k k') as [->|Hk].
    + split; [discriminate | tauto].
    + rewrite IH. split; [intros H [E|E]; [congruence | tauto] | tauto].
Qed.

(* ===================================================================== *)
(** * Durations *)
(* ===================================================================== *)

Lemma timedelta_new_seconds (d s us : Z) :
  seconds (timedelta_new d s us) = (s + us / 1000000) mod 86400.
Proof.
  unfold timedelta_new; simpl.
  now rewrite <- Zplus_mod.
Qed.

(** The elapsed seconds the policy compares do not depend on the calendar
    dates involved: only the times of day enter. *)
Lemma diff_segundos_formula (hora_actual hoy : datetime) (t : time) :
  diff_segundos hora_actual hoy t =
  (segundos_del_dia (dt_time hora_actual) - segundos_del_dia t +
   (microsecond (dt_time hora_actual) - microsecond t) / 1000000) mod 86400.
Proof.
  unfold diff_segundos, datetime_sub.
  rewrite timedelta_new_seconds.
  reflexivity.
Qed.

Lemma diff_segundos_rango (hora_actual hoy : datetime) (t : time) :
  0 <= diff_segundos hora_actual hoy t <= 86399.
Proof.
  rewrite diff_segundos_formula.
  match goal with |- _ <= ?x mod _ <= _ =>
    pose proof (Z.mod_pos_bound x 86400 ltac:(lia)) end.
  lia.
Qed.

(** When the present time of day is not earlier than the previous event, the
    elapsed seconds are the whole seconds between the two. *)
Lemma diff_segundos_mismo_dia (hora_actual hoy : datetime) (t : time) :
  time_valida (dt_time hora_actual) ->
  microsecond t = 0 ->
  0 <= segundos_del_dia t <= segundos_del_dia (dt_time hora_actual) ->
  diff_segundos hora_actual hoy t =
  segundos_del_dia (dt_time hora_actual) - segundos_del_dia t.
Proof.
  intros (Hh & Hm & Hs & Hus) Ht Hle.
  rewrite diff_segundos_formula, Ht, Z.sub_0_r.
  rewrite (Z.div_small (microsecond _)) by lia.
  rewrite Z.add_0_r.
  apply Z.mod_small.
  unfold segundos_del_dia in *. lia.
Qed.

(* ===================================================================== *)
(** * Formatting and parsing the time of day *)
(* ===================================================================== *)

Lemma valor_digito_digito (n : Z) : valor_digito (digito n) = Some (n mod 10).
Proof.
  pose proof (Z.mod_pos_bound n 10 ltac:(lia)) as Hr.
  unfold digito.
  assert (Hc : n mod 10 = 0 \/ n mod 10 = 1 \/ n mod 10 = 2 \/ n mod 10 = 3 \/
               n mod 10 = 4 \/ n mod 10 = 5 \/ n mod 10 = 6 \/ n mod 10 = 7 \/
               n mod 10 = 8 \/ n mod 10 = 9) by lia.
  repeat (destruct Hc as [Hc|Hc]; [rewrite Hc; reflexivity|]).
  rewrite Hc; reflexivity.
Qed.

Lemma leer_campo_dos_digitos (max n : Z) (resto : list ascii) :
  0 <= n < 100 -> n <= max ->
  leer_campo max (digito (n / 10) :: digito n :: resto) = Some (n, resto).
Proof.
  intros Hn Hmax. unfold leer_campo.
  rewrite !valor_digito_digito.
  assert (E : 10 * ((n / 10) mod 10) + n mod 10 = n).
  { rewrite (Z.mod_small (n / 10)).
    - pose proof (Z.div_mod n 10 ltac:(lia)). lia.
    - split; [apply Z.div_pos; lia | apply Z.div_lt_upper_bound; lia]. }
  rewrite E.
  destruct (Z.leb_spec n max); [reflexivity | lia].
Qed.

(** What the ledger writes with [strftime] is read back by [strptime]. *)
Lemma strptime_strftime (t : datetime) :
  time_valida (dt_time t) ->
  strptime_HMS (strftime_HMS t) =
  Some (mkTime (hour (dt_time t)) (minute (dt_time t)) (second (dt_time t)) 0).
Proof.
  intros (Hh & Hm & Hs & _).
  unfold strptime_HMS, strftime_HMS.
  rewrite list_ascii_of_string_of_list_ascii.
  unfold dos_digitos. cbn [app].
  rewrite leer_campo_dos_digitos by lia.
  cbn [leer_literal Ascii.eqb Bool.eqb].
  rewrite leer_campo_dos_digitos by lia.
  cbn [leer_literal Ascii.eqb Bool.eqb].
  rewrite leer_campo_dos_digitos by lia.
  destruct (Z.leb_spec (second (dt_time t)) 59); [reflexivity | lia].
Qed.

Lemma valor_digito_rango (c : ascii) (a : Z) :
  valor_digito c = Some a -> 0 <= a <= 9.
Proof.
  unfold valor_digito.
  destruct ((48 <=? nat_of_ascii c)%nat && (nat_of_ascii c <=? 57)%nat) eqn:E;
    [|discriminate].
  apply andb_prop in E as [L U].
  apply Nat.leb_le in L, U.
  intros H. injection H as <-. lia.
Qed.

(** A parsed time of day is well formed and has no microseconds. *)
Lemma leer_campo_rango (max : Z) (s resto : list ascii) (n : Z) :
  9 <= max -> leer_campo max s = Some (n, resto) -> 0 <= n <= max.
Proof.
  intros Hmax. unfold leer_campo.
  destruct s as [|c1 s1]; [discriminate|].
  destruct (valor_digito c1) as [a|] eqn:E1; [|discriminate].
  apply valor_digito_rango in E1.
  destruct s1 as [|c2 s2].
  - intros H. injection H as <- <-. lia.
  - destruct (valor_digito c2) as [b|] eqn:E2.
    + apply valor_digito_rango in E2.
      destruct (Z.leb_spec (10 * a + b) max); intros H0.
      * assert (10 * a + b = n) by congruence. lia.
      * assert (a = n) by congruence. lia.
    + intros H. injection H as <- <-. lia.
Qed.

Lemma strptime_valida (s : string) (t : time) :
  strptime_HMS s = Some t -> time_valida t /\ microsecond t = 0.
Proof.
  unfold strptime_HMS.
  destruct (leer_campo 23 _) as [[h s1]|] eqn:E1; [|discriminate].
  destruct (leer_literal _ s1) as [s2|]; [|discriminate].
  destruct (leer_campo 59 s2) as [[m s3]|] eqn:E2; [|discriminate].
  destruct (leer_literal _ s3) as [s4|]; [|discriminate].
  destruct (leer_campo 61 s4) as [[sec [|? ?]]|] eqn:E3; try discriminate.
  destruct (Z.leb_spec sec 59); [|discriminate].
  intros [= <-].
  apply leer_campo_rango in E1, E2, E3; try lia.
  unfold time_valida; simpl. lia.
Qed.

(* ===================================================================== *)
(** * The attendance policy *)
(* ===================================================================== *)

Lemma lectura_0 (w : Mundo) : reloj w (lecturas w) = lectura w 0.
Proof. unfold lectura. now rewrite Nat.add_0_r. Qed.

Lemma lectura_1 (w : Mundo) : reloj w (S (lecturas w)) = lectura w 1.
Proof. unfold lectura. now rewrite Nat.add_1_r. Qed.

(** What [_evaluar_registro] computes, case by case. *)
Lemma evaluar_registro_con_ultimo (nombre : string) (u : Registro) (t : time)
    (espera : Z) (w : Mundo) :
  strptime_HMS (hora u) = Some t ->
  _evaluar_registro nombre (Some u) espera w =
  (Ok (if diff_segundos (lectura w 0) (lectura w 1) t <? espera
       then (false, None)
       else (true, Some (if opt_eqb (tipo u) "entrada"
                         then "salida" else "entrada"))),
   con_lecturas (S (S (lecturas w))) w).
Proof.
  intros Ht. unfold _evaluar_registro. correr. rewrite Ht. correr.
  rewrite lectura_0, lectura_1.
  destruct (_ <? _); reflexivity.
Qed.

Lemma evaluar_registro_mal_formado (nombre : string) (u : Registro)
    (espera : Z) (w : Mundo) :
  strptime_HMS (hora u) = None ->
  _evaluar_registro nombre (Some u) espera w =
  (Raise ValueError, con_lecturas (S (lecturas w)) w).
Proof.
  intros Ht. unfold _evaluar_registro. correr. now rewrite Ht.
Qed.

(** [verificar_puede_registrar] looks the last event up and hands it to
    [_evaluar_registro]; it reads the clock once more in local mode. *)
Lemma verificar_local (nombre : string) (espera : Z) (w : Mundo) :
  usa_supabase w = false ->
  verificar_puede_registrar nombre espera w =
  _evaluar_registro nombre
    (ultimo_evento w (strftime_Ymd (lectura w 1)) nombre) espera
    (con_lecturas (S (S (lecturas w))) w).
Proof.
  intros Hu. unfold verificar_puede_registrar, obtener_asistencia_hoy.
  correr. rewrite Hu. correr.
  unfold ultimo_evento, eventos_de. rewrite Hu, lectura_1. reflexivity.
Qed.

Lemma verificar_supabase (nombre : string) (espera : Z) (w : Mundo) :
  usa_supabase w = true ->
  verificar_puede_registrar nombre espera w =
  _evaluar_registro nombre
    (if client w && remoto_ok w
     then ultimo_evento w (strftime_Ymd (lectura w 0)) nombre
     else None) espera
    (con_lecturas (S (lecturas w)) w).
Proof.
  intros Hu. unfold verificar_puede_registrar, obtener_ultimo_registro.
  correr. rewrite Hu. correr.
  unfold ultimo_evento, mas_reciente, filas_de. rewrite Hu, lectura_0.
  destruct (client w); simpl; [|reflexivity].
  destruct (remoto_ok w); simpl; [|reflexivity].
  match goal with |- context [ordenar ?le ?l] => destruct (ordenar le l) end;
    reflexivity.
Qed.

(** The policy never writes to the ledger. *)
Lemma evaluar_registro_libro (nombre : string) (ultimo : option Registro)
    (espera : Z) (w : Mundo) :
  libro (snd (_evaluar_registro nombre ultimo espera w)) = libro w.
Proof.
  destruct ultimo as [u|]; [|reflexivity].
  destruct (strptime_HMS (hora u)) as [t|] eqn:Ht.
  - rewrite (evaluar_registro_con_ultimo _ _ _ _ _ Ht). reflexivity.
  - rewrite (evaluar_registro_mal_formado _ _ _ _ Ht). reflexivity.
Qed.

Lemma verificar_libro (nombre : string) (espera : Z) (w : Mundo) :
  libro (snd (verificar_puede_registrar nombre espera w)) = libro w.
Proof.
  destruct (usa_supabase w) eqn:Hu.
  - rewrite (verificar_supabase _ _ _ Hu), evaluar_registro_libro. reflexivity.
  - rewrite (verificar_local _ _ _ Hu), evaluar_registro_libro. reflexivity.
Qed.

(** ** No previous event: entrance *)

(** C1. A person without an attendance event today may register, and the
    event is an entrance: [_evaluar_registro] answers [(True, "entrada")]
    when it is given no last event, and so does [verificar_puede_registrar]
    when the day's ledger holds nothing for the person. *)
Theorem sin_evento_previo_es_entrada
    (nombre : string) (espera : Z) (w : Mundo) :
  _evaluar_registro nombre None espera w = (Ok (true, Some "entrada"), w) /\
  (forall f,
     hoy_es f w ->
     eventos_de w f nombre = [] ->
     exists w',
       verificar_puede_registrar nombre espera w =
         (Ok (true, Some "entrada"), w') /\
       libro w' = libro w).
Proof.
  split; [reflexivity|]. intros f Hhoy Hsin.
  assert (Hult : ultimo_evento w f nombre = None).
  { unfold ultimo_evento.
    destruct (usa_supabase w) eqn:Hu.
    - unfold eventos_de in Hsin. rewrite Hu in Hsin.
      destruct (filas_de w f nombre); [reflexivity | discriminate].
    - rewrite Hsin. reflexivity. }
  destruct (usa_supabase w) eqn:Hu.
  - rewrite (verificar_supabase _ _ _ Hu), (Hhoy 0%nat), Hult.
    eexists. split.
    + destruct (client w && remoto_ok w); reflexivity.
    + reflexivity.
  - rewrite (verificar_local _ _ _ Hu), (Hhoy 1%nat), Hult.
    eexists. split; reflexivity.
Qed.

Lemma sin_evento_previo_es_entrada_testigo :
  let w := mundo_local (reloj_fijo las_9_00_05) [] [] in
  _evaluar_registro "Ana" None 10 w = (Ok (true, Some "entrada"), w) /\
  exists w',
    verificar_puede_registrar "Ana" 10 w = (Ok (true, Some "entrada"), w') /\
    libro w' = libro w.
Proof.
  destruct (sin_evento_previo_es_entrada "Ana" 10
              (mundo_local (reloj_fijo las_9_00_05) [] [])) as [He Hv].
  split; [exact He|].
  apply (Hv "2024-05-02").
  - intros i. reflexivity.
  - reflexivity.
Defined.

(** ** Totality and range of the policy *)

(** A last event whose [hora] does not parse -- here a second of 60 -- makes
    [_evaluar_registro] raise: it does not return on every input. *)
Lemma evaluar_registro_segundo_60 :
  ~ evaluar_registro_responde "Ana"
      (Some (mkRegistro (Some "entrada") "09:00:60")) 10
      (mundo_local (reloj_fijo las_9_00_05) [] []).
Proof.
  intros (r & w' & H & _).
  rewrite evaluar_registro_mal_formado in H by reflexivity.
  discriminate H.
Qed.

(** C10 (amended). On a last event whose time of day does not have the form
    [%H:%M:%S] [_evaluar_registro] raises [ValueError], at every reading of
    the clock.  On every other input it returns without raising; its answer
    is [(False, None)], [(True, "entrada")] or [(True, "salida")], never
    [(True, None)]; and the elapsed seconds it compares with the interval lie
    in [0, 86399] whatever the two times of day are, the present one
    preceding the previous one included. *)
Theorem evaluar_registro_respuestas
    (nombre : string) (ultimo : option Registro) (espera : Z) (w : Mundo) :
  (forall u,
     ultimo = Some u -> strptime_HMS (hora u) = None ->
     _evaluar_registro nombre ultimo espera w =
     (Raise ValueError, con_lecturas (S (lecturas w)) w)) /\
  ((forall u, ultimo = Some u -> strptime_HMS (hora u) <> None) ->
   exists r w',
     _evaluar_registro nombre ultimo espera w = (Ok r, w') /\
     (r = (false, None) \/ r = (true, Some "entrada") \/
      r = (true, Some "salida")) /\
     forall u t,
       ultimo = Some u -> strptime_HMS (hora u) = Some t ->
       0 <= diff_segundos (lectura w 0) (lectura w 1) t <= 86399 /\
       fst r = negb (diff_segundos (lectura w 0) (lectura w 1) t <? espera)).
Proof.
  split.
  - intros u -> Ht. now apply evaluar_registro_mal_formado.
  - intros Hbien. destruct ultimo as [u|].
    + destruct (strptime_HMS (hora u)) as [t|] eqn:Ht.
      * rewrite (evaluar_registro_con_ultimo _ _ _ _ _ Ht).
        eexists. eexists. split; [reflexivity|]. split.
        -- destruct (_ <? _); [now left|].
           destruct (opt_eqb (tipo u) "entrada"); auto.
        -- intros u' t' [= <-] Ht'. rewrite Ht in Ht'. injection Ht' as <-.
           split; [apply diff_segundos_rango|].
           destruct (_ <? _); reflexivity.
      * exfalso. now apply (Hbien u).
    + exists (true, Some "entrada"), w. split; [reflexivity|].
      split; [auto|]. discriminate.
Qed.

Lemma evaluar_registro_respuestas_testigo :
  let w := mundo_local (reloj_fijo las_9_00_05) [] [] in
  let ultimo := Some (mkRegistro (Some "entrada") "23:59:58") in
  exists r w',
    _evaluar_registro "Ana" ultimo 10 w = (Ok r, w') /\
    (r = (false, None) \/ r = (true, Some "entrada") \/
     r = (true, Some "salida")) /\
    forall u t,
      ultimo = Some u -> strptime_HMS (hora u) = Some t ->
      0 <= diff_segundos (lectura w 0) (lectura w 1) t <= 86399 /\
      fst r = negb (diff_segundos (lectura w 0) (lectura w 1) t <? 10).
Proof.
  apply (proj2 (evaluar_registro_respuestas "Ana"
                  (Some (mkRegistro (Some "entrada") "23:59:58")) 10
                  (mundo_local (reloj_fijo las_9_00_05) [] []))).
  intros u H. injection H as <-. vm_compute. discriminate.
Defined.

(** Just after midnight: the previous event at 23:59:58, the clock at
    00:00:05 of the same calendar date.  The signed difference is negative;
    its [seconds] field is 7. *)
Example diff_segundos_medianoche :
  diff_segundos
    (mkDatetime (mkDate 2024 5 2) (mkTime 0 0 5 0))
    (mkDatetime (mkDate 2024 5 2) (mkTime 0 0 5 0))
    (mkTime 23 59 58 0) = 7.
Proof. reflexivity. Qed.

(** ** Debounce and toggle *)

Lemma diff_lecturas_eq (w : Mundo) (a b a' b' : nat) (t : time) :
  a = a' -> b = b' ->
  diff_segundos (reloj w a) (reloj w b) t =
  diff_segundos (reloj w a') (reloj w b') t.
Proof. now intros -> ->. Qed.

(** The answer of [verificar_puede_registrar] when the person has a last
    event today. *)
Lemma verificar_con_ultimo
    (nombre f : string) (u : Registro) (t : time) (espera : Z) (w : Mundo) :
  hoy_es f w ->
  almacen_disponible w ->
  ultimo_evento w f nombre = Some u ->
  strptime_HMS (hora u) = Some t ->
  exists i w',
    verificar_puede_registrar nombre espera w =
      (Ok (if diff_segundos (lectura w i) (lectura w (S i)) t <? espera
           then (false, None)
           else (true, Some (if opt_eqb (tipo u) "entrada"
                             then "salida" else "entrada"))), w') /\
    libro w' = libro w /\
    w' = con_lecturas (lecturas w + S (S i)) w.
Proof.
  intros Hhoy Hdisp Hult Ht.
  destruct (usa_supabase w) eqn:Hu.
  - destruct (Hdisp Hu) as [Hc Hr].
    exists 1%nat. eexists.
    rewrite (verificar_supabase _ _ _ Hu), Hc, Hr, (Hhoy 0%nat), Hult.
    cbn [andb].
    rewrite (evaluar_registro_con_ultimo _ _ _ _ _ Ht).
    unfold lectura; cbn [lecturas con_lecturas reloj].
    rewrite (diff_lecturas_eq w _ _ (lecturas w + 1) (lecturas w + 2))%nat
      by lia.
    replace (lecturas w + 3)%nat with (S (S (S (lecturas w)))) by lia.
    repeat split.
  - exists 2%nat. eexists.
    rewrite (verificar_local _ _ _ Hu), (Hhoy 1%nat), Hult.
    rewrite (evaluar_registro_con_ultimo _ _ _ _ _ Ht).
    unfold lectura; cbn [lecturas con_lecturas reloj].
    rewrite (diff_lecturas_eq w _ _ (lecturas w + 2) (lecturas w + 3))%nat
      by lia.
    replace (lecturas w + 4)%nat with (S (S (S (S (lecturas w))))) by lia.
    repeat split.
Qed.

(** A name the policy turns down leaves the loop of the handler without a
    new record and without a write to the ledger. *)
Lemma procesar_nombre_rechazado
    (nombre : string) (registros : list (dict valor)) (w w1 : Mundo)
    (tipo_ : option string) :
  verificar_puede_registrar nombre TIEMPO_ESPERA_DEFECTO w =
    (Ok (false, tipo_), w1) ->
  procesar_nombre nombre registros w = (Ok registros, w1).
Proof.
  intros Hv. unfold procesar_nombre, bind. rewrite Hv. reflexivity.
Qed.

(** C2. Within the debounce window -- the elapsed seconds since the
    person's most recent event today stay below the interval while the call
    runs -- [_evaluar_registro] answers [(False, None)]; so does
    [verificar_puede_registrar] when that event is the last one of the day's
    ledger, and the handler's loop then appends no event: neither the record
    list nor the ledger changes. *)
Theorem rechazo_dentro_de_la_ventana
    (nombre : string) (u : Registro) (t : time) (espera : Z) (w : Mundo) :
  strptime_HMS (hora u) = Some t ->
  (forall i j, diff_segundos (lectura w i) (lectura w j) t < espera) ->
  (exists w1,
     _evaluar_registro nombre (Some u) espera w = (Ok (false, None), w1) /\
     libro w1 = libro w) /\
  (forall f,
     hoy_es f w ->
     almacen_disponible w ->
     ultimo_evento w f nombre = Some u ->
     (exists w1,
        verificar_puede_registrar nombre espera w = (Ok (false, None), w1) /\
        libro w1 = libro w) /\
     (espera = TIEMPO_ESPERA_DEFECTO ->
      forall registros, exists w2,
        procesar_nombre nombre registros w = (Ok registros, w2) /\
        libro w2 = libro w)).
Proof.
  intros Ht Hvent. split.
  - rewrite (evaluar_registro_con_ultimo _ _ _ _ _ Ht).
    destruct (Z.ltb_spec (diff_segundos (lectura w 0) (lectura w 1) t) espera)
      as [_|Hge]; [|specialize (Hvent 0%nat 1%nat); lia].
    eexists. split; reflexivity.
  - intros f Hhoy Hdisp Hult.
    destruct (verificar_con_ultimo nombre f u t espera w Hhoy Hdisp Hult Ht)
      as (i & w1 & Hv & Hl & _).
    destruct (Z.ltb_spec
                (diff_segundos (lectura w i) (lectura w (S i)) t) espera)
      as [_|Hge]; [|specialize (Hvent i (S i)); lia].
    split.
    + exists w1. auto.
    + intros -> registros. exists w1. split; [|exact Hl].
      now apply procesar_nombre_rechazado with (tipo_ := None).
Qed.

Lemma rechazo_dentro_de_la_ventana_testigo :
  let w := mundo_local (reloj_fijo las_9_00_05) libro_con_ana [] in
  (exists w1,
     _evaluar_registro "Ana" (Some ana_a_las_9) 10 w = (Ok (false, None), w1) /\
     libro w1 = libro w) /\
  (exists w1,
     verificar_puede_registrar "Ana" 10 w = (Ok (false, None), w1) /\
     libro w1 = libro w) /\
  (forall registros, exists w2,
     procesar_nombre "Ana" registros w = (Ok registros, w2) /\
     libro w2 = libro w).
Proof.
  destruct (rechazo_dentro_de_la_ventana "Ana" ana_a_las_9 (mkTime 9 0 0 0) 10
              (mundo_local (reloj_fijo las_9_00_05) libro_con_ana []))
    as [He Hv].
  - reflexivity.
  - intros i j. reflexivity.
  - destruct (Hv "2024-05-02") as [Hv1 Hv2].
    + intros i. reflexivity.
    + intros H. discriminate H.
    + reflexivity.
    + split; [exact He|]. split; [exact Hv1|]. apply Hv2. reflexivity.
Defined.

(* ===================================================================== *)
(** * Statistics of a day *)
(* ===================================================================== *)

Lemma contar_persona_fold (l : list (list Registro)) (a b c : Z) :
  fold_left contar_persona l (a, b, c) =
  (a + Z.of_nat (List.length (filter (con_tipo "entrada") l)),
   b + Z.of_nat (List.length (filter (con_tipo "salida") l)),
   c + Z.of_nat (List.length (filter presente l))).
Proof.
  revert a b c. induction l as [|e l IH]; intros a b c.
  - simpl. now rewrite !Z.add_0_r.
  - cbn [fold_left filter]. unfold contar_persona at 2.
    fold (con_tipo "entrada" e) (con_tipo "salida" e).
    change (presente e)
      with (con_tipo "entrada" e && negb (con_tipo "salida" e)).
    destruct (con_tipo "entrada" e), (con_tipo "salida" e);
      cbn [andb negb]; rewrite IH; cbn [List.length];
      (apply f_equal2; [apply f_equal2|]); lia.
Qed.

Lemma filter_values (p : list Registro -> bool) (d : dict (list Registro)) :
  List.length (filter p (values d)) =
  List.length (filter (fun '(_, eventos) => p eventos) d).
Proof.
  induction d as [|[n e] d IH]; simpl; auto.
  destruct (p e); simpl; auto.
Qed.

(** C5. On the records of a day [_calcular_estadisticas] returns the number
    of persons in the records, the number of persons with at least one
    entrance, the number with at least one exit, and as present the number
    with an entrance and no exit; the persons in the records are those with
    at least one event whenever no person is listed with an empty sequence;
    a person whose events are an entrance followed by an exit is not
    present. *)
Theorem calcular_estadisticas_cuenta (registros : dict (list Registro)) :
  _calcular_estadisticas registros =
    [("total_personas", VInt (len registros));
     ("con_entrada", VInt (personas_con (con_tipo "entrada") registros));
     ("con_salida", VInt (personas_con (con_tipo "salida") registros));
     ("presentes", VInt (personas_con presente registros))] /\
  (Forall (fun eventos => eventos <> []) (values registros) ->
   len registros = personas_con con_eventos registros) /\
  (forall h1 h2,
     presente [mkRegistro (Some "entrada") h1; mkRegistro (Some "salida") h2]
     = false).
Proof.
  split; [|split].
  - unfold _calcular_estadisticas, personas_con.
    rewrite contar_persona_fold, !filter_values. reflexivity.
  - unfold len, personas_con. intros Hne. f_equal.
    induction registros as [|[n e] d IH]; [reflexivity|].
    simpl in Hne. inversion Hne as [|? ? He Hd]; subst.
    destruct e as [|r e]; [congruence|].
    simpl. f_equal. now apply IH.
  - reflexivity.
Qed.

Lemma calcular_estadisticas_cuenta_testigo :
  _calcular_estadisticas dia_ana_bob =
    [("total_personas", VInt 2); ("con_entrada", VInt 2);
     ("con_salida", VInt 1); ("presentes", VInt 1)] /\
  len dia_ana_bob = personas_con con_eventos dia_ana_bob.
Proof.
  destruct (calcular_estadisticas_cuenta dia_ana_bob) as (H1 & H2 & _).
  split.
  - exact H1.
  - apply H2. repeat constructor; discriminate.
Defined.

(** The scenario of a day with Ana inside and Bob gone. *)
Example estadisticas_ana_bob :
  _calcular_estadisticas dia_ana_bob =
  [("total_personas", VInt 2); ("con_entrada", VInt 2);
   ("con_salida", VInt 1); ("presentes", VInt 1)].
Proof. reflexivity. Qed.

(** A person who came back after leaving has an exit on record and is not
    counted as present, although the last event is an entrance. *)
Example presente_tras_volver :
  presente [mkRegistro (Some "entrada") "09:00:00";
            mkRegistro (Some "salida") "12:00:00";
            mkRegistro (Some "entrada") "13:00:00"] = false.
Proof. reflexivity. Qed.

(* ===================================================================== *)
(** * Matching a face against the identity store *)
(* ===================================================================== *)

Section Coincidencia.

Variable np_dot : Embedding -> Embedding -> Q.
Variable emb : Embedding.

Local Open Scope Q_scope.

Lemma comparar_no_candidato (acc : option string * Q) (nombre : string)
    (datos : Persona) :
  candidatos [(nombre, datos)] = [] ->
  comparar np_dot emb acc (nombre, datos) = acc.
Proof.
  destruct acc as [m s]. unfold comparar. simpl.
  destruct (embedding datos) as [[|x v]|]; [reflexivity | discriminate | reflexivity].
Qed.

Lemma comparar_candidato (m : option string) (s : Q) (nombre : string)
    (datos : Persona) (reg : Embedding) :
  candidatos [(nombre, datos)] = [(nombre, reg)] ->
  comparar np_dot emb (m, s) (nombre, datos) =
  if negb (Qle_bool (np_dot emb reg) s)
  then (Some nombre, np_dot emb reg) else (m, s).
Proof.
  unfold comparar. simpl.
  destruct (embedding datos) as [[|x v]|]; try discriminate.
  intros [= <-]. reflexivity.
Qed.

Lemma candidatos_app (p q : dict Persona) :
  candidatos (p ++ q) = (candidatos p ++ candidatos q)%list.
Proof.
  induction p as [|[n d] p IH]; [reflexivity|].
  simpl. destruct (embedding d) as [[|x v]|]; simpl; now rewrite ?IH.
Qed.

Lemma mejor_hasta_paso (C : list (string * Embedding))
    (acc : option string * Q) (nombre : string) (datos : Persona) :
  mejor_hasta np_dot emb C acc ->
  mejor_hasta np_dot emb (C ++ candidatos [(nombre, datos)])
    (comparar np_dot emb acc (nombre, datos)).
Proof.
  intros Hinv.
  destruct (candidatos [(nombre, datos)]) as [|[n' reg] [|? ?]] eqn:Hc.
  - rewrite comparar_no_candidato by exact Hc. now rewrite app_nil_r.
  - assert (n' = nombre) as ->.
    { simpl in Hc. destruct (embedding datos) as [[|x v]|];
        try discriminate. now injection Hc. }
    destruct acc as [m s].
    rewrite (comparar_candidato m s nombre datos reg Hc).
    destruct (Qle_bool (np_dot emb reg) s) eqn:Hle; cbn [negb].
    + apply Qle_bool_iff in Hle.
      destruct m as [mejor|]; simpl in Hinv |- *.
      * destruct Hinv as (Hpos & antes & r & despues & -> & Hs & Ha & Hd).
        split; [exact Hpos|].
        exists antes, r, (despues ++ [(nombre, reg)])%list.
        rewrite <- app_assoc. simpl.
        repeat split; auto.
        intros n e Hin. apply in_app_or in Hin as [Hin|[Hin|[]]].
        -- eauto.
        -- now injection Hin as <- <-.
      * destruct Hinv as (-> & Hz). split; [reflexivity|].
        intros n e Hin. apply in_app_or in Hin as [Hin|[Hin|[]]].
        -- eauto.
        -- now injection Hin as <- <-.
    + assert (Hlt : s < np_dot emb reg).
      { apply Qnot_le_lt. intros H. apply Qle_bool_iff in H. congruence. }
      assert (Hs0 : 0 <= s).
      { destruct m; simpl in Hinv.
        - apply Qlt_le_weak, Hinv.
        - destruct Hinv as [-> _]. apply Qle_refl. }
      simpl. split; [eapply Qle_lt_trans; eauto|].
      exists C, reg, []. repeat split; [| intros ? ? []].
      intros n e Hin.
      destruct m as [mejor|]; simpl in Hinv.
      * destruct Hinv as (_ & antes & r & despues & -> & Hs & Ha & Hd).
        apply in_app_or in Hin as [Hin|[Hin|Hin]].
        -- eapply Qlt_trans; eauto.
        -- injection Hin as <- <-. now rewrite <- Hs.
        -- eapply Qle_lt_trans; eauto.
      * destruct Hinv as (-> & Hz). eapply Qle_lt_trans; eauto.
  - exfalso. simpl in Hc.
    destruct (embedding datos) as [[|x v]|]; discriminate.
Qed.

Lemma mejor_hasta_fold (resto antes : dict Persona)
    (acc : option string * Q) :
  mejor_hasta np_dot emb (candidatos antes) acc ->
  mejor_hasta np_dot emb (candidatos (antes ++ resto))
    (fold_left (comparar np_dot emb) resto acc).
Proof.
  revert antes acc. induction resto as [|[n d] resto IH]; intros antes acc H.
  - now rewrite app_nil_r.
  - cbn [fold_left].
    replace (antes ++ (n, d) :: resto)%list
      with ((antes ++ [(n, d)]) ++ resto)%list
      by now rewrite <- app_assoc.
    apply IH. rewrite candidatos_app. now apply mejor_hasta_paso.
Qed.

(** C4. For every query embedding and every identity store, with a
    positive threshold (0.4 by default): when some stored embedding
    reaches the threshold, [_reconocer_persona] returns the name of the
    entry with the maximum dot product together with that product, and of
    several entries with the maximum the first in the store's iteration
    order; otherwise it returns no name and the similarity 0. *)
Theorem reconocer_persona_maximo (umbral : Q) (w : Mundo) :
  0 < umbral ->
  exists r,
    _reconocer_persona np_dot emb umbral w = (Ok r, w) /\
    match r with
    | (Some nombre, s) =>
        exists antes reg despues,
          candidatos (personas_registradas w) =
            (antes ++ (nombre, reg) :: despues)%list /\
          s = np_dot emb reg /\
          umbral <= s /\
          (forall n e, In (n, e) antes -> np_dot emb e < s) /\
          (forall n e, In (n, e) despues -> np_dot emb e <= s)
    | (None, s) =>
        s = 0 /\
        forall n e,
          In (n, e) (candidatos (personas_registradas w)) ->
          np_dot emb e < umbral
    end.
Proof.
  intros Hpos.
  unfold _reconocer_persona, bind, leer, items.
  pose proof (mejor_hasta_fold (personas_registradas w) [] (None, 0)) as H.
  cbn [app] in H.
  destruct (fold_left (comparar np_dot emb) (personas_registradas w) (None, 0))
    as [m s] eqn:Hf.
  assert (Hinv : mejor_hasta np_dot emb (candidatos (personas_registradas w)) (m, s)).
  { apply H. simpl. split; [reflexivity | intros ? ? []]. }
  clear H.
  destruct (Qle_bool umbral s) eqn:Hle.
  - apply Qle_bool_iff in Hle.
    exists (m, s). split; [reflexivity|].
    destruct m as [nombre|]; simpl in Hinv.
    + destruct Hinv as (_ & antes & reg & despues & Hc & Hs & Ha & Hd).
      exists antes, reg, despues. auto.
    + destruct Hinv as (-> & _). exfalso.
      apply (Qlt_irrefl 0). eapply Qlt_le_trans; eauto.
  - assert (Hlt : s < umbral).
    { apply Qnot_le_lt. intros H. apply Qle_bool_iff in H. congruence. }
    exists (None, 0). split; [reflexivity|]. split; [reflexivity|].
    intros n e Hin.
    destruct m as [nombre|]; simpl in Hinv.
    + destruct Hinv as (_ & antes & reg & despues & Hc & Hs & Ha & Hd).
      rewrite Hc in Hin.
      apply in_app_or in Hin as [Hin|[Hin|Hin]].
      * eapply Qlt_trans; eauto.
      * injection Hin as <- <-. now rewrite <- Hs.
      * eapply Qle_lt_trans; eauto.
    + destruct Hinv as (-> & Hz). eapply Qle_lt_trans; eauto.
Qed.

End Coincidencia.

Lemma reconocer_persona_maximo_testigo :
  let w := mundo_local (reloj_fijo las_9_00_05) [] dos_personas in
  exists r,
    _reconocer_persona producto_punto [1; 0]%Q UMBRAL_DEFECTO w = (Ok r, w) /\
    match r with
    | (Some nombre, s) =>
        exists antes reg despues,
          candidatos (personas_registradas w) =
            antes ++ (nombre, reg) :: despues /\
          s = producto_punto [1; 0]%Q reg /\
          (UMBRAL_DEFECTO <= s)%Q /\
          (forall n e, In (n, e) antes ->
             (producto_punto [1; 0]%Q e < s)%Q) /\
          (forall n e, In (n, e) despues ->
             (producto_punto [1; 0]%Q e <= s)%Q)
    | (None, s) =>
        s = 0%Q /\
        forall n e,
          In (n, e) (candidatos (personas_registradas w)) ->
          (producto_punto [1; 0]%Q e < UMBRAL_DEFECTO)%Q
    end.
Proof.
  apply (reconocer_persona_maximo producto_punto [1; 0]%Q UMBRAL_DEFECTO
           (mundo_local (reloj_fijo las_9_00_05) [] dos_personas)).
  reflexivity.
Defined.

(** The scan starts from the similarity 0: with a threshold that is not
    positive and every product below zero it yields no name. *)
Example reconocer_persona_umbral_negativo :
  fst (_reconocer_persona producto_punto [(-1); 0]%Q (-(1))%Q
         (mundo_local (reloj_fijo las_9_00_05) [] dos_personas)) =
  Ok (None, 0%Q).
Proof. reflexivity. Qed.

Example reconocer_persona_ana :
  fst (_reconocer_persona producto_punto [1; 0]%Q UMBRAL_DEFECTO
         (mundo_local (reloj_fijo las_9_00_05) [] dos_personas)) =
  Ok (Some "Ana", 1%Q).
Proof. vm_compute. reflexivity. Qed.

(* ===================================================================== *)
(** * The identity store *)
(* ===================================================================== *)

Lemma strftime_Ymd_HMS_no_vacia (t : datetime) :
  String.eqb (strftime_Ymd_HMS t) "" = false.
Proof. reflexivity. Qed.

(** Saving a person in the hosted store never raises and never touches the
    store in memory. *)
Lemma guardar_persona_no_falla (nombre : string) (e : Embedding)
    (edad_ : option Z) (genero_ : option string) (t : datetime)
    (con_imagen : bool) (w : Mundo) :
  exists foto w',
    guardar_persona nombre e edad_ genero_ (strftime_Ymd_HMS t) con_imagen w =
      (Ok foto, w') /\
    personas_registradas w' = personas_registradas w.
Proof.
  unfold guardar_persona, _subir_imagen. desplegar.
  rewrite strftime_Ymd_HMS_no_vacia.
  destruct w as [r l d rem u tp ta c us ac pr]; simpl.
  destruct c, con_imagen, rem; simpl; eauto;
    destruct (u nombre); simpl; eauto.
Qed.

(** The registration of a person from an image with one face. *)
Lemma registrar_persona_una_cara (nombre : string) (face : Face) (w : Mundo) :
  exists r w',
    registrar_persona nombre [face] w = (r, w') /\
    personas_registradas w' =
      set nombre (persona_info face (lectura w 0)) (personas_registradas w) /\
    r = if client w || disco_ok w
        then Ok [("exito", VBool true);
                 ("mensaje",
                  VStr (String.append nombre " registrado correctamente"));
                 ("total_registrados", VInt (len (personas_registradas w')))]
        else Raise OSError.
Proof.
  rewrite <- lectura_0.
  unfold registrar_persona, guardar_persona, _subir_imagen,
    _guardar_personas_local, _guardar_foto_local.
  desplegar.
  destruct w as [r l d rem u tp ta c us ac pr]; simpl.
  destruct c, d, rem; simpl; eauto;
    destruct (u nombre); simpl; eauto.
Qed.

(** With one face in the image and the local files not writable the
    registration raises instead of reporting success. *)
Lemma un_rostro_sin_exito :
  ~ exito_con_un_rostro "Ana" [cara_de_ana]
      (mkMundo (reloj_fijo las_9_00_05) 0%nat false true (fun _ => None)
         [] [] false false [] []).
Proof.
  intros [_ H]. destruct (H eq_refl) as (resultado & w' & Hr & _).
  apply (f_equal fst) in Hr. vm_compute in Hr. discriminate Hr.
Qed.

(** C6 (amended). With no face or with several [registrar_persona] returns a
    failure and leaves the identity store, and the rest of the world, as it
    found them.  It reports success only when one face is detected; with one
    face the store takes the entry built from that face under the name, and
    the call reports success unless the service works on local files and
    they cannot be written, in which case it raises after the store in
    memory has taken the entry. *)
Theorem registrar_persona_exige_un_rostro
    (nombre : string) (faces : list Face) (w : Mundo) :
  (List.length faces <> 1%nat ->
   exists mensaje,
     registrar_persona nombre faces w =
       (Ok [("exito", VBool false); ("mensaje", VStr mensaje)], w)) /\
  ((exists resultado w',
      registrar_persona nombre faces w = (Ok resultado, w') /\
      get "exito" resultado = Some (VBool true)) ->
   List.length faces = 1%nat) /\
  (forall face,
     faces = [face] ->
     exists r w',
       registrar_persona nombre faces w = (r, w') /\
       personas_registradas w' =
         set nombre (persona_info face (lectura w 0)) (personas_registradas w) /\
       get nombre (personas_registradas w') =
         Some (persona_info face (lectura w 0)) /\
       r = if client w || disco_ok w
           then Ok [("exito", VBool true);
                    ("mensaje",
                     VStr (String.append nombre " registrado correctamente"));
                    ("total_registrados",
                     VInt (len (personas_registradas w')))]
           else Raise OSError).
Proof.
  destruct faces as [|face [|face' faces]].
  - split; [|split].
    + intros _. eexists. reflexivity.
    + intros (resultado & w' & Hr & He). exfalso.
      injection Hr as <- <-. discriminate.
    + intros face H. discriminate H.
  - split; [intros H; now elim H|].
    split; [reflexivity|].
    intros f [= <-].
    destruct (registrar_persona_una_cara nombre face w)
      as (r & w' & Hr & Hp & He).
    exists r, w'. split; [exact Hr|]. split; [exact Hp|].
    split; [rewrite Hp; apply get_set_eq | exact He].
  - split; [|split].
    + intros _. eexists. reflexivity.
    + intros (resultado & w' & Hr & He). exfalso.
      injection Hr as <- <-. discriminate.
    + intros f H. discriminate H.
Qed.

Lemma registrar_persona_exige_un_rostro_testigo :
  let w := mundo_local (reloj_fijo las_9_00_05) [] [] in
  (exists mensaje,
     registrar_persona "Ana" [cara_de_ana; cara_de_ana] w =
       (Ok [("exito", VBool false); ("mensaje", VStr mensaje)], w)) /\
  (exists w',
     registrar_persona "Ana" [cara_de_ana] w =
       (Ok [("exito", VBool true);
            ("mensaje", VStr "Ana registrado correctamente");
            ("total_registrados", VInt 1)], w') /\
     get "Ana" (personas_registradas w') =
       Some (persona_info cara_de_ana las_9_00_05)).
Proof.
  split.
  - apply (proj1 (registrar_persona_exige_un_rostro "Ana"
                    [cara_de_ana; cara_de_ana]
                    (mundo_local (reloj_fijo las_9_00_05) [] []))).
    discriminate.
  - destruct (proj2 (proj2 (registrar_persona_exige_un_rostro "Ana"
                              [cara_de_ana]
                              (mundo_local (reloj_fijo las_9_00_05) [] [])))
                cara_de_ana eq_refl) as (r & w' & Hr & Hp & Hg & He).
    exists w'. rewrite Hr, He, Hp. split; reflexivity.
Defined.

(** When the local files cannot be written the registration of a single face
    raises, after the store in memory has taken the new entry. *)
Lemma registrar_persona_disco_falla (nombre : string) (face : Face) (w : Mundo) :
  client w = false -> disco_ok w = false ->
  exists w',
    registrar_persona nombre [face] w = (Raise OSError, w') /\
    get nombre (personas_registradas w') =
      Some (persona_info face (lectura w 0)).
Proof.
  intros Hc Hd.
  destruct (registrar_persona_una_cara nombre face w)
    as (r & w' & Hr & Hp & ->).
  rewrite Hc, Hd in Hr. exists w'. split; [exact Hr|].
  rewrite Hp. apply get_set_eq.
Qed.

Lemma eliminar_persona_store (nombre : string) (w : Mundo) :
  personas_registradas (snd (eliminar_persona nombre w)) =
  del nombre (personas_registradas w).
Proof.
  unfold eliminar_persona, supabase_eliminar_persona, _eliminar_imagen,
    _guardar_personas_local, _eliminar_foto_local.
  desplegar.
  destruct (contains nombre (personas_registradas w)) eqn:Hc; cbn [negb].
  - destruct w as [r l d rem u tp ta c us ac pr]; simpl.
    destruct c, d, rem; reflexivity.
  - cbn [snd]. unfold contains in Hc.
    destruct (get nombre (personas_registradas w)) eqn:Hg; [discriminate|].
    clear Hc. induction (personas_registradas w) as [|[k v] p IH];
      [reflexivity|].
    simpl in Hg |- *. destruct (String.eqb nombre k); [discriminate|].
    f_equal. now apply IH.
Qed.

(** Registration and removal keep the keys of the store distinct, so a
    person has one entry at most. *)
Lemma set_wf {V} (k : string) (v : V) (d : dict V) : wf d -> wf (set k v d).
Proof.
  unfold wf, keys. induction d as [|[k' v'] d IH]; simpl; intros H.
  - constructor; [tauto | constructor].
  - inversion H as [|? ? Hn Hd]; subst.
    destruct (String.eqb_spec k k') as [->|Hk]; simpl.
    + now constructor.
    + constructor; [|now apply IH].
      intros Hin. apply Hn.
      clear - Hin Hk. induction d as [|[k0 v0] d IH]; simpl in *.
      * destruct Hin as [?|[]]. congruence.
      * destruct (String.eqb_spec k k0) as [->|Hk0]; simpl in Hin.
        -- destruct Hin; [now left | now right].
        -- destruct Hin as [?|Hin]; [now left | right; now apply IH].
Qed.





(* ===================================================================== *)
(** * What leaves the recognition boundary *)
(* ===================================================================== *)

Lemma reconocer_persona_ok (np_dot : Embedding -> Embedding -> Q)
    (emb : Embedding) (umbral : Q) (w : Mundo) :
  exists m s, _reconocer_persona np_dot emb umbral w = (Ok (m, s), w).
Proof.
  unfold _reconocer_persona, bind, leer, ret.
  destruct (fold_left _ _ _) as [m s].
  destruct (Qle_bool umbral s); eauto.
Qed.

(** The record [detectar_rostros] builds for a face. *)
Lemma rostro_de_forma (np_dot : Embedding -> Embedding -> Q) (face : Face)
    (w : Mundo) :
  exists ge n s,
    rostro_de np_dot face w =
    (Ok [("bbox", bbox_tolist (bbox face)); ("edad", opt_int (age face));
         ("genero", opt_str ge);
         ("confianza", opt_float (det_score face));
         ("embedding", VVector (normed_embedding face));
         ("nombre", VStr n); ("similitud", VFloat s)], w).
Proof.
  unfold rostro_de, bind.
  destruct (reconocer_persona_ok np_dot (normed_embedding face) UMBRAL_DEFECTO w)
    as (m & s & ->).
  exists (option_map
            (fun s => if String.eqb s "M" then "Masculino" else "Femenino")
            (sex face)).
  do 2 eexists. destruct (sex face); reflexivity.
Qed.

Lemma detectar_rostros_forma (np_dot : Embedding -> Embedding -> Q)
    (faces : list Face) (w : Mundo) :
  exists rostros,
    detectar_rostros np_dot faces w = (Ok rostros, w) /\
    Forall
      (fun r => keys (limpiar r) = CAMPOS_ROSTRO /\ sin_vector (limpiar r) = true)
      rostros.
Proof.
  induction faces as [|face faces (rostros & IH & Hf)].
  - exists []. split; [reflexivity | constructor].
  - destruct (rostro_de_forma np_dot face w) as (ge & n & s & Hr).
    eexists. cbn [detectar_rostros]. unfold bind at 1. rewrite Hr.
    unfold bind at 1. rewrite IH. split; [reflexivity|].
    constructor; [|exact Hf].
    split; [reflexivity|].
    destruct (bbox face) as [[[x1 y1] x2] y2].
    destruct (age face), ge, (det_score face); reflexivity.
Qed.

Lemma listar_personas_local (w : Mundo) :
  client w = false ->
  exists personas,
    listar_personas w = (Ok personas, w) /\
    forall r, In r personas ->
      keys r = CAMPOS_PERSONA /\ sin_vector r = true.
Proof.
  intros Hc. unfold listar_personas. desplegar. rewrite Hc.
  eexists. split; [reflexivity|].
  intros r Hin. apply in_map_iff in Hin as ([n d] & <- & _).
  split; [reflexivity|].
  destruct (fecha_registro d), (edad d); reflexivity.
Qed.

Lemma listar_personas_supabase (w : Mundo) :
  client w = true ->
  exists personas,
    listar_personas w = (Ok personas, w) /\
    forall r, In r personas ->
      keys r = CAMPOS_PERSONA ++ ["foto_url"] /\ sin_vector r = true.
Proof.
  intros Hc. unfold listar_personas, supabase_listar_personas. desplegar.
  rewrite Hc. cbn [negb]. rewrite Hc. cbn [negb].
  destruct (remoto_ok w).
  - eexists. split; [reflexivity|].
    intros r Hin. apply in_map_iff in Hin as (row & <- & _).
    split; [reflexivity|].
    destruct (fecha_registro (fp_datos row)), (edad (fp_datos row)),
      (foto_url (fp_datos row)); reflexivity.
  - exists []. split; [reflexivity | intros r []].
Qed.

(** With the hosted store in use the listing carries a fifth field, the URL
    of the photo: the records are not made of the four fields only. *)
Lemma listado_con_foto_url :
  ~ listado_de_cuatro_campos
      (mundo_supabase (reloj_fijo las_9_00_05) true [fila_ana] []).
Proof.
  intros H.
  specialize (H _ _ eq_refl _ (or_introl eq_refl)).
  discriminate H.
Qed.

(** C9 (amended). In every state of the identity store the person listing
    returns records with the name, the registration date, the age and the
    gender -- and, when the hosted store is in use, the URL of the photo --
    and no record holds an embedding vector; every face record the detect
    handler returns, whatever the request, has had its embedding removed. *)
Theorem respuestas_sin_embedding
    (np_dot : Embedding -> Embedding -> Q) (w : Mundo) :
  (exists personas,
     listar_personas w = (Ok personas, w) /\
     forall r, In r personas ->
       keys r = (if client w then CAMPOS_PERSONA ++ ["foto_url"]
                 else CAMPOS_PERSONA) /\
       sin_vector r = true) /\
  (forall imagen, exists respuesta,
     api_detectar_rostros np_dot imagen w = (Ok respuesta, w) /\
     match respuesta with
     | RespRostros rostros total_rostros =>
         (exists faces, imagen = Some (Legible faces) /\
                        List.length rostros = List.length faces) /\
         total_rostros = Z.of_nat (List.length rostros) /\
         forall r, In r rostros ->
           keys r = CAMPOS_ROSTRO /\ get "embedding" r = None /\
           sin_vector r = true
     | RespError _ _ => imagen = None
     | RespExcepcion _ => imagen = Some Ilegible
     | _ => False
     end).
Proof.
  split.
  - destruct (client w) eqn:Hc.
    + now apply listar_personas_supabase.
    + now apply listar_personas_local.
  - intros [[|faces]|].
    + eexists. split; reflexivity.
    + destruct (detectar_rostros_forma np_dot faces w) as (rostros & Hd & Hf).
      exists (RespRostros (map limpiar rostros)
                (Z.of_nat (List.length (map limpiar rostros)))).
      unfold api_detectar_rostros, manejar, try_except, app_get.
      unfold bind at 1. unfold ret at 1. cbv iota beta.
      unfold bind at 1. rewrite Hd.
      split; [reflexivity|]. split; [|split; [reflexivity|]].
      * exists faces. split; [reflexivity|].
        rewrite length_map. clear Hf. revert rostros Hd.
        induction faces as [|face faces IH]; intros rostros Hd.
        -- injection Hd as <-. reflexivity.
        -- cbn [detectar_rostros] in Hd. unfold bind at 1 in Hd.
           destruct (rostro_de_forma np_dot face w) as (ge & n & s & Hr).
           rewrite Hr in Hd. unfold bind at 1 in Hd.
           destruct (detectar_rostros_forma np_dot faces w) as (rs & Hrs & _).
           rewrite Hrs in Hd. injection Hd as <-.
           simpl. f_equal. now apply IH.
      * intros r Hin. apply in_map_iff in Hin as (r0 & <- & Hin).
        rewrite Forall_forall in Hf. destruct (Hf r0 Hin) as [Hk Hs].
        repeat split; auto.
        apply get_None_keys. rewrite Hk. unfold CAMPOS_ROSTRO.
        simpl. intuition discriminate.
    + eexists. split; reflexivity.
Qed.

Lemma respuestas_sin_embedding_testigo :
  let w := mundo_local (reloj_fijo las_9_00_05) [] dos_personas in
  exists rostros,
    fst (api_detectar_rostros producto_punto (Some (Legible [cara_de_ana])) w)
      = Ok (RespRostros rostros 1) /\
    forall r, In r rostros ->
      keys r = CAMPOS_ROSTRO /\ get "embedding" r = None /\
      sin_vector r = true.
Proof.
  destruct (proj2 (respuestas_sin_embedding producto_punto
                     (mundo_local (reloj_fijo las_9_00_05) [] dos_personas))
              (Some (Legible [cara_de_ana])))
    as (respuesta & Hr & Hf).
  cbv zeta. rewrite Hr. cbn [fst].
  destruct respuesta as [| |rostros total| | | |];
    try contradiction; try discriminate Hf.
  destruct Hf as ((faces & Hi & Hl) & Ht & Hrs).
  exists rostros. split; [|exact Hrs].
  injection Hi as <-. rewrite Ht, Hl. reflexivity.
Defined.

(* ===================================================================== *)
(** * Failures of the backing store *)
(* ===================================================================== *)

(** With the hosted store unreachable [guardar_asistencia] swallows the
    failure and [registrar_asistencia] still answers with a success although
    no row was inserted. *)
Lemma exito_con_remoto_caido :
  ~ fallo_notificado "Ana" (Some "entrada")
      (mundo_supabase (reloj_fijo las_9_00_05) false [] []).
Proof.
  intros H.
  apply (H eq_refl _ _ eq_refl). reflexivity.
Qed.

Example registrar_asistencia_remoto_caido :
  let w := mundo_supabase (reloj_fijo las_9_00_05) false [] [] in
  fst (registrar_asistencia "Ana" (Some "entrada") w) =
    Ok [("exito", VBool true); ("nombre", VStr "Ana");
        ("tipo", VStr "entrada"); ("hora", VStr "09:00:05");
        ("fecha", VStr "2024-05-02")] /\
  tabla_asistencias (snd (registrar_asistencia "Ana" (Some "entrada") w)) = [].
Proof. split; vm_compute; reflexivity. Qed.

(** The same two failures seen from the handler of
    [POST /api/asistencia/registrar], with Ana registered and in the image:
    the local failure becomes an error response, the remote one a success
    with one record. *)
Example api_registrar_asistencia_disco_falla :
  fst (api_registrar_asistencia producto_punto (Some (Legible [cara_de_ana]))
         (mkMundo (reloj_fijo las_9_00_05) 0%nat false true (fun _ => None)
            [] [] false false [] dos_personas)) =
  Ok (RespExcepcion OSError).
Proof. vm_compute. reflexivity. Qed.

Example api_registrar_asistencia_remoto_caido :
  let w := mkMundo (reloj_fijo las_9_00_05) 0%nat true false (fun _ => None)
             [] [] true true [] dos_personas in
  fst (api_registrar_asistencia producto_punto (Some (Legible [cara_de_ana])) w) =
    Ok (RespRegistros
          [[("exito", VBool true); ("nombre", VStr "Ana");
            ("tipo", VStr "entrada"); ("hora", VStr "09:00:05");
            ("fecha", VStr "2024-05-02")]] 1) /\
  tabla_asistencias
    (snd (api_registrar_asistencia producto_punto (Some (Legible [cara_de_ana])) w)) = [].
Proof. split; vm_compute; reflexivity. Qed.

(** C8 (amended). When the write to the local ledger file fails,
    [registrar_asistencia] raises and the failure reaches its caller; when
    the hosted store is the one in use and cannot be reached,
    [guardar_asistencia] returns the empty result and
    [registrar_asistencia] answers [exito = True] with the ledger
    unchanged. *)
Theorem fallos_del_almacen
    (nombre : string) (tipo_ : option string) (w : Mundo) :
  (usa_supabase w = false -> disco_ok w = false ->
   exists w', registrar_asistencia nombre tipo_ w = (Raise OSError, w')) /\
  (usa_supabase w = true -> remoto_ok w = false ->
   (forall fecha hora_, exists w1,
      guardar_asistencia nombre tipo_ fecha hora_ w = (Ok None, w1) /\
      libro w1 = libro w) /\
   exists resultado w',
     registrar_asistencia nombre tipo_ w = (Ok resultado, w') /\
     get "exito" resultado = Some (VBool true) /\
     libro w' = libro w).
Proof.
  split.
  - intros Hu Hd.
    unfold registrar_asistencia, _registrar_local, _guardar_asistencia_local.
    desplegar.
    destruct w as [r l d rem u tp ta c us ac pr]; simpl in *. subst.
    eexists. reflexivity.
  - intros Hu Hr. split.
    + intros fecha hora_. unfold guardar_asistencia. desplegar.
      destruct w as [r l d rem u tp ta c us ac pr]; simpl in *. subst.
      destruct c; eexists; split; reflexivity.
    + unfold registrar_asistencia, guardar_asistencia. desplegar.
      destruct w as [r l d rem u tp ta c us ac pr]; simpl in *. subst.
      destruct c; do 2 eexists; repeat split.
Qed.

Lemma fallos_del_almacen_testigo :
  (exists w',
     registrar_asistencia "Ana" (Some "entrada")
       (mkMundo (reloj_fijo las_9_00_05) 0%nat false true (fun _ => None)
          [] [] false false [] []) = (Raise OSError, w')) /\
  (exists resultado w',
     registrar_asistencia "Ana" (Some "entrada")
       (mundo_supabase (reloj_fijo las_9_00_05) false [] []) =
       (Ok resultado, w') /\
     get "exito" resultado = Some (VBool true) /\
     libro w' = libro (mundo_supabase (reloj_fijo las_9_00_05) false [] [])).
Proof.
  split.
  - apply (proj1 (fallos_del_almacen "Ana" (Some "entrada")
             (mkMundo (reloj_fijo las_9_00_05) 0%nat false true (fun _ => None)
                [] [] false false [] []))); reflexivity.
  - apply (proj2 (fallos_del_almacen "Ana" (Some "entrada")
             (mundo_supabase (reloj_fijo las_9_00_05) false [] [])));
      reflexivity.
Defined.

(* ===================================================================== *)
(** * Sequences of attempts: the types alternate *)
(* ===================================================================== *)

(** ** The pattern entrance, exit, entrance, ... *)

Lemma patron_snoc (n : nat) (t : string) :
  patron (S n) t = patron n t ++ [Some (Nat.iter n opuesto t)].
Proof.
  revert t. induction n as [|n IH]; intros t; [reflexivity|].
  change (patron (S (S n)) t) with (Some t :: patron (S n) (opuesto t)).
  rewrite IH, Nat.iter_succ_r. reflexivity.
Qed.

Lemma ultimo_de_snoc {A} (l : list A) (x : A) : ultimo_de (l ++ [x]) = Some x.
Proof. unfold ultimo_de. now rewrite rev_app_distr. Qed.

Lemma ultimo_de_map {A B} (g : A -> B) (l : list A) :
  ultimo_de (map g l) = option_map g (ultimo_de l).
Proof.
  induction l as [|a l _] using rev_ind; [reflexivity|].
  rewrite map_app. cbn [map]. now rewrite !ultimo_de_snoc.
Qed.

(** Appending the event the policy asks for keeps the alternation. *)
Lemma alterna_siguiente (l : list Registro) (h : string) :
  alterna l ->
  alterna (l ++ [mkRegistro (Some (siguiente (ultimo_de l))) h]).
Proof.
  unfold alterna. intros Hl.
  rewrite map_app, length_app, Hl. cbn [map List.length tipo].
  rewrite Nat.add_1_r, patron_snoc. do 3 f_equal.
  induction l as [|u l _] using rev_ind; [reflexivity|].
  rewrite ultimo_de_snoc. unfold siguiente.
  rewrite map_app, length_app, Nat.add_1_r, patron_snoc in Hl.
  cbn [map] in Hl. apply app_inj_tail in Hl as [_ Hu].
  rewrite length_app, Nat.add_1_r. cbn [Nat.iter].
  rewrite Hu. reflexivity.
Qed.

(** ** The order of the recorded times of day *)

Lemma digito_compare (a b : Z) :
  Ascii.compare (digito a) (digito b) = Z.compare (a mod 10) (b mod 10).
Proof.
  unfold digito.
  pose proof (Z.mod_pos_bound a 10 ltac:(lia)) as Ha.
  pose proof (Z.mod_pos_bound b 10 ltac:(lia)) as Hb.
  assert (Ca : a mod 10 = 0 \/ a mod 10 = 1 \/ a mod 10 = 2 \/ a mod 10 = 3 \/
               a mod 10 = 4 \/ a mod 10 = 5 \/ a mod 10 = 6 \/ a mod 10 = 7 \/
               a mod 10 = 8 \/ a mod 10 = 9) by lia.
  assert (Cb : b mod 10 = 0 \/ b mod 10 = 1 \/ b mod 10 = 2 \/ b mod 10 = 3 \/
               b mod 10 = 4 \/ b mod 10 = 5 \/ b mod 10 = 6 \/ b mod 10 = 7 \/
               b mod 10 = 8 \/ b mod 10 = 9) by lia.
  clear Ha Hb.
  repeat (destruct Ca as [Ca|Ca]);
    repeat (destruct Cb as [Cb|Cb]);
    rewrite Ca, Cb; reflexivity.
Qed.

(** On times written by the service the order of the text is the order of
    the seconds of the day. *)
Lemma compare_strftime (d1 d2 : datetime) :
  time_valida (dt_time d1) -> time_valida (dt_time d2) ->
  segundos_del_dia (dt_time d1) < segundos_del_dia (dt_time d2) ->
  String.compare (strftime_HMS d1) (strftime_HMS d2) = Lt.
Proof.
  intros (Hh1 & Hm1 & Hs1 & _) (Hh2 & Hm2 & Hs2 & _) Hlt.
  unfold segundos_del_dia in Hlt.
  unfold strftime_HMS, dos_digitos.
  cbn [app string_of_list_ascii String.compare].
  rewrite !digito_compare.
  change (Ascii.compare ":" ":") with Eq. cbv iota.
  repeat match goal with
         | |- context [Z.compare ?x ?y] =>
             destruct (Z.compare_spec x y)
         end;
    try reflexivity; exfalso;
    Z.to_euclidean_division_equations; lia.
Qed.

Lemma seg_strftime (d : datetime) :
  time_valida (dt_time d) ->
  seg (strftime_HMS d) = segundos_del_dia (dt_time d).
Proof.
  intros H. unfold seg. now rewrite strptime_strftime.
Qed.

Lemma leb_canonica (a b : string) :
  canonica a -> canonica b -> seg a < seg b -> String.leb b a = false.
Proof.
  intros (d1 & H1 & ->) (d2 & H2 & ->).
  rewrite !seg_strftime by assumption. intros Hlt.
  unfold String.leb. rewrite String.compare_antisym.
  now rewrite (compare_strftime d1 d2).
Qed.

(** In a descending stable sort, a row later than all the others comes
    first. *)
Lemma ordenar_cabeza {A} (le : A -> A -> bool) (l : list A) (x : A) :
  (forall y, In y l -> le y x = false) ->
  exists resto, ordenar le (l ++ [x]) = x :: resto.
Proof.
  unfold ordenar. rewrite fold_right_app. cbn [fold_right insertar].
  induction l as [|y l IH]; intros H.
  - eexists. reflexivity.
  - destruct IH as [resto IH]; [intros; apply H; now right|].
    cbn [fold_right]. rewrite IH. cbn [insertar].
    rewrite (H y) by now left. eexists. reflexivity.
Qed.

Lemma mas_reciente_en_orden (l : list FilaAsistencia) :
  en_orden (map fa_hora l) -> mas_reciente l = ultimo_de l.
Proof.
  intros [Hcan Hord].
  induction l as [|x pre _] using rev_ind; [reflexivity|].
  rewrite ultimo_de_snoc. unfold mas_reciente.
  destruct (ordenar_cabeza
              (fun a b => String.leb (fa_hora b) (fa_hora a)) pre x)
    as [resto ->]; [|reflexivity].
  intros y Hy.
  rewrite map_app in Hcan, Hord. cbn [map] in Hcan, Hord.
  apply Forall_app in Hcan as [Hpre Hx].
  inversion Hx as [|? ? Hcx _]; subst.
  apply leb_canonica; auto.
  - rewrite Forall_forall in Hpre. apply Hpre. now apply in_map.
  - apply (Hord _ _ eq_refl). now apply in_map.
Qed.

(** ** What recording an event does to the ledger *)

Lemma get_or_set_eq {V} (k : string) (v dflt : V) (d : dict V) :
  get_or k dflt (set k v d) = v.
Proof. unfold get_or. now rewrite get_set_eq. Qed.

Lemma get_or_set_neq {V} (k k' : string) (v dflt : V) (d : dict V) :
  k <> k' -> get_or k' dflt (set k v d) = get_or k' dflt d.
Proof. intros H. unfold get_or. now rewrite get_set_neq. Qed.

(** [if k not in d: d[k] = dflt] does not change what [d.get(k', dflt)]
    returns. *)
Lemma get_or_setdefault {V} (k k' : string) (dflt : V) (d : dict V) :
  get_or k' dflt (if contains k d then d else set k dflt d) = get_or k' dflt d.
Proof.
  unfold contains. destruct (get k d) eqn:Hg; [reflexivity|].
  destruct (String.eqb_spec k k') as [<-|Hne].
  - rewrite get_or_set_eq. unfold get_or. now rewrite Hg.
  - now apply get_or_set_neq.
Qed.

(** The events of every person and day after [_registrar_local]. *)
Lemma registrar_local_cache (nombre : string) (tipo_ : option string)
    (fecha hora_ : string) (w : Mundo) (f n : string) :
  let w' := snd (_registrar_local nombre tipo_ fecha hora_ w) in
  get_or n [] (get_or f vacio (asistencia_cache w')) =
  if String.eqb f fecha && String.eqb n nombre
  then get_or n [] (get_or f vacio (asistencia_cache w)) ++
       [mkRegistro tipo_ hora_]
  else get_or n [] (get_or f vacio (asistencia_cache w)).
Proof.
  assert (Hc : asistencia_cache
                 (snd (_registrar_local nombre tipo_ fecha hora_ w)) =
               let cache := asistencia_cache w in
               let cache1 :=
                 if contains fecha cache then cache
                 else set fecha vacio cache in
               let dia := get_or fecha vacio cache1 in
               let dia1 :=
                 if contains nombre dia then dia else set nombre [] dia in
               set fecha
                 (set nombre
                    (get_or nombre [] dia1 ++ [mkRegistro tipo_ hora_]) dia1)
                 cache1).
  { unfold _registrar_local, _guardar_asistencia_local. desplegar.
    destruct (disco_ok _); reflexivity. }
  cbv zeta in *. rewrite Hc. clear Hc. unfold Asistencias.
  destruct (String.eqb_spec f fecha) as [->|Hf]; cbn [andb].
  - rewrite get_or_set_eq.
    destruct (String.eqb_spec n nombre) as [->|Hn].
    + rewrite get_or_set_eq. now rewrite !get_or_setdefault.
    + rewrite get_or_set_neq by congruence. now rewrite !get_or_setdefault.
  - rewrite get_or_set_neq by congruence. now rewrite get_or_setdefault.
Qed.

Lemma filas_de_insertar (w : Mundo) (row : FilaAsistencia) (f n : string) :
  filas_de (con_tabla_asistencias (tabla_asistencias w ++ [row]) w) f n =
  if String.eqb f (fa_fecha row) && String.eqb n (fa_persona_nombre row)
  then filas_de w f n ++ [row]
  else filas_de w f n.
Proof.
  unfold filas_de. cbn [tabla_asistencias con_tabla_asistencias].
  rewrite filter_app. cbn [filter].
  rewrite (String.eqb_sym (fa_persona_nombre row)), (String.eqb_sym (fa_fecha row)).
  rewrite andb_comm.
  destruct (_ && _); [reflexivity | apply app_nil_r].
Qed.

(** [registrar_asistencia] appends one event to the history of the person
    on the day the clock shows, and to no other history. *)
Lemma registrar_asistencia_eventos (nombre : string) (tipo_ : option string)
    (w : Mundo) :
  almacen_disponible w ->
  let w' := snd (registrar_asistencia nombre tipo_ w) in
  let fecha := strftime_Ymd (lectura w 0) in
  let hora_ := strftime_HMS (lectura w 1) in
  usa_supabase w' = usa_supabase w /\
  client w' = client w /\
  forall f n,
    eventos_de w' f n =
      (if String.eqb f fecha && String.eqb n nombre
       then eventos_de w f n ++ [mkRegistro tipo_ hora_]
       else eventos_de w f n) /\
    (usa_supabase w = true ->
     map fa_hora (filas_de w' f n) =
       if String.eqb f fecha && String.eqb n nombre
       then map fa_hora (filas_de w f n) ++ [hora_]
       else map fa_hora (filas_de w f n)).
Proof.
  intros Hdisp. cbv zeta. rewrite <- lectura_0, <- lectura_1.
  destruct (usa_supabase w) eqn:Hu.
  - destruct (Hdisp Hu) as [Hc Hr].
    assert (Hw : snd (registrar_asistencia nombre tipo_ w) =
                 con_tabla_asistencias
                   (tabla_asistencias w ++
                    [mkFilaAsistencia nombre tipo_
                       (strftime_Ymd (reloj w (lecturas w)))
                       (strftime_HMS (reloj w (S (lecturas w))))])
                   (con_lecturas (S (S (lecturas w))) w)).
    { unfold registrar_asistencia, guardar_asistencia. desplegar.
      destruct w as [r l d rem u tp ta c us ac pr]; simpl in *. subst.
      reflexivity. }
    rewrite Hw. split; [exact Hu|]. split; [reflexivity|].
    intros f n.
    pose proof (filas_de_insertar (con_lecturas (S (S (lecturas w))) w)
                  (mkFilaAsistencia nombre tipo_
                     (strftime_Ymd (reloj w (lecturas w)))
                     (strftime_HMS (reloj w (S (lecturas w))))) f n) as Hf.
    cbn [fa_fecha fa_persona_nombre] in Hf.
    unfold eventos_de.
    replace (usa_supabase (con_tabla_asistencias _ _)) with true
      by (symmetry; exact Hu).
    rewrite Hu.
    change (tabla_asistencias (con_lecturas (S (S (lecturas w))) w))
      with (tabla_asistencias w) in Hf.
    rewrite Hf.
    change (filas_de (con_lecturas (S (S (lecturas w))) w) f n)
      with (filas_de w f n).
    destruct (_ && _); [|auto].
    rewrite !map_app. auto.
  - assert (Hw : snd (registrar_asistencia nombre tipo_ w) =
                 con_lecturas (lecturas (snd (registrar_asistencia nombre tipo_ w)))
                   (snd (_registrar_local nombre tipo_
                           (strftime_Ymd (reloj w (lecturas w)))
                           (strftime_HMS (reloj w (S (lecturas w))))
                           (con_lecturas (S (S (lecturas w))) w))) /\
                usa_supabase (snd (registrar_asistencia nombre tipo_ w)) = false /\
                client (snd (registrar_asistencia nombre tipo_ w)) = client w).
    { unfold registrar_asistencia, _registrar_local,
        _guardar_asistencia_local. desplegar.
      destruct w as [r l d rem u tp ta c us ac pr]; simpl in *. subst.
      destruct d; repeat split. }
    destruct Hw as (Hw & Hu' & Hc').
    split; [exact Hu'|]. split; [exact Hc'|].
    intros f n. split; [|discriminate].
    unfold eventos_de. rewrite Hu, Hu', Hw.
    change (asistencia_cache (con_lecturas ?k ?x)) with (asistencia_cache x).
    rewrite registrar_local_cache. reflexivity.
Qed.

(** ** One attempt *)

(** On a sound history the policy's most recent event is the last one
    recorded, in both stores. *)
Lemma ultimo_evento_ultimo (w : Mundo) (f n : string) :
  historial_ok w f n ->
  ultimo_evento w f n = ultimo_de (eventos_de w f n).
Proof.
  intros [_ Hord]. unfold ultimo_evento.
  destruct (usa_supabase w) eqn:Hu; [|reflexivity].
  rewrite (mas_reciente_en_orden _ (Hord eq_refl)).
  unfold eventos_de. rewrite Hu. now rewrite ultimo_de_map.
Qed.

Lemma lectura_mundo_de (i : Intento) (w : Mundo) (k : nat) :
  lectura (mundo_de i w) k = i_reloj i k.
Proof. reflexivity. Qed.

(** An admissible attempt is allowed, with the type that follows the last
    event. *)
Lemma verificar_permitido (i : Intento) (w : Mundo) :
  intento_admisible w i ->
  exists k,
    verificar_puede_registrar (i_nombre i) TIEMPO_ESPERA_DEFECTO (mundo_de i w)
    = (Ok (true, Some (siguiente (ultimo_evento w (dia i) (i_nombre i)))),
       con_lecturas k (mundo_de i w)).
Proof.
  intros (Hdia & Hval & Hdisp & Hsep).
  assert (Hhoy : hoy_es (dia i) (mundo_de i w)).
  { intros k. rewrite lectura_mundo_de. apply Hdia. }
  change (ultimo_evento w (dia i) (i_nombre i))
    with (ultimo_evento (mundo_de i w) (dia i) (i_nombre i)) in *.
  destruct (ultimo_evento (mundo_de i w) (dia i) (i_nombre i)) as [u|] eqn:Hult.
  - destruct Hsep as (t & Ht & Hsep).
    destruct (verificar_con_ultimo (i_nombre i) (dia i) u t
                TIEMPO_ESPERA_DEFECTO (mundo_de i w) Hhoy Hdisp Hult Ht)
      as (j & w' & Hv & _ & ->).
    eexists. rewrite Hv. f_equal. f_equal.
    rewrite !lectura_mundo_de.
    destruct (strptime_valida _ _ Ht) as [(Hh & Hm & Hs & _) Hus].
    rewrite diff_segundos_mismo_dia; auto.
    + specialize (Hsep j). unfold TIEMPO_ESPERA_DEFECTO in *.
      destruct (Z.ltb_spec
                  (segundos_del_dia (dt_time (i_reloj i j)) - segundos_del_dia t)
                  10); [lia | reflexivity].
    + specialize (Hsep j). unfold TIEMPO_ESPERA_DEFECTO, segundos_del_dia in *.
      lia.
  - destruct (usa_supabase (mundo_de i w)) eqn:Hu.
    + eexists. rewrite (verificar_supabase _ _ _ Hu), (Hhoy 0%nat), Hult.
      destruct (client _ && remoto_ok _); reflexivity.
    + eexists. rewrite (verificar_local _ _ _ Hu), (Hhoy 1%nat), Hult.
      reflexivity.
Qed.

Lemma snd_bind_ret {A B} (c : M A) (g : A -> B) (w : Mundo) :
  snd (bind c (fun a => ret (g a)) w) = snd (c w).
Proof. unfold bind, ret. destruct (c w) as [[a|e] w']; reflexivity. Qed.

(** The world after an admissible attempt. *)
Lemma paso_registra (i : Intento) (w : Mundo) :
  intento_admisible w i ->
  exists k,
    paso i w =
    snd (registrar_asistencia (i_nombre i)
           (Some (siguiente (ultimo_evento w (dia i) (i_nombre i))))
           (con_lecturas k (mundo_de i w))).
Proof.
  intros Hadm. destruct (verificar_permitido i w Hadm) as [k Hv].
  exists k. unfold paso, procesar_nombre.
  unfold bind at 1. rewrite Hv. cbv iota beta.
  apply snd_bind_ret.
Qed.

Lemma en_orden_snoc (l : list string) (h : string) :
  en_orden l -> canonica h ->
  (forall x, ultimo_de l = Some x -> seg x < seg h) ->
  en_orden (l ++ [h]).
Proof.
  intros [Hcan Hord] Hh Hult. split.
  - apply Forall_app. split; [exact Hcan | now constructor].
  - intros pre x Heq y Hy.
    apply app_inj_tail in Heq as [<- <-].
    induction l as [|x0 pre0 _] using rev_ind; [contradiction|].
    specialize (Hult x0 (ultimo_de_snoc _ _)).
    apply in_app_or in Hy as [Hy|[<-|[]]]; [|exact Hult].
    specialize (Hord pre0 x0 eq_refl y Hy). lia.
Qed.

(** An admissible attempt records one event for its person and day, leaves
    the other histories alone and keeps every history sound. *)
Lemma paso_historial (i : Intento) (w : Mundo) :
  (forall f n, historial_ok w f n) ->
  intento_admisible w i ->
  usa_supabase (paso i w) = usa_supabase w /\
  (forall f n, historial_ok (paso i w) f n) /\
  (forall f n,
     List.length (eventos_de (paso i w) f n) =
     (List.length (eventos_de w f n) +
      if String.eqb f (dia i) && String.eqb n (i_nombre i) then 1 else 0)%nat).
Proof.
  intros Hinv Hadm.
  destruct (paso_registra i w Hadm) as [k Hp].
  destruct Hadm as (Hdia & Hval & Hdisp & Hsep).
  set (w2 := con_lecturas k (mundo_de i w)) in *.
  set (sig := siguiente (ultimo_evento w (dia i) (i_nombre i))) in *.
  destruct (registrar_asistencia_eventos (i_nombre i) (Some sig) w2 Hdisp)
    as (Hu & _ & Hev).
  rewrite <- Hp in Hu, Hev.
  change (usa_supabase w2) with (usa_supabase w) in *.
  assert (Hf : strftime_Ymd (lectura w2 0) = dia i) by apply Hdia.
  rewrite Hf in Hev.
  set (h := strftime_HMS (lectura w2 1)) in *.
  assert (Hcan : canonica h).
  { exists (lectura w2 1). split; [apply Hval | reflexivity]. }
  assert (Hseg : seg h = segundos_del_dia (dt_time (lectura w2 1))).
  { apply seg_strftime, Hval. }
  split; [exact Hu|]. split.
  - intros f n. destruct (Hev f n) as [He Hfi].
    change (eventos_de w2 f n) with (eventos_de w f n) in He.
    change (filas_de w2 f n) with (filas_de w f n) in Hfi.
    destruct (Hinv f n) as [Halt Hord].
    destruct (String.eqb_spec f (dia i)) as [Hfe|Hne]; cbn [andb] in He, Hfi.
    + destruct (String.eqb_spec n (i_nombre i)) as [Hne'|Hnn].
      * rewrite Hfe, Hne' in *. split.
        -- rewrite He. unfold sig.
           rewrite (ultimo_evento_ultimo _ _ _ (Hinv _ _)).
           now apply alterna_siguiente.
        -- rewrite Hu. intros Hsup. rewrite (Hfi Hsup).
           apply en_orden_snoc; auto.
           intros x Hx. rewrite Hseg.
           rewrite (ultimo_evento_ultimo _ _ _ (Hinv _ _)) in Hsep.
           unfold eventos_de in Hsep. rewrite Hsup in Hsep.
           rewrite ultimo_de_map in Hsep. rewrite ultimo_de_map in Hx.
           destruct (ultimo_de (filas_de w (dia i) (i_nombre i))) as [row|];
             [|discriminate].
           cbn [option_map] in Hsep, Hx. injection Hx as <-.
           destruct Hsep as (t & Ht & Hsep).
           cbn [registro_de_fila hora] in Ht.
           unfold seg. rewrite Ht.
           specialize (Hsep (k + 1)%nat).
           unfold TIEMPO_ESPERA_DEFECTO in Hsep.
           change (lectura w2 1) with (i_reloj i (k + 1)%nat). lia.
      * split; [now rewrite He|].
        rewrite Hu. intros Hsup. rewrite (Hfi Hsup). auto.
    + split; [now rewrite He|].
      rewrite Hu. intros Hsup. rewrite (Hfi Hsup). auto.
  - intros f n. destruct (Hev f n) as [He _].
    change (eventos_de w2 f n) with (eventos_de w f n) in He.
    rewrite He. destruct (_ && _).
    + now rewrite length_app.
    + now rewrite Nat.add_0_r.
Qed.

Lemma ejecutar_historial (intentos : list Intento) (w : Mundo) :
  (forall f n, historial_ok w f n) ->
  admisible intentos w ->
  forall f n,
    historial_ok (ejecutar intentos w) f n /\
    List.length (eventos_de (ejecutar intentos w) f n) =
    (List.length (eventos_de w f n) +
     List.length (intentos_de f n intentos))%nat.
Proof.
  revert w. induction intentos as [|i resto IH]; intros w Hinv Hadm f n.
  - split; [apply Hinv | simpl; lia].
  - destruct Hadm as [Hi Hresto].
    destruct (paso_historial i w Hinv Hi) as (_ & Hinv' & Hlen).
    destruct (IH (paso i w) Hinv' Hresto f n) as [Hok Hl].
    split; [exact Hok|].
    cbn [ejecutar]. rewrite Hl, Hlen.
    unfold intentos_de. cbn [filter].
    destruct (_ && _); cbn [List.length]; lia.
Qed.

Lemma libro_vacio_ok (w : Mundo) :
  asistencia_cache w = [] -> tabla_asistencias w = [] ->
  forall f n, eventos_de w f n = [] /\ historial_ok w f n.
Proof.
  intros Hc Ht f n.
  assert (He : eventos_de w f n = []).
  { unfold eventos_de, filas_de. rewrite Hc, Ht.
    destruct (usa_supabase w); reflexivity. }
  split; [exact He|]. split.
  - rewrite He. reflexivity.
  - intros _. unfold filas_de. rewrite Ht. split; [constructor|].
    intros [|? ?] x Heq; discriminate.
Qed.

(** ** The toggle, and the alternation it yields *)

(** C3. When the given last event is at least the interval old,
    [_evaluar_registro] answers allowed with the type opposite to that of
    the last event -- exit after an entrance, entrance after an exit -- and
    so does [verificar_puede_registrar] when that event is the last one of
    the day's ledger.  Consequently, starting from an empty ledger, in every
    sequence of record attempts that each come at least the interval after
    the person's previous recorded event of the day, every attempt is
    recorded and the recorded types of each person on each day read
    entrance, exit, entrance, ... *)
Theorem alternancia_de_eventos :
  (forall (nombre : string) (u : Registro) (t : time) (espera : Z) (w : Mundo),
     strptime_HMS (hora u) = Some t ->
     (forall i j, espera <= diff_segundos (lectura w i) (lectura w j) t) ->
     (exists w',
        _evaluar_registro nombre (Some u) espera w =
          (Ok (true, Some (siguiente (Some u))), w')) /\
     (tipo u = Some "entrada" -> siguiente (Some u) = "salida") /\
     (tipo u = Some "salida" -> siguiente (Some u) = "entrada") /\
     (forall f,
        hoy_es f w ->
        almacen_disponible w ->
        ultimo_evento w f nombre = Some u ->
        exists w',
          verificar_puede_registrar nombre espera w =
            (Ok (true, Some (siguiente (Some u))), w') /\
          libro w' = libro w)) /\
  (forall (intentos : list Intento) (w0 : Mundo),
     asistencia_cache w0 = [] ->
     tabla_asistencias w0 = [] ->
     admisible intentos w0 ->
     forall f n,
       alterna (eventos_de (ejecutar intentos w0) f n) /\
       List.length (eventos_de (ejecutar intentos w0) f n) =
       List.length (intentos_de f n intentos)).
Proof.
  split.
  - intros nombre u t espera w Ht Hsep.
    split; [|split; [|split]].
    + rewrite (evaluar_registro_con_ultimo _ _ _ _ _ Ht).
      destruct (Z.ltb_spec
                  (diff_segundos (lectura w 0) (lectura w 1) t) espera)
        as [Hlt|_]; [specialize (Hsep 0%nat 1%nat); lia|].
      eexists. reflexivity.
    + intros Htipo. unfold siguiente. now rewrite Htipo.
    + intros Htipo. unfold siguiente. now rewrite Htipo.
    + intros f Hhoy Hdisp Hult.
      destruct (verificar_con_ultimo nombre f u t espera w Hhoy Hdisp Hult Ht)
        as (i & w' & Hv & Hl & _).
      exists w'. split; [|exact Hl]. rewrite Hv.
      destruct (Z.ltb_spec
                  (diff_segundos (lectura w i) (lectura w (S i)) t) espera)
        as [Hlt|_]; [|reflexivity].
      specialize (Hsep i (S i)). lia.
  - intros intentos w0 Hc Ht Hadm f n.
    destruct (ejecutar_historial intentos w0
                (fun f n => proj2 (libro_vacio_ok w0 Hc Ht f n)) Hadm f n)
      as [[Halt _] Hlen].
    split; [exact Halt|].
    rewrite Hlen, (proj1 (libro_vacio_ok w0 Hc Ht f n)). reflexivity.
Qed.

Lemma alternancia_de_eventos_testigo :
  (exists w',
     verificar_puede_registrar "Ana" 10
       (mundo_local (reloj_fijo (a_las 9 0 15)) libro_con_ana []) =
       (Ok (true, Some "salida"), w')) /\
  map tipo
    (eventos_de
       (ejecutar tres_intentos (mundo_local (reloj_fijo las_9_00_05) [] []))
       "2024-05-02" "Ana") =
  [Some "entrada"; Some "salida"; Some "entrada"].
Proof.
  split.
  - destruct (proj1 alternancia_de_eventos "Ana" ana_a_las_9
                (mkTime 9 0 0 0) 10
                (mundo_local (reloj_fijo (a_las 9 0 15)) libro_con_ana []))
      as (_ & _ & _ & Hv).
    + reflexivity.
    + intros i j. vm_compute. discriminate.
    + destruct (Hv "2024-05-02") as (w' & Hw & _).
      * intros i. reflexivity.
      * intros H. discriminate H.
      * reflexivity.
      * exists w'. exact Hw.
  - destruct (proj2 alternancia_de_eventos tres_intentos
                (mundo_local (reloj_fijo las_9_00_05) [] [])
                eq_refl eq_refl) with (f := "2024-05-02") (n := "Ana")
      as [Halt _].
    + unfold tres_intentos. cbn [admisible].
      split; [admitir|].
      split; [admitir|].
      split; [admitir|].
      exact I.
    + rewrite Halt. vm_compute. reflexivity.
Defined.

(** The scenario of the debounce: Ana is seen at 09:00:00, at 09:00:05 and
    at 09:00:15; the first detection records an entrance, the second is
    turned down, the third records an exit. *)
Example escenario_ana :
  eventos_de
    (ejecutar [intento_ana 0; intento_ana 5; intento_ana 15]
       (mundo_local (reloj_fijo las_9_00_05) [] []))
    "2024-05-02" "Ana" =
  [mkRegistro (Some "entrada") "09:00:00"; mkRegistro (Some "salida") "09:00:15"].
Proof. vm_compute. reflexivity. Qed.

(** An attempt whose own clock readings straddle midnight is checked against
    one day and recorded on the next: the exit that answers the entrance of
    23:00:00 opens the ledger of the following day. *)
Example intento_a_medianoche :
  let w := mundo_local reloj_medianoche
             [("2024-05-02", [("Ana", [mkRegistro (Some "entrada") "23:00:00"])])]
             [] in
  asistencia_cache (paso (mkIntento "Ana" reloj_medianoche true true) w) =
  [("2024-05-02", [("Ana", [mkRegistro (Some "entrada") "23:00:00"])]);
   ("2024-05-03", [("Ana", [mkRegistro (Some "salida") "00:00:00"])])].
Proof. vm_compute. reflexivity. Qed.

(** With the hosted store unreachable the policy finds no last event and
    allows an entrance inside the debounce window; the insert that follows
    fails as well and the table stays as it was. *)
Example verificar_con_remoto_caido :
  let w := mundo_supabase (reloj_fijo las_9_00_05) false []
             [mkFilaAsistencia "Ana" (Some "entrada") "2024-05-02" "09:00:00"] in
  fst (verificar_puede_registrar "Ana" 10 w) = Ok (true, Some "entrada") /\
  tabla_asistencias (snd (procesar_nombre "Ana" [] w)) = tabla_asistencias w.
Proof. split; vm_compute; reflexivity. Qed.

(* ===================================================================== *)
(** * Further properties of the hosted store client *)
(* ===================================================================== *)

(** ** The order of texts *)

Lemma ascii_compare_refl (a : ascii) : Ascii.compare a a = Eq.
Proof. unfold Ascii.compare. apply N.compare_refl. Qed.

Lemma string_compare_refl (s : string) : String.compare s s = Eq.
Proof.
  induction s as [|a s IH]; [reflexivity|].
  simpl. now rewrite ascii_compare_refl.
Qed.

Lemma string_leb_refl (s : string) : String.leb s s = true.
Proof. unfold String.leb. now rewrite string_compare_refl. Qed.

Lemma string_leb_trans (a b c : string) :
  String.leb a b = true -> String.leb b c = true -> String.leb a c = true.
Proof.
  unfold String.leb. revert b c.
  induction a as [|x a IH]; intros [|y b] [|z c]; simpl; try congruence.
  unfold Ascii.compare.
  destruct (N.compare_spec (N_of_ascii x) (N_of_ascii y)) as [Exy|Lxy|Gxy];
    destruct (N.compare_spec (N_of_ascii y) (N_of_ascii z)) as [Eyz|Lyz|Gyz];
    try congruence; intros H1 H2.
  - rewrite Exy, Eyz, N.compare_refl. now apply (IH b c).
  - rewrite Exy. now apply N.compare_lt_iff in Lyz as ->.
  - rewrite <- Eyz. now apply N.compare_lt_iff in Lxy as ->.
  - assert (Hxz : (N_of_ascii x < N_of_ascii z)%N) by lia.
    now apply N.compare_lt_iff in Hxz as ->.
Qed.

(** ** The stable sort of a query *)

Section Orden.

Context {A : Type} (le : A -> A -> bool).
Hypothesis le_total : forall a b, le a b = true \/ le b a = true.
Hypothesis le_trans : forall a b c, le a b = true -> le b c = true -> le a c = true.

Lemma insertar_perm (x : A) (l : list A) : Permutation (x :: l) (insertar le x l).
Proof.
  induction l as [|y l IH]; [reflexivity|].
  simpl. destruct (le x y); [reflexivity|].
  rewrite perm_swap. now constructor.
Qed.

Lemma ordenar_perm (l : list A) : Permutation l (ordenar le l).
Proof.
  induction l as [|x l IH]; [reflexivity|].
  change (ordenar le (x :: l)) with (insertar le x (ordenar le l)).
  rewrite <- insertar_perm. now constructor.
Qed.

Lemma insertar_ordenado (x : A) (l : list A) :
  StronglySorted (fun a b => le a b = true) l ->
  StronglySorted (fun a b => le a b = true) (insertar le x l).
Proof.
  induction 1 as [|y l Hl IH Hy]; simpl.
  - repeat constructor.
  - destruct (le x y) eqn:Hxy.
    + constructor; [now constructor|].
      constructor; [exact Hxy|].
      rewrite Forall_forall in Hy |- *. intros z Hz.
      apply (le_trans x y z Hxy). now apply Hy.
    + constructor; [exact IH|].
      rewrite Forall_forall in Hy |- *. intros z Hz.
      apply (Permutation_in _ (Permutation_sym (insertar_perm x l))) in Hz.
      destruct Hz as [<-|Hz]; [|now apply Hy].
      destruct (le_total x y) as [H|H]; congruence.
Qed.

Lemma ordenar_ordenado (l : list A) :
  StronglySorted (fun a b => le a b = true) (ordenar le l).
Proof.
  induction l as [|x l IH]; [constructor|].
  change (ordenar le (x :: l)) with (insertar le x (ordenar le l)).
  now apply insertar_ordenado.
Qed.

Lemma filter_ordenado (p : A -> bool) (l : list A) :
  StronglySorted (fun a b => le a b = true) l ->
  StronglySorted (fun a b => le a b = true) (filter p l).
Proof.
  induction 1 as [|y l Hl IH Hy]; simpl; [constructor|].
  destruct (p y); [|exact IH].
  constructor; [exact IH|].
  rewrite Forall_forall in Hy |- *. intros z Hz.
  apply filter_In in Hz as [Hz _]. now apply Hy.
Qed.

End Orden.

Lemma filter_perm {A} (p : A -> bool) (l l' : list A) :
  Permutation l l' -> Permutation (filter p l) (filter p l').
Proof.
  induction 1 as [|x l l' _ IH|x y l|l l' l'' _ IH1 _ IH2]; simpl.
  - constructor.
  - destruct (p x); [now constructor | exact IH].
  - destruct (p x), (p y); try reflexivity. apply perm_swap.
  - now transitivity (filter p l').
Qed.

Lemma filter_filter_and {A} (p q : A -> bool) (l : list A) :
  filter p (filter q l) = filter (fun x => p x && q x) l.
Proof.
  induction l as [|x l IH]; [reflexivity|].
  simpl. destruct (q x); simpl; rewrite ?andb_true_r, ?andb_false_r;
    [destruct (p x)|]; now rewrite IH.
Qed.

Lemma hora_asc_total (a b : FilaAsistencia) :
  String.leb (fa_hora a) (fa_hora b) = true \/
  String.leb (fa_hora b) (fa_hora a) = true.
Proof. apply String.leb_total. Qed.

Lemma hora_asc_trans (a b c : FilaAsistencia) :
  String.leb (fa_hora a) (fa_hora b) = true ->
  String.leb (fa_hora b) (fa_hora c) = true ->
  String.leb (fa_hora a) (fa_hora c) = true.
Proof. apply string_leb_trans. Qed.

Lemma hora_desc_trans (a b c : FilaAsistencia) :
  String.leb (fa_hora b) (fa_hora a) = true ->
  String.leb (fa_hora c) (fa_hora b) = true ->
  String.leb (fa_hora c) (fa_hora a) = true.
Proof. intros H1 H2. now apply (string_leb_trans _ (fa_hora b)). Qed.

(** ** Grouping rows by person *)

Lemma in_set_inv {V} (k k0 : string) (v v0 : V) (d : dict V) :
  In (k, v) (set k0 v0 d) -> (k = k0 /\ v = v0) \/ In (k, v) d.
Proof.
  induction d as [|[k' v'] d IH]; simpl.
  - intros [[= <- <-]|[]]. now left.
  - destruct (String.eqb k0 k'); simpl.
    + intros [[= <- <-]|H]; [now left | right; now right].
    + intros [H|H]; [right; now left|].
      destruct (IH H) as [?|?]; [now left | right; now right].
Qed.

Lemma agrupar_fold (rows : list FilaAsistencia) (acc : dict (list Registro)) :
  let g :=
    fold_left
      (fun agrupado row =>
         let persona := fa_persona_nombre row in
         set persona (get_or persona [] agrupado ++ [registro_de_fila row])
           agrupado)
      rows acc in
  (wf acc -> wf g) /\
  (forall p,
     get_or p [] g =
     get_or p [] acc ++
     map registro_de_fila
       (filter (fun row => String.eqb (fa_persona_nombre row) p) rows)) /\
  ((forall p evs, In (p, evs) acc -> evs <> []) ->
   forall p evs, In (p, evs) g -> evs <> []).
Proof.
  revert acc. induction rows as [|row rows IH]; intros acc; cbv zeta.
  - simpl. repeat split; auto. intros p. now rewrite app_nil_r.
  - cbn [fold_left].
    destruct (IH (set (fa_persona_nombre row)
                    (get_or (fa_persona_nombre row) [] acc ++
                     [registro_de_fila row]) acc)) as (Hwf & Hget & Hne).
    split; [|split].
    + intros H. apply Hwf. now apply set_wf.
    + intros p. rewrite Hget. cbn [filter].
      destruct (String.eqb_spec (fa_persona_nombre row) p) as [<-|Hp].
      * rewrite get_or_set_eq. cbn [map]. now rewrite <- app_assoc.
      * now rewrite get_or_set_neq.
    + intros Hacc. apply Hne. intros p evs Hin.
      apply in_set_inv in Hin as [[_ ->]|Hin]; [|now apply (Hacc p)].
      intros H. now apply app_eq_nil in H as [_ ?].
Qed.

(** X1. [_group_by_person] gathers, for every person, the events of that
    person's rows in the order of the rows; the grouping has one entry per
    person and no entry with an empty list. *)
Theorem group_by_person_agrupa (rows : list FilaAsistencia) :
  wf (_group_by_person rows) /\
  (forall p,
     get_or p [] (_group_by_person rows) =
     map registro_de_fila
       (filter (fun row => String.eqb (fa_persona_nombre row) p) rows)) /\
  (forall p evs, In (p, evs) (_group_by_person rows) -> evs <> []).
Proof.
  destruct (agrupar_fold rows vacio) as (Hwf & Hget & Hne).
  split; [|split].
  - apply Hwf. constructor.
  - intros p. apply (Hget p).
  - apply Hne. intros p evs [].
Qed.

(** ** Reading the attendance of a day *)

(** X2. With the hosted store reachable, [obtener_ultimo_registro] returns a
    row of the person on the date whose [hora] is not below that of any
    other such row, and returns nothing exactly when there is no such row;
    among times written as the service writes them that row is the latest
    in time.  The world is left as it was. *)
Theorem obtener_ultimo_registro_maximo (nombre fecha : string) (w : Mundo) :
  client w = true -> remoto_ok w = true ->
  exists r,
    obtener_ultimo_registro nombre fecha w = (Ok r, w) /\
    match r with
    | None => filas_de w fecha nombre = []
    | Some row =>
        In row (filas_de w fecha nombre) /\
        (forall y, In y (filas_de w fecha nombre) ->
           String.leb (fa_hora y) (fa_hora row) = true) /\
        (forall y, In y (filas_de w fecha nombre) ->
           canonica (fa_hora y) -> canonica (fa_hora row) ->
           seg (fa_hora y) <= seg (fa_hora row))
    end.
Proof.
  intros Hc Hr. unfold obtener_ultimo_registro. desplegar.
  rewrite Hc. cbn [negb]. rewrite Hr.
  fold (filas_de w fecha nombre).
  set (le := fun a b : FilaAsistencia => String.leb (fa_hora b) (fa_hora a)).
  pose proof (ordenar_perm le (filas_de w fecha nombre)) as Hp.
  pose proof (ordenar_ordenado le
                (fun a b => hora_asc_total b a)
                (fun a b c => hora_desc_trans a b c)
                (filas_de w fecha nombre)) as Hs.
  destruct (ordenar le (filas_de w fecha nombre)) as [|row resto].
  - exists None. split; [reflexivity|].
    now apply Permutation_sym, Permutation_nil in Hp.
  - exists (Some row). split; [reflexivity|].
    assert (Hmax : forall y, In y (filas_de w fecha nombre) ->
                     String.leb (fa_hora y) (fa_hora row) = true).
    { intros y Hy. apply (Permutation_in _ Hp) in Hy.
      destruct Hy as [<-|Hy]; [apply string_leb_refl|].
      inversion Hs as [|? ? _ Hall]; subst.
      rewrite Forall_forall in Hall. now apply Hall. }
    split; [|split].
    + apply (Permutation_in _ (Permutation_sym Hp)). now left.
    + exact Hmax.
    + intros y Hy Hcy Hcr.
      destruct (Z.le_gt_cases (seg (fa_hora y)) (seg (fa_hora row)))
        as [Hle|Hgt]; [exact Hle|].
      pose proof (leb_canonica _ _ Hcr Hcy Hgt) as Hf.
      rewrite (Hmax y Hy) in Hf. discriminate.
Qed.

Lemma obtener_ultimo_registro_maximo_testigo :
  exists r,
    obtener_ultimo_registro "Ana" "2024-05-02"
      (mundo_supabase (reloj_fijo las_9_00_05) true []
         [mkFilaAsistencia "Ana" (Some "entrada") "2024-05-02" "09:00:00"]) =
      (Ok r, mundo_supabase (reloj_fijo las_9_00_05) true []
               [mkFilaAsistencia "Ana" (Some "entrada") "2024-05-02" "09:00:00"])
    /\ r <> None.
Proof.
  destruct (obtener_ultimo_registro_maximo "Ana" "2024-05-02"
              (mundo_supabase (reloj_fijo las_9_00_05) true []
                 [mkFilaAsistencia "Ana" (Some "entrada") "2024-05-02"
                    "09:00:00"])
              eq_refl eq_refl) as (r & Hr & Hm).
  exists r. split; [exact Hr|].
  destruct r; [discriminate | discriminate Hm].
Defined.

Lemma map_ordenado {A B} (g : A -> B) (R : B -> B -> Prop) (l : list A) :
  StronglySorted (fun a b => R (g a) (g b)) l -> StronglySorted R (map g l).
Proof.
  induction 1 as [|x l Hl IH Hx]; simpl; constructor; auto.
  rewrite Forall_forall in Hx |- *. intros y Hy.
  apply in_map_iff in Hy as (z & <- & Hz). now apply Hx.
Qed.

(** X3. With the hosted store reachable, [obtener_asistencia_por_fecha]
    returns for every person the events of the person's rows of that date,
    none lost and none added, in non-decreasing order of [hora]; the world
    is left as it was. *)
Theorem obtener_asistencia_por_fecha_ordenada (fecha : string) (w : Mundo) :
  client w = true -> remoto_ok w = true ->
  exists registros,
    obtener_asistencia_por_fecha fecha w = (Ok registros, w) /\
    wf registros /\
    forall p,
      Permutation (get_or p [] registros)
        (map registro_de_fila (filas_de w fecha p)) /\
      StronglySorted (fun a b => String.leb (hora a) (hora b) = true)
        (get_or p [] registros).
Proof.
  intros Hc Hr. unfold obtener_asistencia_por_fecha. desplegar.
  rewrite Hc. cbn [negb]. rewrite Hr.
  eexists. split; [reflexivity|].
  destruct (agrupar_fold
              (ordenar (fun a b => String.leb (fa_hora a) (fa_hora b))
                 (filter (fun row => String.eqb (fa_fecha row) fecha)
                    (tabla_asistencias w))) vacio) as (Hwf & Hget & _).
  fold (_group_by_person
          (ordenar (fun a b => String.leb (fa_hora a) (fa_hora b))
             (filter (fun row => String.eqb (fa_fecha row) fecha)
                (tabla_asistencias w)))) in Hwf, Hget.
  split; [apply Hwf; constructor|]. intros p. rewrite Hget.
  change (get_or p [] vacio) with (@nil Registro). cbn [app]. split.
  - apply Permutation_map. unfold filas_de.
    rewrite <- filter_filter_and.
    apply filter_perm, Permutation_sym, ordenar_perm.
  - apply map_ordenado. apply filter_ordenado.
    apply (ordenar_ordenado
             (fun a b => String.leb (fa_hora a) (fa_hora b))
             hora_asc_total hora_asc_trans).
Qed.

Lemma obtener_asistencia_por_fecha_ordenada_testigo :
  let w := mundo_supabase (reloj_fijo las_9_00_05) true []
             [mkFilaAsistencia "Ana" (Some "salida") "2024-05-02" "17:00:00";
              mkFilaAsistencia "Ana" (Some "entrada") "2024-05-02" "09:00:00"] in
  fst (obtener_asistencia_por_fecha "2024-05-02" w) =
  Ok [("Ana", [mkRegistro (Some "entrada") "09:00:00";
               mkRegistro (Some "salida") "17:00:00"])].
Proof.
  cbv zeta.
  destruct (obtener_asistencia_por_fecha_ordenada "2024-05-02"
              (mundo_supabase (reloj_fijo las_9_00_05) true []
                 [mkFilaAsistencia "Ana" (Some "salida") "2024-05-02" "17:00:00";
                  mkFilaAsistencia "Ana" (Some "entrada") "2024-05-02"
                    "09:00:00"])
              eq_refl eq_refl) as (registros & Hr & _).
  rewrite Hr. cbn [fst]. f_equal.
  apply (f_equal fst) in Hr. cbn [fst] in Hr.
  injection Hr as <-. vm_compute. reflexivity.
Defined.

(** ** A store that is off or out of reach *)

(** X4. When the hosted store is disabled or cannot be reached, no method of
    [SupabaseService] raises: the reads return their empty value, the writes
    report nothing done, and the tables stay as they were. *)
Theorem supabase_sin_conexion (np_float32 : Q -> Q) (w : Mundo) :
  client w = false \/ remoto_ok w = false ->
  cargar_personas_embeddings np_float32 w = (Ok [], w) /\
  supabase_listar_personas w = (Ok [], w) /\
  obtener_historial w = (Ok [], w) /\
  (forall fecha, obtener_asistencia_por_fecha fecha w = (Ok [], w)) /\
  (forall nombre fecha, obtener_ultimo_registro nombre fecha w = (Ok None, w)) /\
  (forall nombre tipo_ fecha hora_,
     guardar_asistencia nombre tipo_ fecha hora_ w = (Ok None, w)) /\
  (forall nombre, supabase_eliminar_persona nombre w = (Ok false, w)) /\
  (forall nombre emb edad_ genero_ fecha con_imagen,
     fecha <> "" ->
     guardar_persona nombre emb edad_ genero_ fecha con_imagen w = (Ok None, w)).
Proof.
  intros H.
  unfold cargar_personas_embeddings, supabase_listar_personas,
    obtener_historial, obtener_asistencia_por_fecha, obtener_ultimo_registro,
    guardar_asistencia, supabase_eliminar_persona, guardar_persona,
    _subir_imagen.
  desplegar.
  destruct w as [r l d rem u tp ta c us ac pr]; simpl in *.
  destruct c; [destruct H as [H|H]; [discriminate|subst rem]|];
    repeat split; intros; simpl; try reflexivity.
  all: match goal with Hf : ?f <> "" |- _ =>
         destruct (String.eqb_spec f ""); [contradiction|] end.
  all: destruct con_imagen; simpl; try reflexivity.
  all: destruct (u nombre); reflexivity.
Qed.

Lemma supabase_sin_conexion_testigo :
  obtener_ultimo_registro "Ana" "2024-05-02"
    (mundo_supabase (reloj_fijo las_9_00_05) false []
       [mkFilaAsistencia "Ana" (Some "entrada") "2024-05-02" "09:00:00"]) =
  (Ok None,
   mundo_supabase (reloj_fijo las_9_00_05) false []
     [mkFilaAsistencia "Ana" (Some "entrada") "2024-05-02" "09:00:00"]).
Proof.
  apply (supabase_sin_conexion float32_cercano
           (mundo_supabase (reloj_fijo las_9_00_05) false []
              [mkFilaAsistencia "Ana" (Some "entrada") "2024-05-02" "09:00:00"])).
  right. reflexivity.
Defined.

(** ** Saving a person and loading the persons again *)

Section Guardar_y_cargar.

Variable np_float32 : Q -> Q.

Lemma cargar_fold_ausente (n : string) (rows : list FilaPersona)
    (acc : dict Persona) :
  ~ In n (nombres_de rows) ->
  get n (fold_left
           (fun personas row => set (fp_nombre row) (persona_de_fila np_float32 row) personas)
           rows acc) = get n acc.
Proof.
  revert acc. induction rows as [|row rows IH]; intros acc Hn; [reflexivity|].
  cbn [fold_left]. simpl in Hn. rewrite IH by tauto.
  apply get_set_neq. tauto.
Qed.

Lemma cargar_fold_presente (row : FilaPersona) (rows : list FilaPersona)
    (acc : dict Persona) :
  NoDup (nombres_de rows) -> In row rows ->
  get (fp_nombre row)
    (fold_left
       (fun personas row => set (fp_nombre row) (persona_de_fila np_float32 row) personas)
       rows acc) = Some (persona_de_fila np_float32 row).
Proof.
  revert acc. induction rows as [|r rows IH]; intros acc Hnd Hin; [contradiction|].
  cbn [fold_left]. simpl in Hnd. inversion Hnd as [|? ? Hr Hrows]; subst.
  destruct Hin as [->|Hin].
  - rewrite cargar_fold_ausente by exact Hr. apply get_set_eq.
  - now apply IH.
Qed.

Lemma cargar_personas_ok (w : Mundo) :
  client w = true -> remoto_ok w = true ->
  cargar_personas_embeddings np_float32 w =
  (Ok (fold_left
         (fun personas row => set (fp_nombre row) (persona_de_fila np_float32 row) personas)
         (tabla_personas w) vacio), w).
Proof.
  intros Hc Hr. unfold cargar_personas_embeddings. desplegar.
  rewrite Hc. cbn [negb]. rewrite Hr. reflexivity.
Qed.

Lemma upsert_persona_nombres (nombre : string) (p : Persona)
    (t : list FilaPersona) (n : string) :
  In n (nombres_de (upsert_persona nombre p t)) <->
  n = nombre \/ In n (nombres_de t).
Proof.
  induction t as [|row t IH]; simpl.
  - intuition.
  - destruct (String.eqb_spec (fp_nombre row) nombre) as [E|E]; simpl.
    + rewrite E. intuition.
    + rewrite IH. intuition.
Qed.

Lemma upsert_persona_nodup (nombre : string) (p : Persona)
    (t : list FilaPersona) :
  NoDup (nombres_de t) -> NoDup (nombres_de (upsert_persona nombre p t)).
Proof.
  induction t as [|row t IH]; simpl; intros H.
  - repeat constructor. tauto.
  - inversion H as [|? ? Hr Ht]; subst.
    destruct (String.eqb_spec (fp_nombre row) nombre) as [E|E]; simpl.
    + constructor; [now rewrite <- E | exact Ht].
    + constructor; [|now apply IH].
      change (~ In (fp_nombre row) (nombres_de (upsert_persona nombre p t))).
      rewrite upsert_persona_nombres. intuition.
Qed.

Lemma upsert_persona_guardada (nombre : string) (p : Persona)
    (t : list FilaPersona) :
  exists foto,
    In (mkFilaPersona nombre
          (mkPersona (embedding p) (fecha_registro p) (edad p) (genero p) foto))
       (upsert_persona nombre p t) /\
    (foto_url p <> None -> foto = foto_url p).
Proof.
  induction t as [|row t (foto & IH & Hf)]; simpl.
  - exists (foto_url p). split; [left; now destruct p | auto].
  - destruct (String.eqb (fp_nombre row) nombre).
    + eexists. split; [left; reflexivity|].
      destruct (foto_url p); [reflexivity | congruence].
    + exists foto. split; [now right | exact Hf].
Qed.

Lemma upsert_persona_otras (nombre : string) (p : Persona)
    (t : list FilaPersona) (row : FilaPersona) :
  fp_nombre row <> nombre ->
  (In row (upsert_persona nombre p t) <-> In row t).
Proof.
  intros Hne. induction t as [|r t IH]; simpl.
  - split; [intros [<-|[]]; now elim Hne | tauto].
  - destruct (String.eqb_spec (fp_nombre r) nombre) as [E|E]; simpl.
    + split; intros [<-|H]; auto; [now elim Hne | congruence].
    + rewrite IH. tauto.
Qed.

(** The loaded entry of a name is decided by the rows of that name. *)
Lemma cargar_fold_mismas_filas (n : string) (t t' : list FilaPersona) :
  NoDup (nombres_de t) -> NoDup (nombres_de t') ->
  (forall row, fp_nombre row = n -> (In row t' <-> In row t)) ->
  get n (fold_left
           (fun personas row => set (fp_nombre row) (persona_de_fila np_float32 row) personas)
           t' vacio) =
  get n (fold_left
           (fun personas row => set (fp_nombre row) (persona_de_fila np_float32 row) personas)
           t vacio).
Proof.
  intros Hnd Hnd' Hsame.
  destruct (in_dec string_dec n (nombres_de t)) as [Hin|Hout].
  - apply in_map_iff in Hin as (row & <- & Hrow).
    rewrite (cargar_fold_presente row t) by assumption.
    apply cargar_fold_presente; [assumption|]. now apply Hsame.
  - rewrite (cargar_fold_ausente n t) by assumption.
    apply cargar_fold_ausente. intros Hin.
    apply in_map_iff in Hin as (row & E & Hrow).
    apply Hout. apply in_map_iff. exists row. split; [exact E|].
    now apply Hsame.
Qed.

Lemma map_valores_exactos (l : Embedding) :
  Forall (fun x => np_float32 x = x) l -> map np_float32 l = l.
Proof.
  induction 1 as [|x l Hx _ IH]; [reflexivity|].
  cbn [map]. now rewrite Hx, IH.
Qed.

(** X5. With the hosted store reachable and one row per name in its table,
    a person saved with [guardar_persona] is what
    [cargar_personas_embeddings] loads afterwards under that name -- the
    embedding cast to single precision, value by value, and the date, the
    age and the gender of the call -- and the entries loaded under the other
    names are the ones loaded before.  An embedding of single-precision
    values, such as the detector produces, is loaded as it was saved. *)
Theorem guardar_y_cargar_persona
    (nombre : string) (emb : Embedding) (edad_ : option Z)
    (genero_ : option string) (fecha : string) (con_imagen : bool)
    (w : Mundo) :
  client w = true -> remoto_ok w = true -> fecha <> "" ->
  NoDup (nombres_de (tabla_personas w)) ->
  exists foto w1 personas0 personas,
    cargar_personas_embeddings np_float32 w = (Ok personas0, w) /\
    guardar_persona nombre emb edad_ genero_ fecha con_imagen w = (Ok foto, w1) /\
    cargar_personas_embeddings np_float32 w1 = (Ok personas, w1) /\
    NoDup (nombres_de (tabla_personas w1)) /\
    (exists foto',
       get nombre personas =
         Some (mkPersona (Some (map np_float32 emb)) (Some fecha) edad_
                 genero_ foto') /\
       (no_vacia foto <> None -> foto' = foto)) /\
    (Forall (fun x => np_float32 x = x) emb -> map np_float32 emb = emb) /\
    (forall n, n <> nombre -> get n personas = get n personas0).
Proof.
  intros Hc Hr Hf Hnd.
  set (payload foto := mkPersona (Some emb) (Some fecha) edad_ genero_
                         (no_vacia foto)).
  assert (Hg : exists foto,
             guardar_persona nombre emb edad_ genero_ fecha con_imagen w =
             (Ok foto,
              con_tabla_personas
                (upsert_persona nombre (payload foto) (tabla_personas w)) w)).
  { unfold guardar_persona, _subir_imagen. desplegar.
    destruct (String.eqb_spec fecha ""); [contradiction|].
    destruct w as [r l d rem u tp ta c us ac pr]; simpl in *. subst.
    destruct con_imagen; simpl; [destruct (u nombre) as [url|]|]; simpl;
      [exists (Some url) | exists None | exists None]; reflexivity. }
  destruct Hg as [foto Hg].
  set (w1 := con_tabla_personas
               (upsert_persona nombre (payload foto) (tabla_personas w)) w) in *.
  exists foto, w1. do 2 eexists.
  split; [now apply cargar_personas_ok|].
  split; [exact Hg|].
  split; [now apply cargar_personas_ok|].
  assert (Hnd1 : NoDup (nombres_de (tabla_personas w1)))
    by now apply upsert_persona_nodup.
  split; [exact Hnd1|]. split.
  - destruct (upsert_persona_guardada nombre (payload foto) (tabla_personas w))
      as (foto' & Hin & Hfoto).
    exists foto'. split.
    + change (tabla_personas w1)
        with (upsert_persona nombre (payload foto) (tabla_personas w)).
      apply (cargar_fold_presente _ _ vacio Hnd1) in Hin. exact Hin.
    + intros H. rewrite (Hfoto H). cbn [payload foto_url].
      destruct foto as [url|]; simpl in *; [|congruence].
      destruct (String.eqb url ""); congruence.
  - split.
    + apply map_valores_exactos.
    + intros n Hn. apply cargar_fold_mismas_filas; auto.
      intros row <-. now apply upsert_persona_otras.
Qed.

Lemma filter_nombres_nodup (q : FilaPersona -> bool) (t : list FilaPersona) :
  NoDup (nombres_de t) -> NoDup (nombres_de (filter q t)).
Proof.
  induction t as [|row t IH]; simpl; intros H; [constructor|].
  inversion H as [|? ? Hr Ht]; subst.
  destruct (q row); simpl; [|now apply IH].
  constructor; [|now apply IH].
  intros Hin. apply Hr.
  apply in_map_iff in Hin as (r & E & Hin). apply filter_In in Hin as [Hin _].
  apply in_map_iff. now exists r.
Qed.

(** X6. With the hosted store reachable and one row per name in its table,
    after [eliminar_persona] of the client the persons loaded by
    [cargar_personas_embeddings] no longer hold the name, and hold under the
    other names what was loaded before. *)
Theorem eliminar_y_cargar_persona (nombre : string) (w : Mundo) :
  client w = true -> remoto_ok w = true ->
  NoDup (nombres_de (tabla_personas w)) ->
  exists w1 personas0 personas,
    cargar_personas_embeddings np_float32 w = (Ok personas0, w) /\
    supabase_eliminar_persona nombre w = (Ok true, w1) /\
    cargar_personas_embeddings np_float32 w1 = (Ok personas, w1) /\
    get nombre personas = None /\
    (forall n, n <> nombre -> get n personas = get n personas0).
Proof.
  intros Hc Hr Hnd.
  set (t1 := filter (fun row => negb (String.eqb (fp_nombre row) nombre))
               (tabla_personas w)).
  assert (He : supabase_eliminar_persona nombre w =
               (Ok true, con_tabla_personas t1 w)).
  { unfold supabase_eliminar_persona, _eliminar_imagen. desplegar.
    destruct w as [r l d rem u tp ta c us ac pr]; simpl in *. subst.
    reflexivity. }
  exists (con_tabla_personas t1 w). do 2 eexists.
  split; [now apply cargar_personas_ok|].
  split; [exact He|].
  split; [now apply cargar_personas_ok|].
  change (tabla_personas (con_tabla_personas t1 w)) with t1.
  assert (Hnd1 : NoDup (nombres_de t1)) by now apply filter_nombres_nodup.
  split.
  - rewrite cargar_fold_ausente; [reflexivity|].
    intros Hin. apply in_map_iff in Hin as (row & E & Hin).
    apply filter_In in Hin as [_ Hq].
    rewrite E, String.eqb_refl in Hq. discriminate.
  - intros n Hn. apply cargar_fold_mismas_filas; auto.
    intros row <-. unfold t1. rewrite filter_In.
    destruct (String.eqb_spec (fp_nombre row) nombre); [contradiction|].
    simpl. tauto.
Qed.

End Guardar_y_cargar.

Lemma guardar_y_cargar_persona_testigo :
  let w := mundo_supabase (reloj_fijo las_9_00_05) true [fila_ana] [] in
  exists w1 personas,
    snd (guardar_persona "Bob" [(1 # 10)%Q; 1%Q] (Some 41) (Some "M")
           "2024-05-02 09:00:05" true w) = w1 /\
    cargar_personas_embeddings float32_cercano w1 = (Ok personas, w1) /\
    embedding (get_or "Bob" (persona_con []) personas) =
      Some [(13421773 # 134217728)%Q; 1%Q].
Proof.
  cbv zeta.
  destruct (guardar_y_cargar_persona float32_cercano
              "Bob" [(1 # 10)%Q; 1%Q] (Some 41) (Some "M")
              "2024-05-02 09:00:05" true
              (mundo_supabase (reloj_fijo las_9_00_05) true [fila_ana] []))
    as (foto & w1 & p0 & p & _ & Hg & Hl & _ & (foto' & Hget & _) & _).
  - reflexivity.
  - reflexivity.
  - discriminate.
  - repeat constructor. simpl. tauto.
  - exists w1, p. rewrite Hg. split; [reflexivity|]. split; [exact Hl|].
    unfold get_or. rewrite Hget. reflexivity.
Defined.

Lemma eliminar_y_cargar_persona_testigo :
  let w := mundo_supabase (reloj_fijo las_9_00_05) true [fila_ana] [] in
  exists w1 personas,
    supabase_eliminar_persona "Ana" w = (Ok true, w1) /\
    cargar_personas_embeddings float32_cercano w1 = (Ok personas, w1) /\
    get "Ana" personas = None.
Proof.
  cbv zeta.
  destruct (eliminar_y_cargar_persona float32_cercano "Ana"
              (mundo_supabase (reloj_fijo las_9_00_05) true [fila_ana] []))
    as (w1 & p0 & p & _ & He & Hl & Hg & _).
  - reflexivity.
  - reflexivity.
  - repeat constructor. simpl. tauto.
  - exists w1, p. auto.
Defined.

(** ** The listing of the hosted store *)

(** X7. With the hosted store reachable, the listing of
    [SupabaseService.listar_personas] has one record per row of the table,
    in non-decreasing order of the names, and leaves the world as it was. *)
Theorem supabase_listar_personas_ordenada (w : Mundo) :
  client w = true -> remoto_ok w = true ->
  exists personas nombres,
    supabase_listar_personas w = (Ok personas, w) /\
    map nombre_de personas = map Some nombres /\
    Permutation nombres (nombres_de (tabla_personas w)) /\
    StronglySorted (fun a b => String.leb a b = true) nombres.
Proof.
  intros Hc Hr. unfold supabase_listar_personas. desplegar.
  rewrite Hc. cbn [negb]. rewrite Hr.
  set (le := fun a b : FilaPersona => String.leb (fp_nombre a) (fp_nombre b)).
  eexists. exists (nombres_de (ordenar le (tabla_personas w))).
  split; [reflexivity|]. split; [|split].
  - unfold nombres_de. rewrite !map_map. reflexivity.
  - apply Permutation_map, Permutation_sym, ordenar_perm.
  - apply map_ordenado.
    apply (ordenar_ordenado le).
    + intros a b. apply String.leb_total.
    + intros a b c. apply string_leb_trans.
Qed.

Lemma supabase_listar_personas_ordenada_testigo :
  let w := mundo_supabase (reloj_fijo las_9_00_05) true
             [mkFilaPersona "Bob" (persona_con []); fila_ana] [] in
  map nombre_de (match fst (supabase_listar_personas w) with
                 | Ok l => l
                 | Raise _ => []
                 end) = [Some "Ana"; Some "Bob"].
Proof.
  cbv zeta.
  destruct (supabase_listar_personas_ordenada
              (mundo_supabase (reloj_fijo las_9_00_05) true
                 [mkFilaPersona "Bob" (persona_con []); fila_ana] []))
    as (p & ns & Hl & Hn & _).
  - reflexivity.
  - reflexivity.
  - rewrite Hl. cbn [fst]. rewrite Hn.
    apply (f_equal fst) in Hl. cbn [fst] in Hl.
    assert (E : map nombre_de p = [Some "Ana"; Some "Bob"]).
    { injection Hl as <-. vm_compute. reflexivity. }
    now rewrite <- Hn.
Defined.

(* ===================================================================== *)
(** * Further properties of the recognition service *)
(* ===================================================================== *)

Lemma reconocer_persona_fold (np_dot : Embedding -> Embedding -> Q)
    (emb : Embedding) (umbral : Q) (w : Mundo) :
  exists m s,
    mejor_hasta np_dot emb (candidatos (personas_registradas w)) (m, s) /\
    _reconocer_persona np_dot emb umbral w =
    (Ok (if Qle_bool umbral s then (m, s) else (None, 0%Q)), w).
Proof.
  unfold _reconocer_persona, bind, leer, items.
  pose proof (mejor_hasta_fold np_dot emb (personas_registradas w) []
                (None, 0%Q)) as H.
  cbn [app] in H.
  destruct (fold_left (comparar np_dot emb) (personas_registradas w)
              (None, 0%Q)) as [m s].
  exists m, s. split.
  - apply H. simpl. split; [reflexivity | intros ? ? []].
  - destruct (Qle_bool umbral s); reflexivity.
Qed.

Lemma candidatos_keys (personas : dict Persona) (n : string) (e : Embedding) :
  In (n, e) (candidatos personas) ->
  In n (keys personas) /\ e <> [] /\
  exists datos, In (n, datos) personas /\ embedding datos = Some e.
Proof.
  induction personas as [|[k d] p IH]; simpl; [tauto|].
  destruct (embedding d) as [[|x v]|] eqn:E.
  - intros H. destruct (IH H) as (? & ? & dd & ? & ?).
    repeat split; auto. exists dd. auto.
  - intros [[= <- <-]|H].
    + repeat split; auto; [discriminate|]. exists d. auto.
    + destruct (IH H) as (? & ? & dd & ? & ?).
      repeat split; auto. exists dd. auto.
  - intros H. destruct (IH H) as (? & ? & dd & ? & ?).
    repeat split; auto. exists dd. auto.
Qed.

(** X8. Whatever the threshold, a name [_reconocer_persona] returns is the
    name of a stored entry with a non-empty embedding, and the similarity
    returned with it is the product with that embedding, strictly positive
    and not below the threshold; on a store without embeddings the answer is
    no name and similarity 0.  The store is not changed. *)
Theorem reconocer_persona_nombre_registrado
    (np_dot : Embedding -> Embedding -> Q) (emb : Embedding) (umbral : Q)
    (w : Mundo) :
  exists m s,
    _reconocer_persona np_dot emb umbral w = (Ok (m, s), w) /\
    (forall nombre, m = Some nombre ->
       (0 < s)%Q /\ (umbral <= s)%Q /\
       exists datos registrado,
         In (nombre, datos) (personas_registradas w) /\
         embedding datos = Some registrado /\ registrado <> [] /\
         s = np_dot emb registrado) /\
    (m = None -> s = 0%Q) /\
    (candidatos (personas_registradas w) = [] -> m = None).
Proof.
  destruct (reconocer_persona_fold np_dot emb umbral w) as (m & s & Hinv & Hr).
  destruct (Qle_bool umbral s) eqn:Hle.
  - exists m, s. split; [exact Hr|]. split; [|split].
    + intros nombre ->. simpl in Hinv.
      destruct Hinv as (Hpos & antes & reg & despues & Hc & Hs & _).
      split; [exact Hpos|]. split; [now apply Qle_bool_iff|].
      destruct (candidatos_keys (personas_registradas w) nombre reg)
        as (_ & Hne & datos & Hin & He).
      { rewrite Hc. apply in_or_app. right. now left. }
      exists datos, reg. auto.
    + intros ->. simpl in Hinv. tauto.
    + intros Hc. destruct m as [nombre|]; [|reflexivity].
      simpl in Hinv. destruct Hinv as (_ & antes & reg & despues & Hc' & _).
      rewrite Hc in Hc'. now destruct antes.
  - exists None, 0%Q. split; [exact Hr|]. split; [discriminate|].
    split; reflexivity.
Qed.

(** X9. After [eliminar_persona] the matcher never returns the removed name,
    for any face and any threshold. *)
Theorem eliminado_no_reconocido
    (np_dot : Embedding -> Embedding -> Q) (nombre : string)
    (emb : Embedding) (umbral : Q) (w : Mundo) :
  forall s,
    fst (_reconocer_persona np_dot emb umbral (snd (eliminar_persona nombre w)))
    <> Ok (Some nombre, s).
Proof.
  intros s0 H.
  destruct (reconocer_persona_fold np_dot emb umbral
              (snd (eliminar_persona nombre w))) as (m & s & Hinv & Hr).
  rewrite Hr in H. cbn [fst] in H.
  destruct (Qle_bool umbral s); [|discriminate].
  injection H as -> ->. simpl in Hinv.
  destruct Hinv as (_ & antes & reg & despues & Hc & _).
  destruct (candidatos_keys (personas_registradas (snd (eliminar_persona nombre w)))
              nombre reg) as (Hin & _).
  { rewrite Hc. apply in_or_app. right. now left. }
  rewrite eliminar_persona_store in Hin.
  revert Hin. apply get_None_keys. apply get_del_eq.
Qed.

(** X10. [eliminar_persona] answers [exito: False] and changes nothing when
    the name is not in the store.  When it is, the entry leaves the store in
    memory; the answer is [exito: True] unless the service works on local
    files and they cannot be written, and a second removal of the same name
    then finds nothing. *)
Theorem eliminar_persona_exito (nombre : string) (w : Mundo) :
  (contains nombre (personas_registradas w) = false ->
   eliminar_persona nombre w =
   (Ok [("exito", VBool false);
        ("mensaje", VStr (String.append nombre " no encontrado"))], w)) /\
  (contains nombre (personas_registradas w) = true ->
   exists w1,
     eliminar_persona nombre w =
     ((if client w || disco_ok w
       then Ok [("exito", VBool true);
                ("mensaje",
                 VStr (String.append nombre " eliminado correctamente"))]
       else Raise OSError), w1) /\
     personas_registradas w1 = del nombre (personas_registradas w) /\
     asistencia_cache w1 = asistencia_cache w /\
     tabla_asistencias w1 = tabla_asistencias w /\
     exists w2,
       eliminar_persona nombre w1 =
       (Ok [("exito", VBool false);
            ("mensaje", VStr (String.append nombre " no encontrado"))], w2) /\
       personas_registradas w2 = personas_registradas w1).
Proof.
  split; intros Hc.
  - unfold eliminar_persona. desplegar. rewrite Hc. reflexivity.
  - assert (Hd : contains nombre (del nombre (personas_registradas w)) = false).
    { unfold contains. now rewrite get_del_eq. }
    unfold eliminar_persona, supabase_eliminar_persona, _eliminar_imagen,
      _guardar_personas_local, _eliminar_foto_local.
    desplegar. rewrite Hc. cbn [negb].
    destruct w as [r l d rem u tp ta c us ac pr]; simpl in *.
    destruct c, d, rem; simpl; eexists; (split; [reflexivity|]);
      simpl; repeat split; rewrite Hd; simpl; eexists; split; reflexivity.
Qed.

Lemma eliminar_persona_exito_testigo :
  exists w1,
    eliminar_persona "Ana" (mundo_local (reloj_fijo las_9_00_05) [] dos_personas) =
    (Ok [("exito", VBool true);
         ("mensaje", VStr "Ana eliminado correctamente")], w1) /\
    keys (personas_registradas w1) = ["Bob"].
Proof.
  destruct (eliminar_persona_exito "Ana"
              (mundo_local (reloj_fijo las_9_00_05) [] dos_personas)) as [_ H].
  destruct (H eq_refl) as (w1 & Hr & Hp & _).
  exists w1. split; [exact Hr | rewrite Hp; reflexivity].
Defined.

Lemma rostro_de_nombre (np_dot : Embedding -> Embedding -> Q) (face : Face)
    (w : Mundo) :
  exists r n s,
    rostro_de np_dot face w = (Ok r, w) /\
    get "bbox" r = Some (bbox_tolist (bbox face)) /\
    get "embedding" r = Some (VVector (normed_embedding face)) /\
    get "nombre" r = Some (VStr n) /\
    get "similitud" r = Some (VFloat s) /\
    (n <> "Desconocido" ->
       n <> "" /\ (UMBRAL_DEFECTO <= s)%Q /\
       exists datos reg,
         In (n, datos) (personas_registradas w) /\
         embedding datos = Some reg /\
         s = np_dot (normed_embedding face) reg) /\
    ((forall k e, In (k, e) (candidatos (personas_registradas w)) ->
        (np_dot (normed_embedding face) e < UMBRAL_DEFECTO)%Q) ->
     n = "Desconocido" /\ s = 0%Q).
Proof.
  destruct (reconocer_persona_fold np_dot (normed_embedding face)
              UMBRAL_DEFECTO w) as (m & s & Hinv & Hr).
  unfold rostro_de, bind. rewrite Hr.
  destruct (Qle_bool UMBRAL_DEFECTO s) eqn:Hle.
  - destruct m as [nombre|].
    + simpl in Hinv.
      destruct Hinv as (Hpos & antes & reg & despues & Hc & Hs & _).
      destruct (candidatos_keys (personas_registradas w) nombre reg)
        as (_ & _ & datos & Hin & He).
      { rewrite Hc. apply in_or_app. right. now left. }
      apply Qle_bool_iff in Hle.
      eexists. exists (match no_vacia (Some nombre) with
                       | Some n => n | None => "Desconocido" end), s.
      split; [reflexivity|].
      assert (Hen : In (nombre, reg) (candidatos (personas_registradas w))).
      { rewrite Hc. apply in_or_app. right. now left. }
      cbn [no_vacia].
      destruct (String.eqb_spec nombre "") as [Hv|Hv].
      * subst nombre.
        split; [destruct (bbox face) as [[[? ?] ?] ?]; reflexivity|].
        split; [reflexivity|]. split; [reflexivity|].
        split; [reflexivity|]. split; [intros Hn; now elim Hn|].
        intros H. exfalso.
        apply (Qlt_not_le _ _ (H _ _ Hen)). rewrite <- Hs. exact Hle.
      * split; [destruct (bbox face) as [[[? ?] ?] ?]; reflexivity|].
        split; [reflexivity|]. split; [reflexivity|].
        split; [reflexivity|]. split.
        -- intros _. split; [exact Hv|]. split; [exact Hle|].
           exists datos, reg. auto.
        -- intros H. exfalso.
           apply (Qlt_not_le _ _ (H _ _ Hen)). rewrite <- Hs. exact Hle.
    + simpl in Hinv. destruct Hinv as [-> _]. discriminate.
  - eexists. exists "Desconocido", 0%Q.
    split; [reflexivity|].
    split; [destruct (bbox face) as [[[? ?] ?] ?]; reflexivity|].
    split; [reflexivity|]. split; [reflexivity|].
    split; [reflexivity|]. split; [intros Hn; now elim Hn|].
    intros _. split; reflexivity.
Qed.

(** X11. [detectar_rostros] answers one record per detected face, in the
    order of the detector, each with the box and the embedding of its face,
    and leaves the service as it was.  A name other than ["Desconocido"] is
    the non-empty name of a stored entry whose product with the face is the
    similarity of the record, at least the default threshold; when no stored
    embedding reaches the threshold for a face, its record says
    ["Desconocido"] with similarity 0. *)
Theorem detectar_rostros_por_rostro
    (np_dot : Embedding -> Embedding -> Q) (faces : list Face) (w : Mundo) :
  exists rostros,
    detectar_rostros np_dot faces w = (Ok rostros, w) /\
    Forall2
      (fun face r =>
         get "bbox" r = Some (bbox_tolist (bbox face)) /\
         get "embedding" r = Some (VVector (normed_embedding face)) /\
         exists n s,
           get "nombre" r = Some (VStr n) /\
           get "similitud" r = Some (VFloat s) /\
           (n <> "Desconocido" ->
              n <> "" /\ (UMBRAL_DEFECTO <= s)%Q /\
              exists datos reg,
                In (n, datos) (personas_registradas w) /\
                embedding datos = Some reg /\
                s = np_dot (normed_embedding face) reg) /\
           ((forall k e, In (k, e) (candidatos (personas_registradas w)) ->
               (np_dot (normed_embedding face) e < UMBRAL_DEFECTO)%Q) ->
            n = "Desconocido" /\ s = 0%Q))
      faces rostros.
Proof.
  induction faces as [|face faces (rostros & IH & Hf)].
  - exists []. split; [reflexivity | constructor].
  - destruct (rostro_de_nombre np_dot face w)
      as (r & n & s & Hr & Hb & He & Hn & Hs & H1 & H2).
    exists (r :: rostros). cbn [detectar_rostros]. unfold bind at 1.
    rewrite Hr. unfold bind at 1. rewrite IH. split; [reflexivity|].
    constructor; [|exact Hf].
    split; [exact Hb|]. split; [exact He|]. exists n, s. auto.
Qed.

Lemma procesar_rostros_desconocidos (rostros registros : list (dict valor))
    (w : Mundo) :
  Forall (fun r => get "nombre" r = Some (VStr "Desconocido")) rostros ->
  procesar_rostros rostros registros w = (Ok registros, w).
Proof.
  induction 1 as [|r rostros Hr _ IH]; [reflexivity|].
  cbn [procesar_rostros]. unfold bind, procesar_rostro, nombre_de.
  rewrite Hr. simpl. exact IH.
Qed.

(** X12. When no stored embedding reaches the default threshold for any face
    of the image -- in particular when nobody is registered, or the image has
    no face -- [POST /api/asistencia/registrar] answers an empty list of
    records with total 0 and changes nothing: no event is recorded and the
    clock is not read. *)
Theorem api_registrar_asistencia_sin_coincidencia
    (np_dot : Embedding -> Embedding -> Q) (faces : list Face) (w : Mundo) :
  (forall face k e,
     In face faces ->
     In (k, e) (candidatos (personas_registradas w)) ->
     (np_dot (normed_embedding face) e < UMBRAL_DEFECTO)%Q) ->
  api_registrar_asistencia np_dot (Some (Legible faces)) w =
  (Ok (RespRegistros [] 0), w).
Proof.
  intros H.
  assert (Hd : exists rostros,
             detectar_rostros np_dot faces w = (Ok rostros, w) /\
             Forall (fun r => get "nombre" r = Some (VStr "Desconocido"))
               rostros).
  { induction faces as [|face faces IH].
    - exists []. split; [reflexivity | constructor].
    - destruct IH as (rostros & IH & Hf).
      { intros f k e Hin. apply H. now right. }
      destruct (rostro_de_nombre np_dot face w)
        as (r & n & s & Hr & _ & _ & Hn & _ & _ & H2).
      destruct H2 as [-> _].
      { intros k e. apply H. now left. }
      exists (r :: rostros). cbn [detectar_rostros]. unfold bind at 1.
      rewrite Hr. unfold bind at 1. rewrite IH. split; [reflexivity|].
      constructor; assumption. }
  destruct Hd as (rostros & Hd & Hf).
  unfold api_registrar_asistencia, manejar, try_except, app_get.
  unfold bind at 1. unfold ret at 1. unfold bind at 1. rewrite Hd.
  unfold bind at 1.
  rewrite (procesar_rostros_desconocidos rostros [] w Hf). reflexivity.
Qed.

Lemma api_registrar_asistencia_sin_coincidencia_testigo :
  api_registrar_asistencia producto_punto
    (Some (Legible [mkFace (0, 0, 5, 5) [0%Q; (1 # 4)%Q] None None None]))
    (mundo_local (reloj_fijo las_9_00_05) [] dos_personas) =
  (Ok (RespRegistros [] 0),
   mundo_local (reloj_fijo las_9_00_05) [] dos_personas).
Proof.
  apply api_registrar_asistencia_sin_coincidencia.
  intros face k e [<-|[]] [[= <- <-]|[[= <- <-]|[]]]; reflexivity.
Defined.

(* ===================================================================== *)
(** * Further properties of the attendance service *)
(* ===================================================================== *)

Lemma cuentas_acotadas (l : list (list Registro)) :
  let n (p : list Registro -> bool) := Z.of_nat (List.length (filter p l)) in
  0 <= n presente <= n (con_tipo "entrada") /\
  n (con_tipo "entrada") <= Z.of_nat (List.length l) /\
  0 <= n (con_tipo "salida") /\
  n (con_tipo "entrada") <= n presente + n (con_tipo "salida") /\
  n presente + n (con_tipo "salida") <= Z.of_nat (List.length l).
Proof.
  cbv zeta. induction l as [|e l IH]; [simpl; lia|].
  cbn [filter].
  change (presente e)
    with (con_tipo "entrada" e && negb (con_tipo "salida" e)).
  destruct (con_tipo "entrada" e), (con_tipo "salida" e);
    cbn [andb negb List.length]; lia.
Qed.

(** X13. The four counters of [_calcular_estadisticas] are consistent on any
    records: the present are among those with an entrance, those with an
    entrance are present or have an exit, nobody is counted both as present
    and with an exit, and no counter exceeds the number of persons. *)
Theorem calcular_estadisticas_cotas (registros : dict (list Registro)) :
  exists con_entrada con_salida presentes,
    _calcular_estadisticas registros =
      [("total_personas", VInt (len registros));
       ("con_entrada", VInt con_entrada);
       ("con_salida", VInt con_salida);
       ("presentes", VInt presentes)] /\
    0 <= presentes <= con_entrada /\
    con_entrada <= len registros /\
    0 <= con_salida /\
    con_entrada <= presentes + con_salida /\
    presentes + con_salida <= len registros.
Proof.
  unfold _calcular_estadisticas. rewrite contar_persona_fold.
  do 3 eexists. split; [reflexivity|].
  pose proof (cuentas_acotadas (values registros)) as H. cbv zeta in H.
  unfold len. replace (List.length registros)
    with (List.length (values registros))
    by (unfold values; apply length_map).
  lia.
Qed.

Lemma presente_alterna (l : list Registro) :
  alterna l -> presente l = (List.length l =? 1)%nat.
Proof.
  unfold alterna. destruct l as [|a [|b l]]; cbn [map List.length patron].
  - reflexivity.
  - intros [= Ha]. unfold presente, con_tipo. cbn [existsb].
    rewrite Ha. reflexivity.
  - intros [= Ha Hb _]. unfold presente, con_tipo. cbn [existsb].
    rewrite Ha, Hb. reflexivity.
Qed.

(** X14. When the events of every person alternate from an entrance on, the
    counter [presentes] is the number of persons with exactly one event: a
    person who came back after leaving is not counted as present. *)
Theorem presentes_con_un_evento (registros : dict (list Registro)) :
  Forall alterna (values registros) ->
  get "presentes" (_calcular_estadisticas registros) =
  Some (VInt (personas_con (fun l => (List.length l =? 1)%nat) registros)).
Proof.
  intros H. unfold _calcular_estadisticas. rewrite contar_persona_fold.
  cbn [get String.eqb Ascii.eqb Bool.eqb]. unfold personas_con.
  rewrite <- filter_values. rewrite Z.add_0_l. do 4 f_equal.
  apply filter_ext_in. intros l Hin.
  rewrite Forall_forall in H. apply presente_alterna. now apply H.
Qed.

Lemma presentes_con_un_evento_testigo :
  get "presentes"
    (_calcular_estadisticas
       [("Ana", [mkRegistro (Some "entrada") "09:00:00";
                 mkRegistro (Some "salida") "13:00:00";
                 mkRegistro (Some "entrada") "14:00:00"]);
        ("Bob", [mkRegistro (Some "entrada") "09:05:00"])]) =
  Some (VInt 1).
Proof.
  apply (presentes_con_un_evento
           [("Ana", [mkRegistro (Some "entrada") "09:00:00";
                     mkRegistro (Some "salida") "13:00:00";
                     mkRegistro (Some "entrada") "14:00:00"]);
            ("Bob", [mkRegistro (Some "entrada") "09:05:00"])]).
  repeat constructor.
Defined.

(** ** The local ledger stays well formed *)

Lemma in_set_otro {V} (k k0 : string) (v v0 : V) (d : dict V) :
  wf d ->
  In (k, v) (set k0 v0 d) -> (k = k0 /\ v = v0) \/ (k <> k0 /\ In (k, v) d).
Proof.
  unfold wf, keys. induction d as [|[k' v'] d IH]; simpl; intros Hwf.
  - intros [[= <- <-]|[]]. now left.
  - inversion Hwf as [|? ? Hn Hd]; subst.
    destruct (String.eqb_spec k0 k') as [->|Hk]; simpl.
    + intros [[= <- <-]|H]; [now left|]. right. split; [|now right].
      intros ->. apply Hn. apply in_map_iff. now exists (k', v).
    + intros [[= <- <-]|H]; [right; split; [congruence | now left]|].
      destruct (IH Hd H) as [?|[? ?]]; [now left | right; split; auto].
Qed.

Lemma Forall_values {V} (P : V -> Prop) (d : dict V) :
  Forall P (values d) <-> forall k v, In (k, v) d -> P v.
Proof.
  unfold values. rewrite Forall_forall. split.
  - intros H k v Hin. apply H. apply in_map_iff. now exists (k, v).
  - intros H v Hin. apply in_map_iff in Hin as ([k v'] & <- & Hin).
    now apply (H k).
Qed.

Lemma get_or_Forall {V} (P : V -> Prop) (k : string) (dflt : V) (d : dict V) :
  Forall P (values d) -> P dflt -> P (get_or k dflt d).
Proof.
  intros H Hd. unfold get_or. destruct (get k d) as [v|] eqn:Hg; [|exact Hd].
  rewrite Forall_values in H. apply (H k).
  clear - Hg. induction d as [|[k' v'] d IH]; simpl in *; [discriminate|].
  destruct (String.eqb_spec k k') as [->|Hk].
  - left. congruence.
  - right. now apply IH.
Qed.

Lemma setdefault_wf {V} (k : string) (dflt : V) (d : dict V) :
  wf d -> wf (if contains k d then d else set k dflt d).
Proof. intros H. destruct (contains k d); [exact H | now apply set_wf]. Qed.

(** The cache after [_registrar_local], whatever becomes of the write to the
    file. *)
Lemma registrar_local_asistencia_cache (nombre : string)
    (tipo_ : option string) (fecha hora_ : string) (w : Mundo) :
  asistencia_cache (snd (_registrar_local nombre tipo_ fecha hora_ w)) =
  let cache := asistencia_cache w in
  let cache1 := if contains fecha cache then cache else set fecha vacio cache in
  let dia := get_or fecha vacio cache1 in
  let dia1 := if contains nombre dia then dia else set nombre [] dia in
  set fecha
    (set nombre (get_or nombre [] dia1 ++ [mkRegistro tipo_ hora_]) dia1)
    cache1.
Proof.
  unfold _registrar_local, _guardar_asistencia_local. desplegar.
  destruct (disco_ok _); reflexivity.
Qed.

Lemma registrar_local_bien_formado (nombre : string) (tipo_ : option string)
    (fecha hora_ : string) (w : Mundo) :
  libro_bien_formado (asistencia_cache w) ->
  libro_bien_formado
    (asistencia_cache (snd (_registrar_local nombre tipo_ fecha hora_ w))).
Proof.
  intros [Hwf Hdias]. rewrite registrar_local_asistencia_cache. cbv zeta.
  set (cache1 := if contains fecha (asistencia_cache w)
                 then asistencia_cache w
                 else set fecha vacio (asistencia_cache w)).
  assert (Hwf1 : wf cache1) by now apply setdefault_wf.
  assert (Hd1 : Forall dia_bien_formado (values cache1)).
  { subst cache1. destruct (contains fecha (asistencia_cache w)); [exact Hdias|].
    rewrite Forall_values in Hdias |- *. intros k v Hin.
    apply in_set_inv in Hin as [[_ ->]|Hin]; [|now apply (Hdias k)].
    split; constructor. }
  assert (Hdia : dia_bien_formado (get_or fecha vacio cache1)).
  { apply get_or_Forall; [exact Hd1 | split; constructor]. }
  destruct Hdia as [Hwfd Hne].
  set (dia := get_or fecha vacio cache1) in *.
  set (dia1 := if contains nombre dia then dia else set nombre [] dia).
  assert (Hwfd1 : wf dia1) by now apply setdefault_wf.
  split; [now apply set_wf|].
  rewrite Forall_values. intros k v Hin.
  apply in_set_inv in Hin as [[_ ->]|Hin].
  - split; [now apply set_wf|].
    rewrite Forall_values. intros p evs Hp.
    apply (in_set_otro _ _ _ _ _ Hwfd1) in Hp as [[_ ->]|[Hpn Hp]].
    + intros H. now apply app_eq_nil in H as [_ ?].
    + subst dia1. rewrite Forall_values in Hne.
      destruct (contains nombre dia); [now apply (Hne p)|].
      apply in_set_inv in Hp as [[? _]|Hp]; [congruence | now apply (Hne p)].
  - rewrite Forall_values in Hd1. now apply (Hd1 k).
Qed.

Lemma registrar_asistencia_cache (nombre : string) (tipo_ : option string)
    (w : Mundo) :
  asistencia_cache (snd (registrar_asistencia nombre tipo_ w)) =
  if usa_supabase w then asistencia_cache w
  else asistencia_cache
         (snd (_registrar_local nombre tipo_ (strftime_Ymd (lectura w 0))
                 (strftime_HMS (lectura w 1)) w)).
Proof.
  rewrite registrar_local_asistencia_cache.
  rewrite <- lectura_0, <- lectura_1.
  unfold registrar_asistencia, guardar_asistencia, _registrar_local,
    _guardar_asistencia_local.
  desplegar.
  destruct w as [r l d rem u tp ta c us ac pr]; simpl.
  destruct us, c, rem, d; reflexivity.
Qed.

Lemma procesar_nombre_cache (nombre : string) (registros : list (dict valor))
    (w : Mundo) :
  libro_bien_formado (asistencia_cache w) ->
  libro_bien_formado
    (asistencia_cache (snd (procesar_nombre nombre registros w))).
Proof.
  intros H. unfold procesar_nombre. unfold bind at 1.
  pose proof (verificar_libro nombre TIEMPO_ESPERA_DEFECTO w) as Hl.
  destruct (verificar_puede_registrar nombre TIEMPO_ESPERA_DEFECTO w)
    as [[[puede tipo_]|e] w1]; cbn [snd] in Hl.
  - assert (Hc : asistencia_cache w1 = asistencia_cache w)
      by (unfold libro in Hl; congruence).
    destruct puede; [|cbn; now rewrite Hc].
    rewrite snd_bind_ret, registrar_asistencia_cache.
    destruct (usa_supabase w1); [now rewrite Hc|].
    apply registrar_local_bien_formado. now rewrite Hc.
  - cbn [snd]. unfold libro in Hl. now replace (asistencia_cache w1)
      with (asistencia_cache w) by congruence.
Qed.

(** X15. The ledger in memory stays well formed through any sequence of
    record attempts, whatever the clock shows and whether or not the writes
    succeed: a date and a person within a date keep a single entry, and no
    person is ever listed without events.  The same holds for one call of
    [registrar_asistencia]. *)
Theorem libro_siempre_bien_formado (intentos : list Intento) (w : Mundo) :
  libro_bien_formado (asistencia_cache w) ->
  libro_bien_formado (asistencia_cache (ejecutar intentos w)) /\
  forall nombre tipo_,
    libro_bien_formado
      (asistencia_cache (snd (registrar_asistencia nombre tipo_ w))).
Proof.
  intros H. split.
  - revert w H. induction intentos as [|i resto IH]; intros w H; [exact H|].
    cbn [ejecutar]. apply IH. unfold paso.
    apply procesar_nombre_cache. exact H.
  - intros nombre tipo_. rewrite registrar_asistencia_cache.
    destruct (usa_supabase w); [exact H|].
    now apply registrar_local_bien_formado.
Qed.

Lemma libro_siempre_bien_formado_testigo :
  libro_bien_formado
    (asistencia_cache
       (ejecutar tres_intentos
          (mundo_local (reloj_fijo las_9_00_05) libro_con_ana []))).
Proof.
  apply libro_siempre_bien_formado.
  split; [repeat constructor; simpl; tauto|].
  repeat constructor; simpl; try tauto; discriminate.
Defined.

(** ** Reading back what was recorded *)

Lemma obtener_asistencia_persona_local (n f : string) (w : Mundo) :
  usa_supabase w = false -> f <> "" ->
  obtener_asistencia_persona n (Some f) w =
  (Ok (get_or n [] (get_or f vacio (asistencia_cache w))), w).
Proof.
  intros Hu Hf. unfold obtener_asistencia_persona, obtener_asistencia_fecha.
  cbn [no_vacia]. destruct (String.eqb_spec f ""); [contradiction|].
  desplegar. rewrite Hu. reflexivity.
Qed.

Lemma obtener_asistencia_persona_supabase (n f : string) (w : Mundo) :
  usa_supabase w = true -> client w = true -> remoto_ok w = true ->
  f <> "" ->
  obtener_asistencia_persona n (Some f) w =
  (Ok (map registro_de_fila
         (filter (fun row => String.eqb (fa_persona_nombre row) n)
            (ordenar (fun a b => String.leb (fa_hora a) (fa_hora b))
               (filter (fun row => String.eqb (fa_fecha row) f)
                  (tabla_asistencias w))))), w).
Proof.
  intros Hu Hc Hr Hf.
  unfold obtener_asistencia_persona, obtener_asistencia_fecha,
    obtener_asistencia_por_fecha.
  cbn [no_vacia]. destruct (String.eqb_spec f ""); [contradiction|].
  desplegar. rewrite Hu, Hc. cbn [negb]. rewrite Hr.
  destruct (agrupar_fold
              (ordenar (fun a b => String.leb (fa_hora a) (fa_hora b))
                 (filter (fun row => String.eqb (fa_fecha row) f)
                    (tabla_asistencias w))) vacio) as (_ & Hget & _).
  unfold _group_by_person. rewrite Hget. reflexivity.
Qed.

(** X16. What [registrar_asistencia] records is what
    [obtener_asistencia_persona] reads back.  On local storage the events of
    the person on the day of the clock are the previous ones followed by the
    new event, also when the write to the file fails, and every other person
    and date reads as before.  On the hosted store, when it answers, the
    events read back are the previous ones and the new event, in the order
    of [hora]. *)
Theorem registrar_y_consultar (nombre : string) (tipo_ : option string)
    (w : Mundo) :
  almacen_disponible w ->
  let w' := snd (registrar_asistencia nombre tipo_ w) in
  let fecha := strftime_Ymd (lectura w 0) in
  let evento := mkRegistro tipo_ (strftime_HMS (lectura w 1)) in
  (usa_supabase w = false ->
   forall n f, f <> "" ->
     exists antes,
       obtener_asistencia_persona n (Some f) w = (Ok antes, w) /\
       obtener_asistencia_persona n (Some f) w' =
       (Ok (if String.eqb f fecha && String.eqb n nombre
            then antes ++ [evento] else antes), w')) /\
  (usa_supabase w = true ->
   exists antes despues,
     obtener_asistencia_persona nombre (Some fecha) w = (Ok antes, w) /\
     obtener_asistencia_persona nombre (Some fecha) w' = (Ok despues, w') /\
     Permutation despues (antes ++ [evento]) /\
     StronglySorted (fun a b => String.leb (hora a) (hora b) = true) despues).
Proof.
  intros Hdisp. cbv zeta.
  destruct (registrar_asistencia_eventos nombre tipo_ w Hdisp)
    as (Hu' & Hc' & _).
  split; intros Hu.
  - intros n f Hf. eexists.
    split; [apply (obtener_asistencia_persona_local n f w Hu Hf)|].
    rewrite obtener_asistencia_persona_local by congruence.
    rewrite registrar_asistencia_cache, Hu.
    now rewrite registrar_local_cache.
  - destruct (Hdisp Hu) as [Hc Hr].
    assert (Hw : snd (registrar_asistencia nombre tipo_ w) =
                 con_tabla_asistencias
                   (tabla_asistencias w ++
                    [mkFilaAsistencia nombre tipo_
                       (strftime_Ymd (lectura w 0))
                       (strftime_HMS (lectura w 1))])
                   (con_lecturas (S (S (lecturas w))) w)).
    { rewrite <- lectura_0, <- lectura_1.
      unfold registrar_asistencia, guardar_asistencia. desplegar.
      destruct w as [r l d rem u tp ta c us ac pr]; simpl in *. subst.
      reflexivity. }
    do 2 eexists.
    split; [apply obtener_asistencia_persona_supabase; auto; discriminate|].
    split.
    + apply obtener_asistencia_persona_supabase;
        [congruence | congruence | | discriminate].
      rewrite Hw. exact Hr.
    + rewrite Hw.
      cbn [tabla_asistencias con_tabla_asistencias].
      change (tabla_asistencias (con_lecturas (S (S (lecturas w))) w))
        with (tabla_asistencias w).
      rewrite filter_app. cbn [filter fa_fecha]. rewrite String.eqb_refl.
      split.
      * set (row := mkFilaAsistencia nombre tipo_ (strftime_Ymd (lectura w 0))
                      (strftime_HMS (lectura w 1))).
        set (pn := fun r => String.eqb (fa_persona_nombre r) nombre).
        set (T := filter _ (tabla_asistencias w)).
        assert (Hp : Permutation
                       (filter pn
                          (ordenar
                             (fun a b => String.leb (fa_hora a) (fa_hora b))
                             (T ++ [row])))
                       (filter pn
                          (ordenar
                             (fun a b => String.leb (fa_hora a) (fa_hora b))
                             T) ++ filter pn [row])).
        { rewrite <- filter_app. apply filter_perm.
          rewrite <- ordenar_perm.
          apply Permutation_app_tail. apply ordenar_perm. }
        apply (Permutation_map registro_de_fila) in Hp.
        rewrite map_app in Hp. cbn [filter] in Hp.
        replace (pn row) with true in Hp
          by (subst pn row; cbn [fa_persona_nombre];
              now rewrite String.eqb_refl).
        exact Hp.
      * apply map_ordenado. apply filter_ordenado.
        apply (ordenar_ordenado
                 (fun a b => String.leb (fa_hora a) (fa_hora b))
                 hora_asc_total hora_asc_trans).
Qed.

Lemma registrar_y_consultar_testigo :
  let w := mundo_local (reloj_fijo las_9_00_05) libro_con_ana [] in
  fst (obtener_asistencia_persona "Ana" (Some "2024-05-02")
         (snd (registrar_asistencia "Ana" (Some "salida") w))) =
  Ok [ana_a_las_9; mkRegistro (Some "salida") "09:00:05"].
Proof.
  cbv zeta.
  destruct (registrar_y_consultar "Ana" (Some "salida")
              (mundo_local (reloj_fijo las_9_00_05) libro_con_ana []))
    as [Hl _]; [intros H; discriminate H|].
  destruct (Hl eq_refl "Ana" "2024-05-02") as (antes & Ha & Hd);
    [discriminate|].
  rewrite Hd. injection Ha as <-. reflexivity.
Defined.

(** ** The toggle on local storage *)

Lemma registrar_local_alterna (nombre d : string) (w : Mundo) :
  usa_supabase w = false ->
  strftime_Ymd (lectura w 0) = d ->
  (forall f n, alterna (eventos_de w f n)) ->
  let w' :=
    snd (registrar_asistencia nombre
           (Some (siguiente (ultimo_de (eventos_de w d nombre)))) w) in
  usa_supabase w' = false /\ forall f n, alterna (eventos_de w' f n).
Proof.
  intros Hu Hd Halt. cbv zeta.
  destruct (registrar_asistencia_eventos nombre
              (Some (siguiente (ultimo_de (eventos_de w d nombre)))) w)
    as (Hu' & _ & Hev).
  { intros H. congruence. }
  split; [congruence|]. intros f n.
  destruct (Hev f n) as [-> _]. rewrite Hd.
  destruct (String.eqb_spec f d) as [->|Hf]; cbn [andb]; [|apply Halt].
  destruct (String.eqb_spec n nombre) as [->|Hn]; [|apply Halt].
  apply alterna_siguiente, Halt.
Qed.

Lemma hoy_es_con_lecturas (d : string) (w : Mundo) (k : nat) :
  hoy_es d w -> (lecturas w <= k)%nat -> hoy_es d (con_lecturas k w).
Proof.
  intros H Hk i. specialize (H (k - lecturas w + i)%nat).
  unfold lectura in *. cbn [reloj lecturas con_lecturas].
  now replace (lecturas w + (k - lecturas w + i))%nat with (k + i)%nat
    in H by lia.
Qed.

Lemma procesar_nombre_local_alterna (nombre d : string)
    (registros : list (dict valor)) (w : Mundo) :
  usa_supabase w = false ->
  hoy_es d w ->
  (forall f n, alterna (eventos_de w f n)) ->
  let w' := snd (procesar_nombre nombre registros w) in
  usa_supabase w' = false /\ forall f n, alterna (eventos_de w' f n).
Proof.
  intros Hu Hhoy Halt w'.
  assert (Hw' : w' = snd (procesar_nombre nombre registros w)) by reflexivity.
  clearbody w'.
  unfold procesar_nombre in Hw'. unfold bind at 1 in Hw'.
  rewrite (verificar_local _ _ _ Hu), (Hhoy 1%nat) in Hw'.
  assert (Hult : ultimo_evento w d nombre = ultimo_de (eventos_de w d nombre)).
  { unfold ultimo_evento. now rewrite Hu. }
  rewrite Hult in Hw'.
  set (w1 := con_lecturas (S (S (lecturas w))) w) in *.
  assert (Hhoy1 : hoy_es d w1) by (apply hoy_es_con_lecturas; [auto | lia]).
  destruct (ultimo_de (eventos_de w d nombre)) as [u|] eqn:Hu0.
  - destruct (strptime_HMS (hora u)) as [t|] eqn:Ht.
    + rewrite (evaluar_registro_con_ultimo _ _ _ _ _ Ht) in Hw'.
      set (w2 := con_lecturas (S (S (lecturas w1))) w1) in *.
      destruct (_ <? _); cbv iota beta in Hw'.
      * subst w'. split; [exact Hu | exact Halt].
      * rewrite snd_bind_ret in Hw'.
        change (Some (if opt_eqb (tipo u) "entrada"
                      then "salida" else "entrada"))
          with (Some (siguiente (Some u))) in Hw'.
        rewrite <- Hu0 in Hw'.
        change (eventos_de w d nombre) with (eventos_de w2 d nombre) in Hw'.
        rewrite Hw'.
        apply registrar_local_alterna; [exact Hu | | exact Halt].
        apply (hoy_es_con_lecturas d w1 (S (S (lecturas w1))) Hhoy1).
        lia.
    + rewrite (evaluar_registro_mal_formado _ _ _ _ Ht) in Hw'.
      subst w'. split; [exact Hu | exact Halt].
  - cbn [_evaluar_registro] in Hw'. unfold ret at 1 in Hw'.
    cbv iota beta in Hw'.
    rewrite snd_bind_ret in Hw'.
    change (Some "entrada") with (Some (siguiente (@None Registro))) in Hw'.
    rewrite <- Hu0 in Hw'.
    change (eventos_de w d nombre) with (eventos_de w1 d nombre) in Hw'.
    rewrite Hw'.
    apply registrar_local_alterna; [exact Hu | apply Hhoy1 | exact Halt].
Qed.

(** X17. On local storage the events of every person and date keep
    alternating from an entrance on through any sequence of record attempts
    whose clock readings stay within one day each, whatever the times of day
    and the intervals between attempts, and whether or not the file can be
    written. *)
Theorem alternancia_local (intentos : list Intento) (w : Mundo) :
  usa_supabase w = false ->
  Forall (fun i => forall k, strftime_Ymd (i_reloj i k) = dia i) intentos ->
  (forall f n, alterna (eventos_de w f n)) ->
  forall f n, alterna (eventos_de (ejecutar intentos w) f n).
Proof.
  intros Hu Hdias. revert w Hu.
  induction Hdias as [|i resto Hi _ IH]; intros w Hu Halt; [exact Halt|].
  cbn [ejecutar].
  destruct (procesar_nombre_local_alterna (i_nombre i) (dia i) []
              (mundo_de i w)) as [Hu' Halt'].
  - exact Hu.
  - intros k. rewrite lectura_mundo_de. apply Hi.
  - exact Halt.
  - apply IH; [exact Hu' | exact Halt'].
Qed.

Lemma alternancia_local_testigo :
  alterna
    (eventos_de
       (ejecutar [intento_ana 0; intento_ana 3; intento_ana 15; intento_ana 15]
          (mundo_local (reloj_fijo las_9_00_05) [] []))
       "2024-05-02" "Ana").
Proof.
  apply alternancia_local.
  - reflexivity.
  - repeat constructor.
  - intros f n. reflexivity.
Defined.

(** ** The interval between two events *)

(** X18. With a clock that does not run backwards during the request and has
    not fallen behind the person's most recent event of the day, the loop of
    the handler either leaves the ledger as it is, or records one event for
    the person: of the type opposite to the most recent one, and with an
    [hora] at least the debounce interval after it. *)
Theorem separacion_entre_eventos
    (nombre f : string) (u : Registro) (t : time)
    (registros : list (dict valor)) (w : Mundo) :
  hoy_es f w ->
  almacen_disponible w ->
  ultimo_evento w f nombre = Some u ->
  strptime_HMS (hora u) = Some t ->
  (forall k, time_valida (dt_time (lectura w k))) ->
  (forall j k, (j <= k)%nat ->
     segundos_del_dia (dt_time (lectura w j)) <=
     segundos_del_dia (dt_time (lectura w k))) ->
  segundos_del_dia t <= segundos_del_dia (dt_time (lectura w 0)) ->
  let w' := snd (procesar_nombre nombre registros w) in
  libro w' = libro w \/
  exists h,
    eventos_de w' f nombre =
      eventos_de w f nombre ++ [mkRegistro (Some (siguiente (Some u))) h] /\
    canonica h /\
    segundos_del_dia t + TIEMPO_ESPERA_DEFECTO <= seg h.
Proof.
  intros Hhoy Hdisp Hult Ht Hval Hmono Hprev w'.
  assert (Hw' : w' = snd (procesar_nombre nombre registros w)) by reflexivity.
  clearbody w'.
  destruct (verificar_con_ultimo nombre f u t TIEMPO_ESPERA_DEFECTO w
              Hhoy Hdisp Hult Ht) as (i & w1 & Hv & Hl & Hw1).
  unfold procesar_nombre in Hw'. unfold bind at 1 in Hw'. rewrite Hv in Hw'.
  destruct (strptime_valida _ _ Ht) as [(Hth & Htm & Hts & _) Hus].
  assert (Hd : diff_segundos (lectura w i) (lectura w (S i)) t =
               segundos_del_dia (dt_time (lectura w i)) - segundos_del_dia t).
  { apply diff_segundos_mismo_dia; [apply Hval | exact Hus |].
    split; [unfold segundos_del_dia; lia|].
    specialize (Hmono 0%nat i ltac:(lia)). lia. }
  rewrite Hd in Hw'.
  destruct (Z.ltb_spec
              (segundos_del_dia (dt_time (lectura w i)) - segundos_del_dia t)
              TIEMPO_ESPERA_DEFECTO) as [Hlt|Hge];
    cbv iota beta in Hw'.
  - left. subst w'. exact Hl.
  - right. rewrite snd_bind_ret in Hw'.
    destruct (registrar_asistencia_eventos nombre
                (Some (siguiente (Some u))) w1) as (_ & _ & Hev).
    { rewrite Hw1. exact Hdisp. }
    change (Some (if opt_eqb (tipo u) "entrada" then "salida" else "entrada"))
      with (Some (siguiente (Some u))) in Hw'.
    rewrite <- Hw' in Hev. destruct (Hev f nombre) as [He _].
    assert (Hl0 : lectura w1 0 = lectura w (S (S i))).
    { rewrite Hw1. unfold lectura. cbn [reloj lecturas con_lecturas].
      f_equal. lia. }
    assert (Hl1 : lectura w1 1 = lectura w (S (S (S i)))).
    { rewrite Hw1. unfold lectura. cbn [reloj lecturas con_lecturas].
      f_equal. lia. }
    rewrite Hl0, Hl1, (Hhoy (S (S i))), !String.eqb_refl in He.
    cbn [andb] in He.
    assert (Hev1 : eventos_de w1 f nombre = eventos_de w f nombre)
      by (rewrite Hw1; reflexivity).
    rewrite Hev1 in He.
    exists (strftime_HMS (lectura w (S (S (S i))))).
    split; [exact He|]. split.
    + exists (lectura w (S (S (S i)))). split; [apply Hval | reflexivity].
    + rewrite seg_strftime by apply Hval.
      specialize (Hmono i (S (S (S i))) ltac:(lia)). lia.
Qed.

Lemma separacion_entre_eventos_testigo :
  let w := mundo_local (reloj_fijo (a_las 9 0 15)) libro_con_ana [] in
  let w' := snd (procesar_nombre "Ana" [] w) in
  libro w' = libro w \/
  exists h,
    eventos_de w' "2024-05-02" "Ana" =
      eventos_de w "2024-05-02" "Ana" ++ [mkRegistro (Some "salida") h] /\
    canonica h /\
    segundos_del_dia (mkTime 9 0 0 0) + TIEMPO_ESPERA_DEFECTO <= seg h.
Proof.
  cbv zeta.
  apply (separacion_entre_eventos "Ana" "2024-05-02" ana_a_las_9
           (mkTime 9 0 0 0) []
           (mundo_local (reloj_fijo (a_las 9 0 15)) libro_con_ana [])).
  - intros k. reflexivity.
  - intros H. discriminate H.
  - reflexivity.
  - reflexivity.
  - intros k. unfold time_valida. simpl. lia.
  - intros j k _. simpl. lia.
  - vm_compute. intros H. discriminate H.
Defined.

(** ** The attendance of today and its statistics *)

(** X19. While the clock stays within one day and the hosted store, when it
    is the one in use, answers both reads of the request, the answer of
    [GET /api/asistencia/hoy] is consistent: its statistics are those of the
    attendance it carries, labelled with that day; the handler changes
    neither the ledger nor the store of persons. *)
Theorem api_asistencia_hoy_coherente (f : string) (w : Mundo) :
  hoy_es f w ->
  almacen_disponible w ->
  exists asistencia w',
    api_obtener_asistencia_hoy w =
    (Ok (RespAsistencia asistencia
           (set "fecha" (VStr f) (_calcular_estadisticas asistencia))), w') /\
    (usa_supabase w = false ->
     asistencia = get_or f vacio (asistencia_cache w)) /\
    (usa_supabase w = true ->
     forall p,
       Permutation (get_or p [] asistencia)
         (map registro_de_fila (filas_de w f p))) /\
    libro w' = libro w /\
    personas_registradas w' = personas_registradas w.
Proof.
  intros Hhoy Hdisp.
  pose proof (Hhoy 0%nat) as H0. pose proof (Hhoy 1%nat) as H1.
  pose proof (Hhoy 2%nat) as H2.
  unfold lectura in H0, H1, H2.
  rewrite Nat.add_0_r in H0. rewrite Nat.add_1_r in H1.
  replace (lecturas w + 2)%nat with (S (S (lecturas w))) in H2 by lia.
  unfold almacen_disponible in Hdisp.
  unfold api_obtener_asistencia_hoy, manejar, obtener_estadisticas_hoy,
    obtener_asistencia_hoy, obtener_asistencia_por_fecha.
  desplegar.
  destruct w as [r l d rem u tp ta c us ac pr].
  cbn [reloj lecturas usa_supabase client remoto_ok asistencia_cache
       tabla_asistencias personas_registradas con_lecturas] in *.
  rewrite ?H0, ?H1, ?H2.
  destruct us.
  - destruct (Hdisp eq_refl) as [-> ->].
    exists (_group_by_person
              (ordenar (fun a b => String.leb (fa_hora a) (fa_hora b))
                 (filter (fun row => String.eqb (fa_fecha row) f) ta))).
    cbn -[_calcular_estadisticas _group_by_person ordenar PyDict.set get_or
          filter];
      rewrite ?H0, ?H1, ?H2.
    eexists. split; [reflexivity|].
    split; [intros H; discriminate H|].
    split; [|split; reflexivity].
    intros _ p.
    destruct (agrupar_fold
                (ordenar (fun a b => String.leb (fa_hora a) (fa_hora b))
                   (filter (fun row => String.eqb (fa_fecha row) f) ta))
                vacio) as (_ & Hget & _).
    unfold _group_by_person. rewrite Hget.
    change (get_or p [] vacio) with (@nil Registro). cbn [app].
    apply Permutation_map. unfold filas_de. cbn [tabla_asistencias].
    rewrite <- filter_filter_and.
    apply filter_perm, Permutation_sym, ordenar_perm.
  - exists (get_or f vacio ac).
    cbn -[_calcular_estadisticas _group_by_person ordenar PyDict.set get_or
          filter];
      rewrite ?H0, ?H1, ?H2.
    eexists. split; [reflexivity|].
    split; [reflexivity|].
    split; [intros H; discriminate H|]. split; reflexivity.
Qed.

Lemma api_asistencia_hoy_coherente_testigo :
  exists w',
    api_obtener_asistencia_hoy
      (mundo_local (reloj_fijo las_9_00_05) libro_con_ana []) =
    (Ok (RespAsistencia [("Ana", [ana_a_las_9])]
           [("total_personas", VInt 1); ("con_entrada", VInt 1);
            ("con_salida", VInt 0); ("presentes", VInt 1);
            ("fecha", VStr "2024-05-02")]), w').
Proof.
  destruct (api_asistencia_hoy_coherente "2024-05-02"
              (mundo_local (reloj_fijo las_9_00_05) libro_con_ana []))
    as (asistencia & w' & Hr & Ha & _).
  - intros i. reflexivity.
  - intros H. discriminate H.
  - exists w'. rewrite Hr. rewrite (Ha eq_refl). reflexivity.
Defined.

(** ** The whole history and the attendance of one date *)

Section Filtrar_y_ordenar.

Context {A : Type} (le : A -> A -> bool).
Hypothesis le_trans :
  forall a b c, le a b = true -> le b c = true -> le a c = true.

Lemma insertar_menor (x : A) (l : list A) :
  Forall (fun z => le x z = true) l -> insertar le x l = x :: l.
Proof.
  intros H. destruct l as [|z l]; [reflexivity|].
  inversion H as [|? ? Hz _]; subst. simpl. now rewrite Hz.
Qed.

Lemma filter_insertar (p : A -> bool) (x : A) (l : list A) :
  StronglySorted (fun a b => le a b = true) l ->
  filter p (insertar le x l) =
  if p x then insertar le x (filter p l) else filter p l.
Proof.
  induction 1 as [|y l Hl IH Hy]; simpl.
  - destruct (p x); reflexivity.
  - destruct (le x y) eqn:Hxy.
    + cbn [filter]. destruct (p x); [|reflexivity].
      symmetry. apply insertar_menor.
      assert (Hall : Forall (fun z => le x z = true) (y :: l)).
      { constructor; [exact Hxy|].
        rewrite Forall_forall in Hy |- *. intros z Hz.
        apply (le_trans x y z Hxy). now apply Hy. }
      change (if p y then y :: filter p l else filter p l)
        with (filter p (y :: l)).
      rewrite Forall_forall in Hall |- *. intros z Hz.
      apply filter_In in Hz as [Hz _]. now apply Hall.
    + cbn [filter]. rewrite IH.
      destruct (p x), (p y); try reflexivity.
      simpl. now rewrite Hxy.
Qed.

End Filtrar_y_ordenar.

(** Filtering commutes with the ordering of the query. *)
Lemma filter_ordenar {A} (le : A -> A -> bool) (p : A -> bool) (l : list A) :
  (forall a b, le a b = true \/ le b a = true) ->
  (forall a b c, le a b = true -> le b c = true -> le a c = true) ->
  filter p (ordenar le l) = ordenar le (filter p l).
Proof.
  intros Htot Htrans. induction l as [|x l IH]; [reflexivity|].
  change (ordenar le (x :: l)) with (insertar le x (ordenar le l)).
  rewrite (filter_insertar le Htrans)
    by (apply (ordenar_ordenado le Htot Htrans)).
  cbn [filter]. destruct (p x); [|exact IH].
  change (ordenar le (x :: filter p l))
    with (insertar le x (ordenar le (filter p l))).
  now rewrite IH.
Qed.

(** Ordering by a column keeps the rows with one value of the column in the
    order they had. *)
Lemma filter_ordenar_clave {A} (clave : A -> string) (f : string)
    (l : list A) :
  filter (fun row => String.eqb (clave row) f)
    (ordenar (fun a b => String.leb (clave a) (clave b)) l) =
  filter (fun row => String.eqb (clave row) f) l.
Proof.
  induction l as [|x l IH]; [reflexivity|].
  change (ordenar ?le (x :: l)) with (insertar le x (ordenar le l)).
  cbn [filter]. rewrite <- IH.
  generalize (ordenar (fun a b => String.leb (clave a) (clave b)) l).
  intros s. induction s as [|y s IHs]; [reflexivity|].
  simpl. destruct (String.leb (clave x) (clave y)) eqn:Hxy.
  - reflexivity.
  - cbn [filter]. rewrite IHs.
    destruct (String.eqb_spec (clave x) f) as [Hx|Hx]; [|reflexivity].
    destruct (String.eqb_spec (clave y) f) as [Hy|Hy]; [|reflexivity].
    rewrite Hx, Hy, string_leb_refl in Hxy. discriminate.
Qed.

Lemma historial_fold (rows : list FilaAsistencia) (acc : Asistencias)
    (f : string) :
  get_or f vacio
    (fold_left
       (fun historial row =>
          let fecha := fa_fecha row in
          let persona := fa_persona_nombre row in
          let del_dia := get_or fecha vacio historial in
          set fecha
            (set persona
               (get_or persona [] del_dia ++ [registro_de_fila row])
               del_dia)
            historial)
       rows acc) =
  fold_left
    (fun agrupado row =>
       let persona := fa_persona_nombre row in
       set persona (get_or persona [] agrupado ++ [registro_de_fila row])
         agrupado)
    (filter (fun row => String.eqb (fa_fecha row) f) rows)
    (get_or f vacio acc).
Proof.
  revert acc. induction rows as [|row rows IH]; intros acc; [reflexivity|].
  cbn [fold_left filter]. rewrite IH. cbv zeta.
  destruct (String.eqb_spec (fa_fecha row) f) as [<-|Hf].
  - cbn [fold_left]. unfold Asistencias. now rewrite get_or_set_eq.
  - unfold Asistencias. now rewrite get_or_set_neq.
Qed.

(** X20. The whole history and the attendance of one date hold the same
    events.  On local storage [obtener_asistencia_fecha(fecha)] is the entry
    of the date in [obtener_historial_completo()].  On the hosted store, when
    it answers, the two calls give every person the same events for the
    date, those of the person's rows, in non-decreasing order of [hora];
    rows with equal [hora] may come in either order.  Neither call changes
    anything. *)
Theorem historial_y_asistencia_fecha (f : string) (w : Mundo) :
  almacen_disponible w ->
  exists historial registros,
    obtener_historial_completo w = (Ok historial, w) /\
    obtener_asistencia_fecha f w = (Ok registros, w) /\
    (usa_supabase w = false -> registros = get_or f vacio historial) /\
    (usa_supabase w = true ->
     forall p,
       Permutation (get_or p [] (get_or f vacio historial))
         (get_or p [] registros) /\
       Permutation (get_or p [] registros)
         (map registro_de_fila (filas_de w f p)) /\
       StronglySorted (fun a b => String.leb (hora a) (hora b) = true)
         (get_or p [] (get_or f vacio historial)) /\
       StronglySorted (fun a b => String.leb (hora a) (hora b) = true)
         (get_or p [] registros)).
Proof.
  intros Hdisp. unfold almacen_disponible in Hdisp.
  unfold obtener_historial_completo, obtener_asistencia_fecha,
    obtener_historial, obtener_asistencia_por_fecha.
  desplegar.
  destruct w as [r l d rem u tp ta c us ac pr].
  cbn [reloj lecturas usa_supabase client remoto_ok asistencia_cache
       tabla_asistencias] in *.
  destruct us.
  - destruct (Hdisp eq_refl) as [-> ->]. cbn [negb].
    set (R := _group_by_person
                (ordenar (fun a b => String.leb (fa_hora a) (fa_hora b))
                   (filter (fun row => String.eqb (fa_fecha row) f) ta))).
    eexists. exists R. split; [reflexivity|]. split; [reflexivity|].
    split; [intros H; discriminate H|]. intros _ p.
    rewrite historial_fold.
    rewrite (filter_ordenar_clave fa_fecha).
    rewrite (filter_ordenar _ _ _ hora_asc_total hora_asc_trans).
    change (get_or f vacio vacio) with (@nil (string * list Registro)).
    change (fold_left _ _ []) with R.
    assert (Hget : get_or p [] R =
                   map registro_de_fila
                     (filter
                        (fun row => String.eqb (fa_persona_nombre row) p)
                        (ordenar
                           (fun a b => String.leb (fa_hora a) (fa_hora b))
                           (filter
                              (fun row => String.eqb (fa_fecha row) f)
                              ta)))).
    { destruct (agrupar_fold
                  (ordenar (fun a b => String.leb (fa_hora a) (fa_hora b))
                     (filter (fun row => String.eqb (fa_fecha row) f) ta))
                  vacio) as (_ & Hget & _).
      exact (Hget p). }
    rewrite Hget.
    assert (Hs : StronglySorted
                   (fun a b => String.leb (hora a) (hora b) = true)
                   (map registro_de_fila
                      (filter
                         (fun row => String.eqb (fa_persona_nombre row) p)
                         (ordenar
                            (fun a b => String.leb (fa_hora a) (fa_hora b))
                            (filter
                               (fun row => String.eqb (fa_fecha row) f)
                               ta))))).
    { apply map_ordenado. apply filter_ordenado.
      apply (ordenar_ordenado
               (fun a b => String.leb (fa_hora a) (fa_hora b))
               hora_asc_total hora_asc_trans). }
    split; [reflexivity|]. split; [|split; exact Hs].
    apply Permutation_map. unfold filas_de. cbn [tabla_asistencias].
    rewrite <- filter_filter_and.
    apply filter_perm, Permutation_sym, ordenar_perm.
  - do 2 eexists. split; [reflexivity|]. split; [reflexivity|].
    split; [reflexivity | intros H; discriminate H].
Qed.

Lemma historial_y_asistencia_fecha_testigo :
  let w := mundo_supabase (reloj_fijo las_9_00_05) true []
             [mkFilaAsistencia "Ana" (Some "salida") "2024-05-02" "17:00:00";
              mkFilaAsistencia "Ana" (Some "entrada") "2024-05-03" "08:00:00";
              mkFilaAsistencia "Ana" (Some "entrada") "2024-05-02" "09:00:00"] in
  exists historial,
    obtener_historial_completo w = (Ok historial, w) /\
    get_or "Ana" [] (get_or "2024-05-02" vacio historial) =
      [mkRegistro (Some "entrada") "09:00:00";
       mkRegistro (Some "salida") "17:00:00"].
Proof.
  cbv zeta.
  destruct (historial_y_asistencia_fecha "2024-05-02"
              (mundo_supabase (reloj_fijo las_9_00_05) true []
                 [mkFilaAsistencia "Ana" (Some "salida") "2024-05-02" "17:00:00";
                  mkFilaAsistencia "Ana" (Some "entrada") "2024-05-03" "08:00:00";
                  mkFilaAsistencia "Ana" (Some "entrada") "2024-05-02"
                    "09:00:00"]))
    as (historial & registros & Hh & _ & _ & _).
  - intros _. split; reflexivity.
  - exists historial. split; [exact Hh|].
    apply (f_equal fst) in Hh. vm_compute in Hh. injection Hh as <-.
    reflexivity.
Defined.

(* ===================================================================== *)
(** * Further properties of the request handlers *)
(* ===================================================================== *)

Lemma split_sin_separador (sep : ascii) (s : string) :
  contiene sep s = false -> split sep s = [s].
Proof.
  induction s as [|c s IH]; [reflexivity|].
  cbn [contiene split]. intros H. apply orb_false_iff in H as [Hc Hs].
  rewrite Hc, (IH Hs). reflexivity.
Qed.

Lemma split_append (sep : ascii) (p r : string) :
  contiene sep p = false ->
  split sep (String.append p (String sep r)) = p :: split sep r.
Proof.
  induction p as [|c p IH]; cbn [contiene String.append split].
  - intros _. now rewrite Ascii.eqb_refl.
  - intros H. apply orb_false_iff in H as [Hc Hp].
    rewrite Hc, (IH Hp). reflexivity.
Qed.

Lemma contiene_append (sep : ascii) (p r : string) :
  contiene sep (String.append p (String sep r)) = true.
Proof.
  induction p as [|c p IH]; cbn [contiene String.append].
  - now rewrite Ascii.eqb_refl.
  - rewrite IH. apply orb_true_r.
Qed.

(** X21. [base64_to_image] decodes a text without a comma as it is, and
    otherwise what stands between the first comma and the second one or the
    end: a prefix without a comma is removed, so the text
    [image_to_base64] produces gives back the encoded image, and whatever
    follows a second comma is dropped. *)
Theorem quitar_prefijo_datos (prefijo datos resto : string) :
  contiene ","%char prefijo = false ->
  contiene ","%char datos = false ->
  quitar_prefijo datos = datos /\
  quitar_prefijo (image_to_base64 datos) = datos /\
  quitar_prefijo (String.append prefijo (String ","%char datos)) = datos /\
  quitar_prefijo
    (String.append prefijo
       (String ","%char (String.append datos (String ","%char resto)))) =
  datos.
Proof.
  intros Hp Hd. unfold quitar_prefijo. split; [now rewrite Hd|].
  assert (H : forall p, contiene ","%char p = false ->
                nth 1 (split ","%char (String.append p (String ","%char datos)))
                  EmptyString = datos).
  { intros p Hc. rewrite (split_append _ _ _ Hc).
    now rewrite (split_sin_separador _ _ Hd). }
  split; [|split].
  - unfold image_to_base64.
    change (String.append "data:image/jpeg;base64," datos)
      with (String.append "data:image/jpeg;base64" (String ","%char datos)).
    rewrite contiene_append. now apply H.
  - rewrite contiene_append. now apply H.
  - rewrite contiene_append, (split_append _ _ _ Hp).
    now rewrite (split_append _ _ _ Hd).
Qed.

Lemma quitar_prefijo_datos_testigo :
  quitar_prefijo "data:image/png;base64,QUJD" = "QUJD" /\
  quitar_prefijo "data:image/png;base64,QUJD,REVG" = "QUJD".
Proof.
  destruct (quitar_prefijo_datos "data:image/png;base64" "QUJD" "REVG")
    as (_ & _ & H1 & H2); [reflexivity | reflexivity |].
  split; [exact H1 | exact H2].
Defined.

(** X22. Requests that change nothing.  [POST /api/detectar] always answers
    and never changes the service: status 400 without an image, status 500
    when the image cannot be decoded, and otherwise one record per detected
    face.  [POST /api/asistencia/registrar] and [POST /api/registrar] answer
    400 when the image, or the name, is missing or empty and 500 when the
    image cannot be decoded, and leave the service as it was. *)
Theorem peticiones_sin_efecto
    (np_dot : Embedding -> Embedding -> Q) (w : Mundo) :
  (forall imagen,
     exists resp,
       api_detectar_rostros np_dot imagen w = (Ok resp, w) /\
       match imagen with
       | None => resp = RespError "No se proporcionó imagen" 400
       | Some Ilegible => resp = RespExcepcion DecodeError
       | Some (Legible faces) =>
           exists rostros,
             resp = RespRostros rostros (Z.of_nat (List.length faces)) /\
             List.length rostros = List.length faces
       end) /\
  api_registrar_asistencia np_dot None w =
    (Ok (RespError "No se proporcionó imagen" 400), w) /\
  api_registrar_asistencia np_dot (Some Ilegible) w =
    (Ok (RespExcepcion DecodeError), w) /\
  (forall nombre imagen,
     no_vacia nombre = None \/ imagen = None ->
     api_registrar_persona nombre imagen w =
     (Ok (RespError "Faltan datos (nombre o imagen)" 400), w)) /\
  (forall nombre,
     no_vacia nombre <> None ->
     api_registrar_persona nombre (Some Ilegible) w =
     (Ok (RespExcepcion DecodeError), w)).
Proof.
  split; [|split; [|split; [|split]]].
  - intros [[|faces]|].
    + eexists. split; reflexivity.
    + assert (H : exists rostros,
                 detectar_rostros np_dot faces w = (Ok rostros, w) /\
                 List.length rostros = List.length faces).
      { induction faces as [|face faces (rostros & IH & Hl)].
        - exists []. split; reflexivity.
        - destruct (rostro_de_forma np_dot face w) as (ge & n & s & Hr).
          eexists. cbn [detectar_rostros]. unfold bind at 1. rewrite Hr.
          unfold bind at 1. rewrite IH. split; [reflexivity|].
          cbn [List.length]. now rewrite Hl. }
      destruct H as (rostros & Hd & Hl).
      eexists. unfold api_detectar_rostros, manejar, try_except, app_get.
      unfold bind at 1. unfold ret at 1. unfold bind at 1. rewrite Hd.
      split; [reflexivity|].
      eexists. split; [|rewrite length_map; exact Hl].
      now rewrite length_map, Hl.
    + eexists. split; reflexivity.
  - reflexivity.
  - reflexivity.
  - intros nombre imagen [H|H]; unfold api_registrar_persona.
    + rewrite H. reflexivity.
    + rewrite H. destruct (no_vacia nombre); reflexivity.
  - intros nombre H. unfold api_registrar_persona.
    destruct (no_vacia nombre); [reflexivity | contradiction].
Qed.

Lemma peticiones_sin_efecto_testigo :
  api_registrar_persona (Some "") (Some (Legible [cara_de_ana]))
    (mundo_local (reloj_fijo las_9_00_05) [] []) =
  (Ok (RespError "Faltan datos (nombre o imagen)" 400),
   mundo_local (reloj_fijo las_9_00_05) [] []).
Proof.
  destruct (peticiones_sin_efecto producto_punto
              (mundo_local (reloj_fijo las_9_00_05) [] []))
    as (_ & _ & _ & H & _).
  apply H. left. reflexivity.
Defined.

(* ===================================================================== *)
(** * Registration followed by recognition *)
(* ===================================================================== *)

Lemma in_set_mismo {V} (k : string) (v : V) (d : dict V) :
  In (k, v) (set k v d).
Proof.
  induction d as [|[k' v'] d IH]; simpl; [now left|].
  destruct (String.eqb k k'); [now left | now right].
Qed.

Lemma in_candidatos (personas : dict Persona) (n : string) (datos : Persona)
    (e : Embedding) :
  In (n, datos) personas -> embedding datos = Some e -> e <> [] ->
  In (n, e) (candidatos personas).
Proof.
  intros Hin He Hne.
  induction personas as [|[k d] p IH]; [contradiction|].
  cbn [candidatos]. destruct Hin as [[= -> ->]|Hin].
  - rewrite He. destruct e as [|x v]; [contradiction | now left].
  - destruct (embedding d) as [[|x v]|]; auto. right. auto.
Qed.

(** X23. A person just registered is recognised in the same face: when the
    product of the face's embedding with itself is positive and reaches the
    threshold, and every other stored embedding scores strictly less against
    it, [_reconocer_persona] answers the new name with that product, whether
    or not the registration could be persisted. *)
Theorem registrar_y_reconocer
    (np_dot : Embedding -> Embedding -> Q) (nombre : string) (face : Face)
    (umbral : Q) (w : Mundo) :
  let e := normed_embedding face in
  wf (personas_registradas w) ->
  e <> [] ->
  (0 < np_dot e e)%Q ->
  (umbral <= np_dot e e)%Q ->
  (forall n datos reg,
     In (n, datos) (personas_registradas w) -> n <> nombre ->
     embedding datos = Some reg -> reg <> [] ->
     (np_dot e reg < np_dot e e)%Q) ->
  let w' := snd (registrar_persona nombre [face] w) in
  _reconocer_persona np_dot e umbral w' = (Ok (Some nombre, np_dot e e), w').
Proof.
  intros e Hwf Hne Hpos Hum Hotros w'.
  destruct (registrar_persona_una_cara nombre face w)
    as (r & w1 & Hr & Hstore & _).
  assert (Hw' : w' = w1) by (subst w'; now rewrite Hr).
  clearbody w'. subst w1.
  destruct (reconocer_persona_fold np_dot e umbral w')
    as (m & s & Hinv & Hrec).
  rewrite Hrec. rewrite Hstore in Hinv.
  set (info := persona_info face (lectura w 0)) in *.
  assert (Hin : In (nombre, e)
                  (candidatos (set nombre info (personas_registradas w)))).
  { apply (in_candidatos _ _ info); [apply in_set_mismo | reflexivity | exact Hne]. }
  destruct m as [n0|]; simpl in Hinv.
  - destruct Hinv as (_ & antes & reg & despues & Hc & Hs & Hantes & Hdesp).
    assert (Hle : (np_dot e e <= s)%Q).
    { rewrite Hc in Hin. apply in_app_or in Hin as [Hin|[Hin|Hin]].
      - apply Qlt_le_weak. now apply (Hantes nombre).
      - injection Hin as _ ->. rewrite Hs. apply Qle_refl.
      - now apply (Hdesp nombre). }
    destruct (candidatos_keys (set nombre info (personas_registradas w)) n0 reg)
      as (_ & Hreg & datos & Hd & Hemb).
    { rewrite Hc. apply in_or_app. right. now left. }
    apply (in_set_otro _ _ _ _ _ Hwf) in Hd as [[-> ->]|[Hn0 Hd]].
    + cbn [info persona_info embedding] in Hemb. injection Hemb as <-.
      fold e in Hs. subst s.
      apply Qle_bool_iff in Hum. rewrite Hum. reflexivity.
    + exfalso. apply (Qlt_irrefl s).
      apply Qlt_le_trans with (np_dot e e); [|exact Hle].
      rewrite Hs. now apply (Hotros n0 datos reg).
  - destruct Hinv as [_ Hall]. exfalso.
    apply (Qlt_not_le _ _ Hpos). now apply (Hall nombre).
Qed.

Lemma registrar_y_reconocer_testigo :
  fst (_reconocer_persona producto_punto [1%Q; 0%Q] UMBRAL_DEFECTO
         (snd (registrar_persona "Ana" [cara_de_ana]
                 (mundo_local (reloj_fijo las_9_00_05) []
                    [("Bob", persona_con [0%Q; 1%Q])])))) =
  Ok (Some "Ana", producto_punto [1%Q; 0%Q] [1%Q; 0%Q]).
Proof.
  refine (f_equal fst
            (registrar_y_reconocer producto_punto "Ana" cara_de_ana
               UMBRAL_DEFECTO
               (mundo_local (reloj_fijo las_9_00_05) []
                  [("Bob", persona_con [0%Q; 1%Q])]) _ _ _ _ _)).
  - repeat constructor. simpl. tauto.
  - discriminate.
  - reflexivity.
  - vm_compute. discriminate.
  - intros n datos reg [[= <- <-]|[]] _ [= <-] _. reflexivity.
Defined.
